(** * Subscription ledger and entitlement gate of the website-builder backend

    A shallow embedding of the subscription lifecycle code
    (webhook controller, subscription controller, subscription utilities)
    and of the website actions that consume it (publish, custom domain,
    delete), followed by the properties established about them.

    Conventions of the embedding
    - A JavaScript [Date] is the number of milliseconds since the epoch, in [Z];
      every [new Date()] of one request reads the same clock value [now].
    - A MongoDB collection is the list of its documents in natural order;
      [findOne] returns the first match.  Collection operations are total:
      connection failures of the database are outside the model.
    - Identifiers are strings; stored ObjectIds are kept in their canonical
      string form (24 hexadecimal digits in lower case), so that [toString]
      is the identity on them.  A string that a request gives where the
      schema has an ObjectId is cast by Mongoose before it is compared
      ([castObjectId]); the ids that the webhook handlers store are those
      of the provider's metadata, as they are.
    - The billing provider is a record of functions that either return a
      value or throw a provider error.
    - Console output is not modelled. *)

From Stdlib Require Import ZArith String Ascii List Bool Lia.
From stdpp Require Import base option list gmap strings pretty.

Set Warnings "-register-all".
Local Open Scope string_scope.
Local Open Scope Z_scope.

(* ================================================================== *)
(** ** JavaScript values used by the responses *)
(* ================================================================== *)

Definition Date := Z.

Inductive Json :=
| JNull
| JBool (b : bool)
| JNum (n : Z)
| JStr (s : string)
| JDate (d : Date)
| JObj (fields : list (string * Json)).

Record Response := mkResponse { statusCode : Z; body : Json }.

Fixpoint assoc {A} (k : string) (l : list (string * A)) : option A :=
  match l with
  | [] => None
  | (k', v) :: l' => if String.eqb k k' then Some v else assoc k l'
  end.

(** [body.key] of a JSON response. *)
Definition field (k : string) (j : Json) : option Json :=
  match j with
  | JObj fs => assoc k fs
  | _ => None
  end.

Definition jsonOfOptDate (d : option Date) : Json :=
  match d with Some t => JDate t | None => JNull end.

(** Errors are either thrown by the provider SDK or by the runtime; the
    handlers read [type], [code] and [message] of what they catch. *)
Record JsError := mkError {
  err_type : option string;
  err_code : option string;
  err_message : string }.

Inductive Result (A : Type) :=
| Ok (a : A)
| Throw (e : JsError).
Arguments Ok {A} a.
Arguments Throw {A} e.

(** [await]: the continuation runs on a value, a rejection propagates. *)
#[export] Instance Result_bind : MBind Result := fun A B k r =>
  match r with
  | Ok a => k a
  | Throw e => Throw e
  end.

#[export] Instance Result_ret : MRet Result := fun A a => Ok a.

(* ================================================================== *)
(** ** String helpers ([match], [toLowerCase], [trim]) *)
(* ================================================================== *)

Definition inRange (lo hi c : ascii) : bool :=
  (nat_of_ascii lo <=? nat_of_ascii c)%nat && (nat_of_ascii c <=? nat_of_ascii hi)%nat.

Definition isDigit (c : ascii) : bool := inRange "0" "9" c.
Definition isLower (c : ascii) : bool := inRange "a" "z" c.
Definition isUpper (c : ascii) : bool := inRange "A" "Z" c.
Definition isHex (c : ascii) : bool :=
  isDigit c || inRange "a" "f" c || inRange "A" "F" c.

(** [/^[0-9a-fA-F]{24}$/] *)
Definition isObjectIdString (s : string) : bool :=
  (String.length s =? 24)%nat && forallb isHex (list_ascii_of_string s).

Definition lowerChar (c : ascii) : ascii :=
  if isUpper c then ascii_of_nat (nat_of_ascii c + 32) else c.

(** [String.prototype.toLowerCase] on the ASCII letters. *)
Fixpoint toLowerCase (s : string) : string :=
  match s with
  | EmptyString => EmptyString
  | String c s' => String (lowerChar c) (toLowerCase s')
  end.

(** The cast of a string to an ObjectId, which Mongoose applies to the
    values of a filter and to the argument of [findById]: 24 hexadecimal
    digits are the ObjectId they spell, whose string form is in lower case;
    every other string is refused with a CastError (the ObjectId
    constructor of the driver of Mongoose 8 takes a string in this form
    only). *)
Definition castObjectId (s : string) : option string :=
  if isObjectIdString s then Some (toLowerCase s) else None.

(* ================================================================== *)
(** ** models/Subscription.model.js *)
(* ================================================================== *)

Record Subscription := mkSubscription {
  email : option string;
  userId : option string;
  productId : option string;
  websiteId : option string;
  subscriptionId : string;
  status : string;
  startDate : option Date;
  currentPeriodEnd : option Date;
  canceledAt : option Date;
  cancelAtPeriodEnd : bool;
  trialEnd : option Date;
  metadata : list (string * string);
  updatedAt : Date }.

(** The schema's enumeration of [status]; documents are validated against
    it by [save], not by [findOneAndUpdate]. *)
Definition statusEnum : list string :=
  ["active"; "canceled"; "incomplete"; "past_due"; "unpaid"; "trialing"].

Definition inEnum (s : string) : bool := existsb (String.eqb s) statusEnum.

(** [date > now] where a missing date compares false. *)
Definition dateGt (d : option Date) (now : Date) : bool :=
  match d with Some t => now <? t | None => false end.

Definition dateGe (d : option Date) (now : Date) : bool :=
  match d with Some t => now <=? t | None => false end.

(** [SubscriptionSchema.methods.isActive] *)
Definition isActive (now : Date) (s : Subscription) : bool :=
  String.eqb (status s) "active" && dateGt (currentPeriodEnd s) now.

(* ================================================================== *)
(** ** The Subscription collection *)
(* ================================================================== *)

(** An update document: for each path of the schema, [None] when the key
    is absent (or [undefined], which the driver drops) and [Some v] when
    the key is set to [v]; [v] itself can be [null] where the document's
    field can.  With [timestamps: true] every update also stamps
    [updatedAt].  The schema's setters on [email] are not modelled. *)
Record Update := mkUpdate {
  u_email : option (option string);
  u_userId : option (option string);
  u_productId : option (option string);
  u_websiteId : option (option string);
  u_status : option string;
  u_startDate : option (option Date);
  u_currentPeriodEnd : option (option Date);
  u_canceledAt : option (option Date);
  u_cancelAtPeriodEnd : option bool;
  u_trialEnd : option (option Date);
  u_metadata : option (list (string * string)) }.

Definition applyUpdate (now : Date) (u : Update) (s : Subscription) : Subscription :=
  {| email := default (email s) (u_email u);
     userId := default (userId s) (u_userId u);
     productId := default (productId s) (u_productId u);
     websiteId := default (websiteId s) (u_websiteId u);
     subscriptionId := subscriptionId s;
     status := default (status s) (u_status u);
     startDate := default (startDate s) (u_startDate u);
     currentPeriodEnd := default (currentPeriodEnd s) (u_currentPeriodEnd u);
     canceledAt := default (canceledAt s) (u_canceledAt u);
     cancelAtPeriodEnd := default (cancelAtPeriodEnd s) (u_cancelAtPeriodEnd u);
     trialEnd := default (trialEnd s) (u_trialEnd u);
     metadata := default (metadata s) (u_metadata u);
     updatedAt := now |}.

(** The document an upsert starts from: the filter's key and the schema
    defaults. *)
Definition schemaDefaults (sid : string) (now : Date) : Subscription :=
  {| email := None; userId := None; productId := None; websiteId := None;
     subscriptionId := sid;
     status := "incomplete";
     startDate := None; currentPeriodEnd := None;
     canceledAt := None; cancelAtPeriodEnd := false; trialEnd := None;
     metadata := []; updatedAt := now |}.

(** [Subscription.findOne({ subscriptionId })] *)
Definition findBySubscriptionId (sid : string) (subs : list Subscription)
  : option Subscription :=
  find (fun s => String.eqb (subscriptionId s) sid) subs.

(** [Subscription.findOneAndUpdate({ subscriptionId }, update)]: the first
    document with that key is updated; without a match nothing is written. *)
Fixpoint findOneAndUpdate (sid : string) (now : Date) (u : Update)
    (subs : list Subscription) : list Subscription :=
  match subs with
  | [] => []
  | s :: rest =>
      if String.eqb (subscriptionId s) sid
      then applyUpdate now u s :: rest
      else s :: findOneAndUpdate sid now u rest
  end.

(** [findOneAndUpdate(..., { upsert: true })]: as above, and a document is
    inserted when none matches. *)
Definition findOneAndUpsert (sid : string) (now : Date) (u : Update)
    (subs : list Subscription) : list Subscription :=
  match findBySubscriptionId sid subs with
  | Some _ => findOneAndUpdate sid now u subs
  | None => subs ++ [applyUpdate now u (schemaDefaults sid now)]
  end.

(* ================================================================== *)
(** ** The billing provider *)
(* ================================================================== *)

Record StripeItem := mkItem { price_product : option string }.

Record StripeSubscription := mkStripeSubscription {
  id : string;
  sub_status : string;
  current_period_start : Z;
  current_period_end : Z;
  trial_end : option Z;
  canceled_at : option Z;
  cancel_at : option Z;
  cancel_at_period_end : bool;
  sub_metadata : list (string * string);
  items_data : list StripeItem }.

Record Customer := mkCustomer { customer_email : option string }.

Record Session := mkSession {
  session_subscription : option string;
  session_customer : option string;
  session_customer_email : option string }.

Record Period := mkPeriod { period_start : Z; period_end : Z }.
Record LineItem := mkLineItem { period : option Period }.

Record Invoice := mkInvoice {
  invoice_subscription : option string;
  invoice_customer : option string;
  lines_data : option (list LineItem) }.

(** A verified event: its [type] and the object it carries.  [OtherEvent]
    stands for every type the dispatcher has no case for. *)
Inductive Event :=
| CheckoutSessionCompleted (session : Session)
| InvoicePaymentSucceeded (invoice : Invoice)
| InvoicePaymentFailed (invoice : Invoice)
| CustomerSubscriptionUpdated (subscription : StripeSubscription)
| CustomerSubscriptionDeleted (subscription : StripeSubscription)
| CustomerSubscriptionTrialWillEnd (subscription : StripeSubscription)
| OtherEvent (type : string).

Definition event_type (e : Event) : string :=
  match e with
  | CheckoutSessionCompleted _ => "checkout.session.completed"
  | InvoicePaymentSucceeded _ => "invoice.payment_succeeded"
  | InvoicePaymentFailed _ => "invoice.payment_failed"
  | CustomerSubscriptionUpdated _ => "customer.subscription.updated"
  | CustomerSubscriptionDeleted _ => "customer.subscription.deleted"
  | CustomerSubscriptionTrialWillEnd _ => "customer.subscription.trial_will_end"
  | OtherEvent t => t
  end.

Record Stripe := mkStripe {
  webhooks_constructEvent : string -> option string -> option string -> Result Event;
  subscriptions_retrieve : string -> Result StripeSubscription;
  customers_retrieve : option string -> Result Customer;
  subscriptions_cancel : string -> Result StripeSubscription;
  subscriptions_update : string -> bool -> Result StripeSubscription }.

(** Truthiness of a string and of a number that may be missing. *)
Definition truthyStr (o : option string) : option string :=
  match o with
  | Some s => if String.eqb s "" then None else Some s
  | None => None
  end.

Definition truthyNum (o : option Z) : option Z :=
  match o with
  | Some n => if n =? 0 then None else Some n
  | None => None
  end.

(** [x ? new Date(x * 1000) : null] *)
Definition dateOrNull (seconds : option Z) : option Date :=
  match truthyNum seconds with
  | Some n => Some (n * 1000)
  | None => None
  end.

(** [subscription.items.data[0]?.price?.product || "unknown"] *)
Definition productOf (sub : StripeSubscription) : string :=
  match truthyStr (head (items_data sub) ≫= price_product) with
  | Some p => p
  | None => "unknown"
  end.

(* ================================================================== *)
(** ** controllers/webhook.Controller.js *)
(* ================================================================== *)

(** The status mapping of the payment-succeeded and subscription-updated
    handlers. *)
Definition mapStatus (status : string) : string :=
  if String.eqb status "past_due" || String.eqb status "unpaid"
  then "incomplete"
  else status.

Definition handleCheckoutCompleted (stripe : Stripe) (now : Date)
    (session : Session) (subs : list Subscription) : Result (list Subscription) :=
  match truthyStr (session_subscription session) with
  | None => Ok subs
  | Some subscriptionId =>
      subscription ← subscriptions_retrieve stripe subscriptionId;
      customer ← customers_retrieve stripe (session_customer session);
      let websiteId := assoc "websiteId" (sub_metadata subscription) in
      let userId := assoc "userId" (sub_metadata subscription) in
      let email :=
        match truthyStr (customer_email customer) with
        | Some e => Some e
        | None => session_customer_email session
        end in
      match truthyStr websiteId, truthyStr userId with
      | Some websiteId, Some userId =>
          let productId := productOf subscription in
          let currentPeriodEnd := current_period_end subscription * 1000 in
          let startDate := current_period_start subscription * 1000 in
          Ok (findOneAndUpsert subscriptionId now
                {| u_email := Some email;
                   u_userId := Some (Some userId);
                   u_productId := Some (Some productId);
                   u_websiteId := Some (Some websiteId);
                   u_status := Some (sub_status subscription);
                   u_startDate := Some (Some startDate);
                   u_currentPeriodEnd := Some (Some currentPeriodEnd);
                   u_canceledAt := None;
                   u_cancelAtPeriodEnd := Some (cancel_at_period_end subscription);
                   u_trialEnd := Some (dateOrNull (trial_end subscription));
                   u_metadata := Some (sub_metadata subscription) |}
                subs)
      | _, _ => Ok subs
      end
  end.

(** [invoice.lines?.data[0]?.period] *)
Definition firstLinePeriod (invoice : Invoice) : option Period :=
  match lines_data invoice with
  | Some (line :: _) => period line
  | _ => None
  end.

Definition handlePaymentSucceeded (stripe : Stripe) (now : Date)
    (invoice : Invoice) (subs : list Subscription) : Result (list Subscription) :=
  match truthyStr (invoice_subscription invoice) with
  | None => Ok subs
  | Some subscriptionId =>
      customer ← customers_retrieve stripe (invoice_customer invoice);
      subscription ← subscriptions_retrieve stripe subscriptionId;
      let websiteId := assoc "websiteId" (sub_metadata subscription) in
      let userId := assoc "userId" (sub_metadata subscription) in
      let email := customer_email customer in
      let productId := productOf subscription in
      let currentPeriodEnd :=
        match truthyNum (period_end <$> firstLinePeriod invoice) with
        | Some e => e * 1000
        | None => current_period_end subscription * 1000
        end in
      let startDate :=
        match truthyNum (period_start <$> firstLinePeriod invoice) with
        | Some b => b * 1000
        | None => current_period_start subscription * 1000
        end in
      let status := mapStatus (sub_status subscription) in
      Ok (findOneAndUpsert subscriptionId now
            {| u_email := Some email;
               u_userId := Some <$> userId;
               u_productId := Some (Some productId);
               u_websiteId := Some <$> websiteId;
               u_status := Some status;
               u_startDate := Some (Some startDate);
               u_currentPeriodEnd := Some (Some currentPeriodEnd);
               u_canceledAt := None;
               u_cancelAtPeriodEnd := Some (cancel_at_period_end subscription);
               u_trialEnd := Some (dateOrNull (trial_end subscription));
               u_metadata := None |}
            subs)
  end.

(** An update that sets nothing but [updatedAt]. *)
Definition touch : Update :=
  {| u_email := None; u_userId := None; u_productId := None;
     u_websiteId := None; u_status := None; u_startDate := None;
     u_currentPeriodEnd := None; u_canceledAt := None;
     u_cancelAtPeriodEnd := None; u_trialEnd := None; u_metadata := None |}.

Definition handlePaymentFailed (now : Date) (invoice : Invoice)
    (subs : list Subscription) : Result (list Subscription) :=
  match truthyStr (invoice_subscription invoice) with
  | None => Ok subs
  | Some subscriptionId =>
      Ok (findOneAndUpdate subscriptionId now
            {| u_email := None; u_userId := None; u_productId := None;
               u_websiteId := None;
               u_status := Some "incomplete";
               u_startDate := None; u_currentPeriodEnd := None;
               u_canceledAt := None; u_cancelAtPeriodEnd := None;
               u_trialEnd := None; u_metadata := None |}
            subs)
  end.

Definition handleSubscriptionUpdated (now : Date)
    (subscription : StripeSubscription) (subs : list Subscription)
  : Result (list Subscription) :=
  let subscriptionId := id subscription in
  let currentPeriodEnd := current_period_end subscription * 1000 in
  let status := mapStatus (sub_status subscription) in
  Ok (findOneAndUpdate subscriptionId now
        {| u_email := None; u_userId := None; u_productId := None;
           u_websiteId := None;
           u_status := Some status;
           u_startDate := None;
           u_currentPeriodEnd := Some (Some currentPeriodEnd);
           u_canceledAt := Some (dateOrNull (canceled_at subscription));
           u_cancelAtPeriodEnd := Some (cancel_at_period_end subscription);
           u_trialEnd := Some (dateOrNull (trial_end subscription));
           u_metadata := None |}
        subs).

(** [subscription.canceled_at ? new Date(canceled_at * 1000) : new Date()] *)
Definition deletedCanceledAt (now : Date) (subscription : StripeSubscription) : Date :=
  match truthyNum (canceled_at subscription) with
  | Some c => c * 1000
  | None => now
  end.

Definition handleSubscriptionDeleted (now : Date)
    (subscription : StripeSubscription) (subs : list Subscription)
  : Result (list Subscription) :=
  let subscriptionId := id subscription in
  let canceledAt := deletedCanceledAt now subscription in
  let subs' :=
    findOneAndUpdate subscriptionId now
      {| u_email := None; u_userId := None; u_productId := None;
         u_websiteId := None;
         u_status := Some "canceled";
         u_startDate := None; u_currentPeriodEnd := None;
         u_canceledAt := Some (Some canceledAt);
         u_cancelAtPeriodEnd := Some false;
         u_trialEnd := None; u_metadata := None |}
      subs in
  (* the result of the update is only read under [if (updatedSubscription)] *)
  match findBySubscriptionId subscriptionId subs' with
  | Some updatedSubscription => Ok subs'
  | None => Ok subs'
  end.

Definition handleTrialWillEnd (now : Date) (subscription : StripeSubscription)
    (subs : list Subscription) : Result (list Subscription) :=
  match findBySubscriptionId (id subscription) subs with
  | Some dbSubscription => Ok subs
  | None => Ok subs
  end.

(** The [switch (event.type)] of [handleWebhook]. *)
Definition dispatch (stripe : Stripe) (now : Date) (event : Event)
    (subs : list Subscription) : Result (list Subscription) :=
  match event with
  | CheckoutSessionCompleted o => handleCheckoutCompleted stripe now o subs
  | InvoicePaymentSucceeded o => handlePaymentSucceeded stripe now o subs
  | InvoicePaymentFailed o => handlePaymentFailed now o subs
  | CustomerSubscriptionUpdated o => handleSubscriptionUpdated now o subs
  | CustomerSubscriptionDeleted o => handleSubscriptionDeleted now o subs
  | CustomerSubscriptionTrialWillEnd o => handleTrialWillEnd now o subs
  | OtherEvent _ => Ok subs
  end.

Record WebhookRequest := mkWebhookRequest {
  req_body : string;
  stripe_signature : option string }.

Definition handleWebhook (stripe : Stripe) (endpointSecret : option string)
    (now : Date) (req : WebhookRequest) (subs : list Subscription)
  : Response * list Subscription :=
  let sig := stripe_signature req in
  match webhooks_constructEvent stripe (req_body req) sig endpointSecret with
  | Throw err =>
      (mkResponse 400
         (JObj [("success", JBool false);
                ("message", JStr ("Webhook Error: " +:+ err_message err))]),
       subs)
  | Ok event =>
      match dispatch stripe now event subs with
      | Ok subs' =>
          (mkResponse 200
             (JObj [("success", JBool true);
                    ("received", JBool true);
                    ("eventType", JStr (event_type event))]),
           subs')
      | Throw error =>
          (mkResponse 500
             (JObj [("success", JBool false);
                    ("message", JStr "Webhook handler failed");
                    ("error", JStr (err_message error))]),
           subs)
      end
  end.

(* ================================================================== *)
(** ** utils/subscriptionUtils.js *)
(* ================================================================== *)

Definition optEqb (o : option string) (s : string) : bool :=
  match o with Some x => String.eqb x s | None => false end.

(** [Subscription.findOne({ websiteId, status: 'active',
    currentPeriodEnd: { $gt: new Date() } })]; the CastError of a
    [websiteId] that is no ObjectId is caught and [null] returned. *)
Definition getActiveSubscription (now : Date) (subs : list Subscription)
    (websiteId' : string) : option Subscription :=
  match castObjectId websiteId' with
  | Some websiteId' =>
      find (fun s => optEqb (websiteId s) websiteId'
                     && String.eqb (status s) "active"
                     && dateGt (currentPeriodEnd s) now) subs
  | None => None
  end.

(** Likewise with [userId] in the filter; the [catch] returns [false]. *)
Definition hasActiveSubscription (now : Date) (subs : list Subscription)
    (userId' websiteId' : string) : bool :=
  match castObjectId userId', castObjectId websiteId' with
  | Some userId', Some websiteId' =>
      match find (fun s => optEqb (userId s) userId'
                           && optEqb (websiteId s) websiteId'
                           && String.eqb (status s) "active"
                           && dateGt (currentPeriodEnd s) now) subs with
      | Some _ => true
      | None => false
      end
  | _, _ => false
  end.

Definition isSubscriptionValid (now : Date) (subscription : option Subscription) : bool :=
  match subscription with
  | None => false
  | Some s =>
      if negb (String.eqb (status s) "active") then false
      else match currentPeriodEnd s with
           | Some e => if e <=? now then false else true
           | None => true
           end
  end.

Record StatusEntry := mkEntry {
  hasActive : bool;
  subscription : option Subscription }.

(** The query casts [userId] and every element of [websiteIds]; when one
    of them is no ObjectId it throws, and the [catch] returns [{}].  The
    entries of the requested ids are keyed by the strings requested, those
    of the subscriptions found by [sub.websiteId.toString()]. *)
Definition getBulkSubscriptionStatus (now : Date) (subs : list Subscription)
    (userId' : string) (websiteIds : list string) : gmap string StatusEntry :=
  match castObjectId userId', mapM castObjectId websiteIds with
  | Some userId', Some ids =>
      let subscriptions :=
        List.filter (fun s => optEqb (userId s) userId'
                              && existsb (optEqb (websiteId s)) ids
                              && String.eqb (status s) "active") subs in
      let statusMap :=
        foldl (fun (m : gmap string StatusEntry) id =>
                 <[id := {| hasActive := false; subscription := None |}]> m)
              ∅ websiteIds in
      foldl (fun (m : gmap string StatusEntry) sub =>
               let isValid := dateGt (currentPeriodEnd sub) now in
               match websiteId sub with
               | Some w =>
                   <[w := {| hasActive := isValid;
                             subscription := if isValid then Some sub else None |}]> m
               | None => m
               end)
            statusMap subscriptions
  | _, _ => ∅
  end.

(** The pieces of [getBulkSubscriptionStatus] by name: the filter of its
    query on the ids as cast, the entry written for a requested id, the
    entry written for a subscription that was found. *)
Definition bulkMatch (userId' : string) (ids : list string)
    (s : Subscription) : bool :=
  optEqb (userId s) userId'
  && existsb (optEqb (websiteId s)) ids
  && String.eqb (status s) "active".

Definition noEntitlement : StatusEntry :=
  {| hasActive := false; subscription := None |}.

Definition initStep (m : gmap string StatusEntry) (i : string)
  : gmap string StatusEntry :=
  <[i := noEntitlement]> m.

Definition subStep (now : Date) (m : gmap string StatusEntry) (sub : Subscription)
  : gmap string StatusEntry :=
  let isValid := dateGt (currentPeriodEnd sub) now in
  match websiteId sub with
  | Some w =>
      <[w := {| hasActive := isValid;
                subscription := if isValid then Some sub else None |}]> m
  | None => m
  end.

(** The entry written for the subscription [sub]. *)
Definition entryOf (now : Date) (sub : Subscription) : StatusEntry :=
  let isValid := dateGt (currentPeriodEnd sub) now in
  {| hasActive := isValid; subscription := if isValid then Some sub else None |}.

(** The stored records that decide the entry of the website [w] for the
    user [userId']: those of that user and website with the status
    [active]. *)
Definition activeRecords (subs : list Subscription) (userId' w : string)
  : list Subscription :=
  List.filter (fun s => optEqb (userId s) userId' && optEqb (websiteId s) w
                        && String.eqb (status s) "active") subs.

(* ================================================================== *)
(** ** controllers/subscription.Controller.js *)
(* ================================================================== *)

(** What a query throws when a value of its filter is no ObjectId. *)
Definition castError : JsError :=
  mkError None None "Cast to ObjectId failed".

(** [Subscription.findOne({ userId, websiteId, status: 'active' })], with
    the ids as the query has cast them. *)
Definition findActiveFor (subs : list Subscription) (userId' websiteId' : string)
  : option Subscription :=
  find (fun s => optEqb (userId s) userId'
                 && optEqb (websiteId s) websiteId'
                 && String.eqb (status s) "active") subs.

Definition checkSubscription (now : Date) (subs : list Subscription)
    (userId' websiteId' : string) : Response :=
  if negb (isObjectIdString userId') || negb (isObjectIdString websiteId') then
    mkResponse 400
      (JObj [("success", JBool false);
             ("message", JStr "Invalid userId or websiteId")])
  else
    match castObjectId userId', castObjectId websiteId' with
    | Some userId', Some websiteId' =>
        match find (fun s => optEqb (userId s) userId'
                             && optEqb (websiteId s) websiteId'
                             && String.eqb (status s) "active"
                             && dateGe (currentPeriodEnd s) now) subs with
        | Some subscription =>
            mkResponse 200
              (JObj [("success", JBool true);
                     ("hasActiveSubscription", JBool true);
                     ("data", JObj
                        [("subscriptionId", JStr (subscriptionId subscription));
                         ("status", JStr (status subscription));
                         ("currentPeriodEnd", jsonOfOptDate (currentPeriodEnd subscription));
                         ("cancelAtPeriodEnd", JBool (cancelAtPeriodEnd subscription));
                         ("productId", match productId subscription with
                                       | Some p => JStr p | None => JNull end)])])
        | None =>
            mkResponse 200
              (JObj [("success", JBool true);
                     ("hasActiveSubscription", JBool false);
                     ("data", JNull)])
        end
    | _, _ =>
        mkResponse 500
          (JObj [("success", JBool false);
                 ("message", JStr "Error checking subscription");
                 ("error", JStr (err_message castError))])
    end.

(** *** Document validation run by [save] *)

Definition isSpace (c : ascii) : bool :=
  let n := nat_of_ascii c in
  (n =? 32)%nat || ((9 <=? n)%nat && (n <=? 13)%nat).

(** [[^\s@]+] on the whole string *)
Definition plainWord (s : string) : bool :=
  negb (String.eqb s "")
  && forallb (fun c => negb (isSpace c) && negb (Ascii.eqb c "@")) (list_ascii_of_string s).

(** Some split of [s] at a dot has a plain word on both sides. *)
Fixpoint dotted (pre : string) (s : string) : bool :=
  match s with
  | EmptyString => false
  | String c s' =>
      (Ascii.eqb c "." && plainWord pre && plainWord s')
      || dotted (pre +:+ String c EmptyString) s'
  end.

(** [/^[^\s@]+@[^\s@]+\.[^\s@]+$/] *)
Fixpoint emailRegex (pre : string) (s : string) : bool :=
  match s with
  | EmptyString => false
  | String c s' =>
      if Ascii.eqb c "@" then plainWord pre && dotted "" s'
      else emailRegex (pre +:+ String c EmptyString) s'
  end.

Definition required {A} (o : option A) : bool :=
  match o with Some _ => true | None => false end.

Definition requiredStr (o : option string) : bool :=
  match o with Some s => negb (String.eqb s "") | None => false end.

Definition validateSubscription (s : Subscription) : bool :=
  requiredStr (email s)
  && match email s with Some e => emailRegex "" e | None => false end
  && requiredStr (userId s)
  && requiredStr (productId s)
  && requiredStr (websiteId s)
  && negb (String.eqb (subscriptionId s) "")
  && inEnum (status s)
  && required (startDate s)
  && required (currentPeriodEnd s).

Definition validationError : JsError :=
  mkError None None "Subscription validation failed".

Definition typeError : JsError :=
  mkError None None "Cannot read properties of undefined".

Fixpoint replaceDoc (doc : Subscription) (subs : list Subscription) : list Subscription :=
  match subs with
  | [] => []
  | s :: rest =>
      if String.eqb (subscriptionId s) (subscriptionId doc)
      then doc :: rest
      else s :: replaceDoc doc rest
  end.

Definition withUpdatedAt (now : Date) (s : Subscription) : Subscription :=
  applyUpdate now touch s.

(** [subscription.save()] of a document that [findOne({ subscriptionId })]
    returned: validate, then write it back in place. *)
Definition save (now : Date) (doc : Subscription) (subs : list Subscription)
  : Result (list Subscription) :=
  if validateSubscription doc
  then Ok (replaceDoc (withUpdatedAt now doc) subs)
  else Throw validationError.

Record CancelRequest := mkCancelRequest {
  c_subscriptionId : option string;
  c_userId : option string;
  c_cancelImmediately : option bool }.

(** [userId && subscription.userId.toString() !== userId] *)
Definition notOwner (userId' : option string) (s : Subscription) : Result bool :=
  match truthyStr userId' with
  | None => Ok false
  | Some u =>
      match userId s with
      | Some owner => Ok (negb (String.eqb owner u))
      | None => Throw typeError
      end
  end.

Definition setStatus (v : string) (s : Subscription) : Subscription :=
  applyUpdate (updatedAt s)
    {| u_email := None; u_userId := None; u_productId := None;
       u_websiteId := None; u_status := Some v; u_startDate := None;
       u_currentPeriodEnd := None; u_canceledAt := None;
       u_cancelAtPeriodEnd := None; u_trialEnd := None; u_metadata := None |} s.

Definition setCanceledAt (v : option Date) (s : Subscription) : Subscription :=
  applyUpdate (updatedAt s)
    {| u_email := None; u_userId := None; u_productId := None;
       u_websiteId := None; u_status := None; u_startDate := None;
       u_currentPeriodEnd := None; u_canceledAt := Some v;
       u_cancelAtPeriodEnd := None; u_trialEnd := None; u_metadata := None |} s.

Definition setCancelAtPeriodEnd (v : bool) (s : Subscription) : Subscription :=
  applyUpdate (updatedAt s)
    {| u_email := None; u_userId := None; u_productId := None;
       u_websiteId := None; u_status := None; u_startDate := None;
       u_currentPeriodEnd := None; u_canceledAt := None;
       u_cancelAtPeriodEnd := Some v; u_trialEnd := None; u_metadata := None |} s.

Definition setCurrentPeriodEnd (v : option Date) (s : Subscription) : Subscription :=
  applyUpdate (updatedAt s)
    {| u_email := None; u_userId := None; u_productId := None;
       u_websiteId := None; u_status := None; u_startDate := None;
       u_currentPeriodEnd := Some v; u_canceledAt := None;
       u_cancelAtPeriodEnd := None; u_trialEnd := None; u_metadata := None |} s.

(** The [catch] block of [cancelSubscription]. *)
Definition cancelError (error : JsError) : Response :=
  if optEqb (err_type error) "StripeInvalidRequestError" then
    mkResponse 400
      (JObj [("success", JBool false);
             ("message", JStr "Invalid subscription ID or subscription already canceled");
             ("error", JStr (err_message error))])
  else if optEqb (err_code error) "resource_missing" then
    mkResponse 404
      (JObj [("success", JBool false);
             ("message", JStr "Subscription not found in Stripe");
             ("error", JStr (err_message error))])
  else
    mkResponse 500
      (JObj [("success", JBool false);
             ("message", JStr "Failed to cancel subscription");
             ("error", JStr (err_message error))]).

(** The [try] block of [cancelSubscription]: the response and the
    collection after it, or what it throws. *)
Definition cancelAttempt (stripe : Stripe) (now : Date) (req : CancelRequest)
    (subs : list Subscription) : Result (Response * list Subscription) :=
  let cancelImmediately := default false (c_cancelImmediately req) in
  match truthyStr (c_subscriptionId req) with
  | None =>
      Ok (mkResponse 400
            (JObj [("success", JBool false);
                   ("message", JStr "subscriptionId is required")]), subs)
  | Some subscriptionId =>
      match findBySubscriptionId subscriptionId subs with
      | None =>
          Ok (mkResponse 404
                (JObj [("success", JBool false);
                       ("message", JStr "Subscription not found in database")]), subs)
      | Some subscription =>
          denied ← notOwner (c_userId req) subscription;
          if denied : bool then
            Ok (mkResponse 403
                  (JObj [("success", JBool false);
                         ("message", JStr "You don't have permission to cancel this subscription")]),
                subs)
          else if String.eqb (status subscription) "canceled" then
            Ok (mkResponse 400
                  (JObj [("success", JBool false);
                         ("message", JStr "Subscription is already canceled")]), subs)
          else
            '(subscription, message, cancelAt) ←
              (if cancelImmediately then
                 updatedStripeSubscription ← subscriptions_cancel stripe subscriptionId;
                 let subscription := setStatus "canceled" subscription in
                 let subscription := setCanceledAt (Some now) subscription in
                 let subscription := setCancelAtPeriodEnd false subscription in
                 let subscription := setCurrentPeriodEnd (Some now) subscription in
                 Ok (subscription, "Subscription canceled immediately", Some now)
               else
                 updatedStripeSubscription ← subscriptions_update stripe subscriptionId true;
                 let subscription := setCancelAtPeriodEnd true subscription in
                 let subscription := setCanceledAt (Some now) subscription in
                 let subscription :=
                   setStatus (default "active"
                                (truthyStr (Some (sub_status updatedStripeSubscription))))
                             subscription in
                 let cancelAt :=
                   match truthyNum (cancel_at updatedStripeSubscription) with
                   | Some c => Some (c * 1000)
                   | None => currentPeriodEnd subscription
                   end in
                 Ok (subscription,
                     "Subscription will be canceled at the end of billing period",
                     cancelAt));
            subs' ← save now subscription subs;
            Ok (mkResponse 200
                  (JObj [("success", JBool true);
                         ("message", JStr message);
                         ("data", JObj
                            [("subscriptionId", JStr subscriptionId);
                             ("canceledImmediately", JBool cancelImmediately);
                             ("status", JStr (status subscription));
                             ("cancelAtPeriodEnd", JBool (cancelAtPeriodEnd subscription));
                             ("cancelAt", jsonOfOptDate cancelAt);
                             ("canceledAt", jsonOfOptDate (canceledAt subscription));
                             ("currentPeriodEnd", jsonOfOptDate (currentPeriodEnd subscription));
                             ("refundable", JBool cancelImmediately)])]),
                subs')
      end
  end.

Definition cancelSubscription (stripe : Stripe) (now : Date) (req : CancelRequest)
    (subs : list Subscription) : Response * list Subscription :=
  match cancelAttempt stripe now req subs with
  | Ok out => out
  | Throw error => (cancelError error, subs)
  end.

(** The document that the cancel-at-period-end branch hands to [save]. *)
Definition scheduledCancel (now : Date) (upd : StripeSubscription)
    (s : Subscription) : Subscription :=
  setStatus (default "active" (truthyStr (Some (sub_status upd))))
    (setCanceledAt (Some now) (setCancelAtPeriodEnd true s)).

(* ================================================================== *)
(** ** models/Website.model.js and the database *)
(* ================================================================== *)

(** A website as Mongoose loads it.  [isPublished] is [None] when [null]
    is stored; a document without the path reads as the default, [false]. *)
Record Website := mkWebsite {
  w_userId : string;
  templateId : option string;
  slug : string;
  customDomain : string;
  isPublished : option bool;
  publishedAt : option Date;
  isCustomDomainVerified : bool;
  domainVerifiedAt : option Date }.

(** Websites by [_id], the [usageCount] of the templates by [_id], and the
    subscriptions. *)
Record Db := mkDb {
  websites : gmap string Website;
  templates : gmap string Z;
  subscriptions : list Subscription }.

Definition withWebsites (ws : gmap string Website) (db : Db) : Db :=
  {| websites := ws; templates := templates db; subscriptions := subscriptions db |}.

Definition withTemplates (ts : gmap string Z) (db : Db) : Db :=
  {| websites := websites db; templates := ts; subscriptions := subscriptions db |}.

Definition withSubscriptions (ss : list Subscription) (db : Db) : Db :=
  {| websites := websites db; templates := templates db; subscriptions := ss |}.

(** The [publicUrl] virtual. *)
Definition publicUrl (frontendUrl : string) (w : Website) : Json :=
  if isCustomDomainVerified w && negb (String.eqb (customDomain w) "") then
    JStr ("https://" +:+ customDomain w)
  else if negb (String.eqb (slug w) "") then
    JStr (frontendUrl +:+ "/site/" +:+ slug w)
  else JNull.

(* ================================================================== *)
(** ** utils/slugUtils.js *)
(* ================================================================== *)

Definition isAlnum (c : ascii) : bool := isLower c || isDigit c.

(** The rest of [[a-z0-9]+(-[a-z0-9]+)*] after a character; [hyphen] tells
    whether that character was a hyphen. *)
Fixpoint wordsTail (hyphen : bool) (s : string) : bool :=
  match s with
  | EmptyString => negb hyphen
  | String c s' =>
      if isAlnum c then wordsTail false s'
      else if Ascii.eqb c "-" then negb hyphen && wordsTail true s'
      else false
  end.

(** [/^[a-z0-9]+(?:-[a-z0-9]+)*$/] *)
Definition slugRegex (s : string) : bool :=
  match s with
  | EmptyString => false
  | String c s' => isAlnum c && wordsTail false s'
  end.

Definition validateSlug (slug : string) : bool :=
  slugRegex slug
  && (3 <=? String.length slug)%nat && (String.length slug <=? 100)%nat.

(* ================================================================== *)
(** ** controllers/Website.controller.js *)
(* ================================================================== *)

Definition expiredBefore (d : option Date) (now : Date) : bool :=
  match d with Some t => t <? now | None => false end.

(** [Website.findOne({ slug, _id: { $ne: websiteId } })] finds a document;
    [_id] is the id as cast. *)
Definition slugTaken (ws : gmap string Website) (slug' _id : string) : bool :=
  existsb (fun '(i, w) => String.eqb (slug w) slug' && negb (String.eqb i _id))
          (map_to_list ws).

(** A value of the request body as the body parser leaves it: a missing
    key, [null], a boolean, an integral number, a number that is not
    integral, a string, or an object or array. *)
Inductive BodyValue :=
| VUndefined
| VNull
| VBool (b : bool)
| VNum (n : Z)
| VFraction
| VStr (s : string)
| VObject.

(** [if (v)] *)
Definition truthy (v : BodyValue) : bool :=
  match v with
  | VUndefined | VNull => false
  | VBool b => b
  | VNum n => negb (n =? 0)
  | VFraction => true
  | VStr s => negb (String.eqb s "")
  | VObject => true
  end.

(** What the assignment to a Boolean path leaves in the document:
    Mongoose reads [true], ['true'], [1], ['1'] and ['yes'] as [true],
    [false], ['false'], [0], ['0'] and ['no'] as [false], keeps [null]
    and [undefined], and refuses every other value, which fails the
    validation of [save]. *)
Inductive BooleanPath :=
| PathValue (b : bool)
| PathNull
| PathUnset
| PathCastError.

Definition castBoolean (v : BodyValue) : BooleanPath :=
  match v with
  | VBool b => PathValue b
  | VNum 1 => PathValue true
  | VNum 0 => PathValue false
  | VStr s =>
      if String.eqb s "true" || String.eqb s "1" || String.eqb s "yes"
      then PathValue true
      else if String.eqb s "false" || String.eqb s "0" || String.eqb s "no"
      then PathValue false
      else PathCastError
  | VNull => PathNull
  | VUndefined => PathUnset
  | VNum _ | VFraction | VObject => PathCastError
  end.

(** The value of the path in a response: [undefined] drops the key. *)
Definition jsonOfPath (key : string) (p : BooleanPath) : list (string * Json) :=
  match p with
  | PathValue b => [(key, JBool b)]
  | PathNull => [(key, JNull)]
  | PathUnset | PathCastError => []
  end.

(** The value the stored document has for the path when it is loaded
    again. *)
Definition storedPath (p : BooleanPath) : option bool :=
  match p with
  | PathValue b => Some b
  | PathNull => None
  | PathUnset | PathCastError => Some false
  end.

Definition websiteValidationError : JsError :=
  mkError None None "Website validation failed".

(** The body of the publish request.  [p_slug] is the [slug] of the body
    when it is a string, and [None] when it is missing or falsy; a truthy
    [slug] that is no string is outside the model ([validateSlug] refuses
    every such value). *)
Record PublishBody := mkPublishBody {
  p_isPublished : BodyValue;
  p_slug : option string }.

Definition publishWebsite (frontendUrl : string) (now : Date) (websiteId' : string)
    (reqBody : PublishBody) (db : Db) : Response * Db :=
  let isPublished' := p_isPublished reqBody in
  let failed (error : JsError) : Response :=
    mkResponse 500
      (JObj [("success", JBool false);
             ("message", JStr "Error publishing website");
             ("error", JStr (err_message error))]) in
  if negb (isObjectIdString websiteId') then
    (mkResponse 400
       (JObj [("success", JBool false); ("message", JStr "Invalid website ID")]), db)
  else
    match castObjectId websiteId' with
    | None => (failed castError, db)
    | Some _id =>
    match websites db !! _id with
    | None =>
        (mkResponse 404
           (JObj [("success", JBool false); ("message", JStr "Website not found")]), db)
    | Some website =>
        let subscription := findActiveFor (subscriptions db) (w_userId website) _id in
        let denied : option Response :=
          if match isPublished' with VBool true => true | _ => false end then
            match subscription with
            | None =>
                Some (mkResponse 403
                  (JObj [("success", JBool false);
                         ("message", JStr "Active subscription required to publish website");
                         ("requiresSubscription", JBool true)]))
            | Some subscription =>
                if expiredBefore (currentPeriodEnd subscription) now then
                  Some (mkResponse 403
                    (JObj [("success", JBool false);
                           ("message", JStr "Subscription has expired. Please renew to publish.");
                           ("requiresSubscription", JBool true)]))
                else None
            end
          else None in
        match denied with
        | Some res => (res, db)
        | None =>
            let slugChange : Response + string :=
              match truthyStr (p_slug reqBody) with
              | Some slug' =>
                  if String.eqb slug' (slug website) then inr (slug website)
                  else if negb (validateSlug slug') then
                    inl (mkResponse 400
                      (JObj [("success", JBool false);
                             ("message", JStr "Invalid slug format. Use only lowercase letters, numbers, and hyphens")]))
                  else if slugTaken (websites db) slug' _id then
                    inl (mkResponse 409
                      (JObj [("success", JBool false);
                             ("message", JStr "This slug is already taken")]))
                  else inr slug'
              | None => inr (slug website)
              end in
            match slugChange with
            | inl res => (res, db)
            | inr slug' =>
                let assigned := castBoolean isPublished' in
                match assigned with
                | PathCastError => (failed websiteValidationError, db)
                | _ =>
                    let website :=
                      {| w_userId := w_userId website;
                         templateId := templateId website;
                         slug := slug';
                         customDomain := customDomain website;
                         isPublished := storedPath assigned;
                         publishedAt := if truthy isPublished' then Some now else None;
                         isCustomDomainVerified := isCustomDomainVerified website;
                         domainVerifiedAt := domainVerifiedAt website |} in
                    (mkResponse 200
                       (JObj [("success", JBool true);
                              ("message", JStr (if truthy isPublished'
                                                then "Website published successfully"
                                                else "Website unpublished"));
                              ("data", JObj
                                 ([("websiteId", JStr _id);
                                   ("slug", JStr (slug website))]
                                  ++ jsonOfPath "isPublished" assigned
                                  ++ [("publishedAt", jsonOfOptDate (publishedAt website));
                                      ("publicUrl", publicUrl frontendUrl website)]))]),
                     withWebsites (<[_id := website]> (websites db)) db)
                end
            end
        end
    end
    end.

(** [verifyDNSRecord]: the lookup is not implemented; the function answers
    [true]. *)
Definition verifyDNSRecord (domain targetSlug : string) : bool := true.

Definition verifyCustomDomain (now : Date) (domain : string) (siteid : option string)
    (db : Db) : Response * Db :=
  match truthyStr siteid with
  | None =>
      (mkResponse 400
         (JObj [("success", JBool false);
                ("message", JStr "Valid website ID is required")]), db)
  | Some siteid =>
      if negb (isObjectIdString siteid) then
        (mkResponse 400
           (JObj [("success", JBool false);
                  ("message", JStr "Valid website ID is required")]), db)
      else
        match castObjectId siteid with
        | None =>
            (mkResponse 500
               (JObj [("success", JBool false);
                      ("message", JStr "Error verifying domain");
                      ("error", JStr (err_message castError))]), db)
        | Some _id =>
        match websites db !! _id with
        | None =>
            (mkResponse 404
               (JObj [("success", JBool false);
                      ("message", JStr "Website not found")]), db)
        | Some website =>
            if negb (String.eqb (customDomain website) (toLowerCase domain)) then
              (mkResponse 400
                 (JObj [("success", JBool false);
                        ("message", JStr "Domain does not match website's custom domain")]),
               db)
            else
              match findActiveFor (subscriptions db) (w_userId website) _id with
              | None =>
                  (mkResponse 403
                     (JObj [("success", JBool false);
                            ("message", JStr "Active subscription required to verify custom domain");
                            ("requiresSubscription", JBool true)]), db)
              | Some subscription =>
                  let dnsVerified := verifyDNSRecord domain (slug website) in
                  if dnsVerified then
                    let website :=
                      {| w_userId := w_userId website;
                         templateId := templateId website;
                         slug := slug website;
                         customDomain := customDomain website;
                         isPublished := isPublished website;
                         publishedAt := publishedAt website;
                         isCustomDomainVerified := true;
                         domainVerifiedAt := Some now |} in
                    (mkResponse 200
                       (JObj [("success", JBool true);
                              ("message", JStr "Domain verified successfully");
                              ("data", JObj
                                 [("domain", JStr domain);
                                  ("isVerified", JBool true);
                                  ("verifiedAt", jsonOfOptDate (domainVerifiedAt website))])]),
                     withWebsites (<[_id := website]> (websites db)) db)
                  else
                    (mkResponse 400
                       (JObj [("success", JBool false);
                              ("message", JStr "Domain verification failed. Please check your DNS settings.");
                              ("data", JObj
                                 [("domain", JStr domain);
                                  ("isVerified", JBool false);
                                  ("instructions", JStr "Add a CNAME record pointing to your website's subdomain")])]),
                     db)
              end
        end
        end
  end.

Fixpoint dropSpaces (l : list ascii) : list ascii :=
  match l with
  | c :: l' => if isSpace c then dropSpaces l' else l
  | [] => []
  end.

(** [String.prototype.trim] *)
Definition trim (s : string) : string :=
  string_of_list_ascii
    (rev (dropSpaces (rev (dropSpaces (list_ascii_of_string s))))).

Fixpoint splitDots (cur : string) (s : string) : list string :=
  match s with
  | EmptyString => [cur]
  | String c s' =>
      if Ascii.eqb c "." then cur :: splitDots "" s'
      else splitDots (cur +:+ String c EmptyString) s'
  end.

(** [/^([a-z0-9]+(-[a-z0-9]+)*\.)+[a-z]{2,}$/] *)
Definition domainRegex (s : string) : bool :=
  match rev (splitDots "" s) with
  | tld :: label :: labels =>
      (2 <=? String.length tld)%nat
      && forallb isLower (list_ascii_of_string tld)
      && forallb slugRegex (label :: labels)
  | _ => false
  end.

(** [Website.findOne({ customDomain, _id: { $ne: websiteId } })] finds a
    document; [_id] is the id as cast. *)
Definition domainTaken (ws : gmap string Website) (domain _id : string) : bool :=
  existsb (fun '(i, w) => String.eqb (customDomain w) domain
                          && negb (String.eqb i _id))
          (map_to_list ws).

Definition setCustomDomain (now : Date) (websiteId' : string)
    (domain : option string) (db : Db) : Response * Db :=
  if negb (isObjectIdString websiteId') then
    (mkResponse 400
       (JObj [("success", JBool false); ("message", JStr "Invalid website ID")]), db)
  else
    match truthyStr domain with
    | None =>
        (mkResponse 400
           (JObj [("success", JBool false); ("message", JStr "Domain is required")]), db)
    | Some domain =>
        let cleanDomain := trim (toLowerCase domain) in
        if negb (domainRegex cleanDomain) then
          (mkResponse 400
             (JObj [("success", JBool false);
                    ("message", JStr "Invalid domain format. Use format: example.com")]), db)
        else
          match castObjectId websiteId' with
          | None =>
              (mkResponse 500
                 (JObj [("success", JBool false);
                        ("message", JStr "Error setting custom domain");
                        ("error", JStr (err_message castError))]), db)
          | Some _id =>
          match websites db !! _id with
          | None =>
              (mkResponse 404
                 (JObj [("success", JBool false);
                        ("message", JStr "Website not found")]), db)
          | Some website =>
              match findActiveFor (subscriptions db) (w_userId website) _id with
              | None =>
                  (mkResponse 403
                     (JObj [("success", JBool false);
                            ("message", JStr "Active subscription required to use custom domain");
                            ("requiresSubscription", JBool true)]), db)
              | Some subscription =>
                  if expiredBefore (currentPeriodEnd subscription) now then
                    (mkResponse 403
                       (JObj [("success", JBool false);
                              ("message", JStr "Subscription has expired. Please renew to use custom domain.");
                              ("requiresSubscription", JBool true)]), db)
                  else if domainTaken (websites db) cleanDomain _id then
                    (mkResponse 409
                       (JObj [("success", JBool false);
                              ("message", JStr "This domain is already in use")]), db)
                  else
                    let website :=
                      {| w_userId := w_userId website;
                         templateId := templateId website;
                         slug := slug website;
                         customDomain := cleanDomain;
                         isPublished := isPublished website;
                         publishedAt := publishedAt website;
                         isCustomDomainVerified := false;
                         domainVerifiedAt := None |} in
                    (mkResponse 200
                       (JObj [("success", JBool true);
                              ("message", JStr "Custom domain set successfully. Please verify your domain.");
                              ("data", JObj
                                 [("websiteId", JStr _id);
                                  ("customDomain", JStr (customDomain website));
                                  ("isCustomDomainVerified", JBool (isCustomDomainVerified website));
                                  ("dnsRecords", JObj
                                     [("type", JStr "CNAME");
                                      ("name", JStr cleanDomain);
                                      ("value", JStr (slug website +:+ ".yourdomain.com"));
                                      ("ttl", JStr "3600")])])]),
                     withWebsites (<[_id := website]> (websites db)) db)
              end
          end
          end
    end.

(** *** [deleteWebsite]

    The handler awaits three collection operations one after the other.
    They are kept as a sequence so that the database can be observed
    between two of them. *)
Inductive DbOp :=
| WebsiteFindByIdAndDelete (_id : string)
| TemplateDecrementUsage (templateId' : string)
| SubscriptionDeleteMany (websiteId' : string).

Definition runOp (db : Db) (op : DbOp) : Db :=
  match op with
  | WebsiteFindByIdAndDelete i => withWebsites (delete i (websites db)) db
  | TemplateDecrementUsage t => withTemplates (alter (fun n => n - 1) t (templates db)) db
  | SubscriptionDeleteMany i =>
      withSubscriptions
        (List.filter (fun s => negb (optEqb (websiteId s) i)) (subscriptions db)) db
  end.

Definition runOps (ops : list DbOp) (db : Db) : Db := foldl runOp db ops.

(** The operations of a request for the website with the id [_id] (the
    [websiteId] of the request as the queries cast it), in the order in
    which the handler issues them. *)
Definition deleteWebsiteOps (db : Db) (_id : string) : list DbOp :=
  WebsiteFindByIdAndDelete _id
  :: match websites db !! _id with
     | None => []
     | Some deletedWebsite =>
         match templateId deletedWebsite with
         | Some t => [TemplateDecrementUsage t]
         | None => []
         end
         ++ [SubscriptionDeleteMany _id]
     end.

Definition deleteWebsite (websiteId' : string) (db : Db) : Response * Db :=
  if negb (isObjectIdString websiteId') then
    (mkResponse 400
       (JObj [("success", JBool false); ("message", JStr "Invalid website ID")]), db)
  else
    match castObjectId websiteId' with
    | None =>
        (mkResponse 500
           (JObj [("success", JBool false);
                  ("message", JStr "Error deleting website");
                  ("error", JStr (err_message castError))]), db)
    | Some _id =>
        let db' := runOps (deleteWebsiteOps db _id) db in
        match websites db !! _id with
        | None =>
            (mkResponse 404
               (JObj [("success", JBool false); ("message", JStr "Website not found")]), db')
        | Some deletedWebsite =>
            (mkResponse 200
               (JObj [("success", JBool true);
                      ("message", JStr "Website and associated subscriptions deleted successfully");
                      ("data", JObj [("websiteId", JStr websiteId')])]), db')
        end
    end.

(** The database a process that stops after [k] operations leaves behind. *)
Definition deleteWebsiteInterrupted (k : nat) (websiteId' : string) (db : Db) : Db :=
  match castObjectId websiteId' with
  | None => db
  | Some _id => runOps (take k (deleteWebsiteOps db _id)) db
  end.

(** *** The [requireActiveSubscription] middleware (utils/subscriptionUtils.js)

    [inr] is [next()], with the subscription attached to the request. *)
Definition requireActiveSubscription (now : Date) (websiteId' userId' : option string)
    (subs : list Subscription) : Response + Subscription :=
  match truthyStr websiteId' with
  | None =>
      inl (mkResponse 400
             (JObj [("success", JBool false);
                    ("message", JStr "Website ID is required")]))
  | Some websiteId' =>
      match getActiveSubscription now subs websiteId' with
      | None =>
          inl (mkResponse 403
                 (JObj [("success", JBool false);
                        ("message", JStr "Active subscription required for this action");
                        ("requiresSubscription", JBool true)]))
      | Some subscription =>
          match notOwner userId' subscription with
          | Ok true =>
              inl (mkResponse 403
                     (JObj [("success", JBool false);
                            ("message", JStr "You don't have permission to access this subscription")]))
          | Ok false => inr subscription
          | Throw error =>
              inl (mkResponse 500
                     (JObj [("success", JBool false);
                            ("message", JStr "Error checking subscription status");
                            ("error", JStr (err_message error))]))
          end
      end
  end.

(* ================================================================== *)
(** ** controllers/subscription.Controller.js, continued *)
(* ================================================================== *)

Record ReactivateRequest := mkReactivateRequest {
  r_subscriptionId : option string;
  r_userId : option string }.

(** The [try] block of [reactivateSubscription]. *)
Definition reactivateAttempt (stripe : Stripe) (now : Date) (req : ReactivateRequest)
    (subs : list Subscription) : Result (Response * list Subscription) :=
  match truthyStr (r_subscriptionId req) with
  | None =>
      Ok (mkResponse 400
            (JObj [("success", JBool false);
                   ("message", JStr "subscriptionId is required")]), subs)
  | Some subscriptionId =>
      match findBySubscriptionId subscriptionId subs with
      | None =>
          Ok (mkResponse 404
                (JObj [("success", JBool false);
                       ("message", JStr "Subscription not found")]), subs)
      | Some subscription =>
          denied ← notOwner (r_userId req) subscription;
          if denied : bool then
            Ok (mkResponse 403
                  (JObj [("success", JBool false);
                         ("message", JStr "You don't have permission to reactivate this subscription")]),
                subs)
          else if negb (cancelAtPeriodEnd subscription) then
            Ok (mkResponse 400
                  (JObj [("success", JBool false);
                         ("message", JStr "Subscription is not scheduled for cancellation")]),
                subs)
          else
            updatedStripeSubscription ← subscriptions_update stripe subscriptionId false;
            let subscription := setCancelAtPeriodEnd false subscription in
            let subscription := setStatus "active" subscription in
            subs' ← save now subscription subs;
            Ok (mkResponse 200
                  (JObj [("success", JBool true);
                         ("message", JStr "Subscription reactivated successfully");
                         ("data", JObj
                            [("subscriptionId", JStr subscriptionId);
                             ("status", JStr (status subscription));
                             ("currentPeriodEnd", jsonOfOptDate (currentPeriodEnd subscription))])]),
                subs')
      end
  end.

Definition reactivateSubscription (stripe : Stripe) (now : Date)
    (req : ReactivateRequest) (subs : list Subscription)
  : Response * list Subscription :=
  match reactivateAttempt stripe now req subs with
  | Ok out => out
  | Throw error =>
      (mkResponse 500
         (JObj [("success", JBool false);
                ("message", JStr "Failed to reactivate subscription");
                ("error", JStr (err_message error))]), subs)
  end.

(** The subscription that an event is about, as its handler reads it. *)
Definition eventSubscription (event : Event) : option string :=
  match event with
  | CheckoutSessionCompleted session => truthyStr (session_subscription session)
  | InvoicePaymentSucceeded invoice => truthyStr (invoice_subscription invoice)
  | InvoicePaymentFailed invoice => truthyStr (invoice_subscription invoice)
  | CustomerSubscriptionUpdated subscription => Some (id subscription)
  | CustomerSubscriptionDeleted subscription => Some (id subscription)
  | CustomerSubscriptionTrialWillEnd subscription => Some (id subscription)
  | OtherEvent _ => None
  end.

(** The documents of the collection that carry the subscription id [sid]. *)
Definition recordsOf (sid : string) (subs : list Subscription) : list Subscription :=
  List.filter (fun s => String.eqb (subscriptionId s) sid) subs.

(* ================================================================== *)
(** ** routes/website.Routes.js *)
(* ================================================================== *)

(** [router.put('/:websiteId/publish', protectRoute,
    requireActiveSubscription, publishWebsite)], from the point where
    [protectRoute] has called [next()]. *)
Definition publishRoute (frontendUrl : string) (now : Date) (websiteId' : string)
    (userId' : option string) (reqBody : PublishBody) (db : Db) : Response * Db :=
  match requireActiveSubscription now (Some websiteId') userId' (subscriptions db) with
  | inl res => (res, db)
  | inr _ => publishWebsite frontendUrl now websiteId' reqBody db
  end.

(** [router.post('/:websiteId/custom-domain', protectRoute,
    requireActiveSubscription, setCustomDomain)], likewise. *)
Definition customDomainRoute (now : Date) (websiteId' : string)
    (userId' : option string) (domain : option string) (db : Db) : Response * Db :=
  match requireActiveSubscription now (Some websiteId') userId' (subscriptions db) with
  | inl res => (res, db)
  | inr _ => setCustomDomain now websiteId' domain db
  end.

(* ================================================================== *)
(** ** [ensureTailwindCDN] (controllers/Website.controller.js) *)
(* ================================================================== *)

Fixpoint startsWith (prefix s : string) : bool :=
  match prefix, s with
  | EmptyString, _ => true
  | String a prefix', String b s' => Ascii.eqb a b && startsWith prefix' s'
  | String _ _, EmptyString => false
  end.

(** [String.prototype.includes] *)
Fixpoint includes (needle s : string) : bool :=
  startsWith needle s
  || match s with
     | EmptyString => false
     | String _ s' => includes needle s'
     end.

Fixpoint dropChars (n : nat) (s : string) : string :=
  match n, s with
  | O, _ => s
  | S n', String _ s' => dropChars n' s'
  | S _, EmptyString => EmptyString
  end.

(** [s.replace(needle, replacement)] for a string pattern and a
    replacement without [$]: the first occurrence is replaced. *)
Fixpoint replaceFirst (needle replacement s : string) : string :=
  if startsWith needle s then replacement +:+ dropChars (String.length needle) s
  else match s with
       | EmptyString => EmptyString
       | String c s' => String c (replaceFirst needle replacement s')
       end.

Definition quote : string := String (ascii_of_nat 34) EmptyString.
Definition newline : string := String (ascii_of_nat 10) EmptyString.

Definition tailwindCDN : string :=
  "<script src=" +:+ quote +:+ "https://cdn.tailwindcss.com" +:+ quote +:+ "></script>".

Definition ensureTailwindCDN (html : string) : string :=
  if String.eqb html "" then html
  else if includes "cdn.tailwindcss.com" html || includes "tailwind" html then html
  else if includes "</head>" html then
    replaceFirst "</head>" ("  " +:+ tailwindCDN +:+ newline +:+ "</head>") html
  else if includes "<head>" html then
    replaceFirst "<head>" ("<head>" +:+ newline +:+ "  " +:+ tailwindCDN) html
  else
    "<!DOCTYPE html>" +:+ newline
    +:+ "<html lang=" +:+ quote +:+ "en" +:+ quote +:+ ">" +:+ newline
    +:+ "<head>" +:+ newline
    +:+ "  <meta charset=" +:+ quote +:+ "UTF-8" +:+ quote +:+ ">" +:+ newline
    +:+ "  <meta name=" +:+ quote +:+ "viewport" +:+ quote
    +:+ " content=" +:+ quote +:+ "width=device-width, initial-scale=1.0" +:+ quote
    +:+ ">" +:+ newline
    +:+ "  " +:+ tailwindCDN +:+ newline
    +:+ "</head>" +:+ newline
    +:+ "<body>" +:+ newline
    +:+ "  " +:+ html +:+ newline
    +:+ "</body>" +:+ newline
    +:+ "</html>".

(* ================================================================== *)
(** ** utils/slugUtils.js, continued *)
(* ================================================================== *)

(** [\w], [[\s_-]] and the complement of [[^\w\s-]] on ASCII. *)
Definition isWordChar (c : ascii) : bool :=
  isLower c || isUpper c || isDigit c || Ascii.eqb c "_".

Definition isSlugSeparator (c : ascii) : bool :=
  isSpace c || Ascii.eqb c "_" || Ascii.eqb c "-".

Definition isSlugSource (c : ascii) : bool :=
  isWordChar c || isSpace c || Ascii.eqb c "-".

(** [.replace(/[\s_-]+/g, '-')]; [inRun] tells whether the previous
    character belonged to the run that is being replaced. *)
Fixpoint hyphenate (inRun : bool) (l : list ascii) : list ascii :=
  match l with
  | [] => []
  | c :: l' =>
      if isSlugSeparator c
      then (if inRun then hyphenate true l' else "-"%char :: hyphenate true l')
      else c :: hyphenate false l'
  end.

(** [.replace(/^-+|-+$/g, '')] *)
Fixpoint dropLeadingHyphens (l : list ascii) : list ascii :=
  match l with
  | c :: l' => if Ascii.eqb c "-" then dropLeadingHyphens l' else l
  | [] => []
  end.

Fixpoint dropTrailingHyphens (l : list ascii) : list ascii :=
  match l with
  | [] => []
  | c :: l' =>
      match dropTrailingHyphens l' with
      | [] => if Ascii.eqb c "-" then [] else [c]
      | rest => c :: rest
      end
  end.

Definition generateSlug (text : string) : string :=
  let lowered := list_ascii_of_string (trim (toLowerCase text)) in
  let cleaned := List.filter isSlugSource lowered in
  string_of_list_ascii
    (dropTrailingHyphens (dropLeadingHyphens (hyphenate false cleaned))).





(* ================================================================== *)
(** * Properties *)
(* ================================================================== *)

(** ** Sample data *)

Module Sample.

Definition siteId : string := "507f1f77bcf86cd799439011".
Definition ownerId : string := "507f191e810c19729de860ea".

Definition providerSub (st : string) (canceled : option Z) : StripeSubscription :=
  {| id := "sub_1"; sub_status := st;
     current_period_start := 1700000000; current_period_end := 1702592000;
     trial_end := None; canceled_at := canceled; cancel_at := None;
     cancel_at_period_end := false;
     sub_metadata := [("websiteId", siteId); ("userId", ownerId)];
     items_data := [mkItem (Some "prod_1")] |}.

Definition record (st : string) (periodEnd : Date) : Subscription :=
  {| email := Some "owner@example.com"; userId := Some ownerId;
     productId := Some "prod_1"; websiteId := Some siteId;
     subscriptionId := "sub_1"; status := st;
     startDate := Some 1700000000000; currentPeriodEnd := Some periodEnd;
     canceledAt := None; cancelAtPeriodEnd := false; trialEnd := None;
     metadata := []; updatedAt := 1700000000000 |}.

Definition missing : JsError :=
  mkError (Some "StripeInvalidRequestError") (Some "resource_missing")
          "No such subscription: 'sub_1'".

Definition badSignature : JsError :=
  mkError (Some "StripeSignatureVerificationError") None
          "No signatures found matching the expected signature for payload".

(** A provider that knows one subscription, reported with status [st],
    and accepts the signature [good] on the body that parses to [ev]. *)
Definition provider (st : string) (ev : Event) : Stripe :=
  {| webhooks_constructEvent := fun _ sig _ =>
       if optEqb sig "good" then Ok ev else Throw badSignature;
     subscriptions_retrieve := fun i =>
       if String.eqb i "sub_1" then Ok (providerSub st None) else Throw missing;
     customers_retrieve := fun _ => Ok (mkCustomer (Some "owner@example.com"));
     subscriptions_cancel := fun i =>
       if String.eqb i "sub_1" then Ok (providerSub "canceled" (Some 1701000000))
       else Throw missing;
     subscriptions_update := fun i _ =>
       if String.eqb i "sub_1" then Ok (providerSub st None) else Throw missing |}.

(** A provider on which the subscription no longer exists. *)
Definition providerWithout (ev : Event) : Stripe :=
  {| webhooks_constructEvent := fun _ sig _ =>
       if optEqb sig "good" then Ok ev else Throw badSignature;
     subscriptions_retrieve := fun _ => Throw missing;
     customers_retrieve := fun _ => Ok (mkCustomer (Some "owner@example.com"));
     subscriptions_cancel := fun _ => Throw missing;
     subscriptions_update := fun _ _ => Throw missing |}.

Definition templateOfSite : string := "507f1f77bcf86cd799439aaa".

Definition site (domain : string) : Website :=
  {| w_userId := ownerId; templateId := Some templateOfSite; slug := "my-site";
     customDomain := domain; isPublished := Some false; publishedAt := None;
     isCustomDomainVerified := false; domainVerifiedAt := None |}.

Definition db (domain : string) (subs : list Subscription) : Db :=
  {| websites := {[ siteId := site domain ]};
     templates := {[ templateOfSite := 1 ]};
     subscriptions := subs |}.

End Sample.
(* ================================================================== *)
(** ** Strings and ObjectIds *)
(* ================================================================== *)

Lemma lowerChar_idem c : lowerChar (lowerChar c) = lowerChar c.
Proof. destruct c as [[] [] [] [] [] [] [] []]; reflexivity. Qed.

Lemma isSpace_lowerChar c : isSpace (lowerChar c) = isSpace c.
Proof. destruct c as [[] [] [] [] [] [] [] []]; reflexivity. Qed.

Lemma toLowerCase_map s :
  list_ascii_of_string (toLowerCase s) = map lowerChar (list_ascii_of_string s).
Proof. induction s as [|c s IH]; simpl; [reflexivity|]. now rewrite IH. Qed.

Lemma toLowerCase_of_list l :
  toLowerCase (string_of_list_ascii l) = string_of_list_ascii (map lowerChar l).
Proof. induction l as [|c l IH]; simpl; [reflexivity|]. now rewrite IH. Qed.

Lemma toLowerCase_idem s : toLowerCase (toLowerCase s) = toLowerCase s.
Proof.
  induction s as [|c s IH]; simpl; [reflexivity|].
  now rewrite lowerChar_idem, IH.
Qed.

Lemma dropSpaces_map l :
  dropSpaces (map lowerChar l) = map lowerChar (dropSpaces l).
Proof.
  induction l as [|c l IH]; simpl; [reflexivity|].
  rewrite isSpace_lowerChar. now destruct (isSpace c).
Qed.

Lemma toLowerCase_trim s : toLowerCase (trim s) = trim (toLowerCase s).
Proof.
  unfold trim. rewrite toLowerCase_of_list, toLowerCase_map.
  now rewrite dropSpaces_map, <- map_rev, dropSpaces_map, <- map_rev.
Qed.

Lemma isHex_lowerChar c : isHex (lowerChar c) = isHex c.
Proof. destruct c as [[] [] [] [] [] [] [] []]; reflexivity. Qed.

Lemma toLowerCase_length s : String.length (toLowerCase s) = String.length s.
Proof. induction s as [|c s IH]; simpl; [reflexivity|]. now rewrite IH. Qed.

Lemma isObjectIdString_toLowerCase s :
  isObjectIdString (toLowerCase s) = isObjectIdString s.
Proof.
  unfold isObjectIdString. rewrite toLowerCase_length, toLowerCase_map. f_equal.
  induction (list_ascii_of_string s) as [|c l IH]; simpl; [reflexivity|].
  now rewrite isHex_lowerChar, IH.
Qed.

(** The cast succeeds exactly on the strings of 24 hexadecimal digits, and
    its result is cast to itself. *)
Lemma castObjectId_Some s c :
  castObjectId s = Some c <-> isObjectIdString s = true /\ c = toLowerCase s.
Proof.
  unfold castObjectId. destruct (isObjectIdString s); split.
  - intros [= <-]. auto.
  - intros [_ ->]. reflexivity.
  - discriminate.
  - intros [H _]. discriminate.
Qed.

Lemma castObjectId_None s : castObjectId s = None <-> isObjectIdString s = false.
Proof. unfold castObjectId. destruct (isObjectIdString s); split; congruence. Qed.

Lemma castObjectId_cases s :
  (isObjectIdString s = false /\ castObjectId s = None)
  \/ (isObjectIdString s = true /\ castObjectId s = Some (toLowerCase s)).
Proof. unfold castObjectId. destruct (isObjectIdString s); auto. Qed.

Lemma castObjectId_canonical s c : castObjectId s = Some c -> castObjectId c = Some c.
Proof.
  intros [Hs ->]%castObjectId_Some. apply castObjectId_Some.
  now rewrite isObjectIdString_toLowerCase, toLowerCase_idem.
Qed.

(* ================================================================== *)
(** ** The Subscription collection *)
(* ================================================================== *)

Lemma optEqb_true o s : optEqb o s = true <-> o = Some s.
Proof.
  destruct o as [x|]; simpl.
  - destruct (String.eqb_spec x s); split; congruence.
  - split; discriminate.
Qed.

Lemma findBySubscriptionId_key sid subs s :
  findBySubscriptionId sid subs = Some s -> subscriptionId s = sid.
Proof.
  unfold findBySubscriptionId.
  induction subs as [|x rest IH]; simpl; [discriminate|].
  destruct (String.eqb_spec (subscriptionId x) sid); [|exact IH].
  now intros [= <-].
Qed.

Section Collection.

Variables (sid : string) (now : Date) (u : Update).

Lemma findOneAndUpdate_ids (subs : list Subscription) :
  map subscriptionId (findOneAndUpdate sid now u subs) = map subscriptionId subs.
Proof.
  induction subs as [|s rest IH]; simpl; [reflexivity|].
  destruct (String.eqb (subscriptionId s) sid); simpl; congruence.
Qed.

Lemma findOneAndUpdate_unknown (subs : list Subscription) :
  findBySubscriptionId sid subs = None ->
  findOneAndUpdate sid now u subs = subs.
Proof.
  unfold findBySubscriptionId.
  induction subs as [|s rest IH]; simpl; [reflexivity|].
  destruct (String.eqb (subscriptionId s) sid); [discriminate|].
  intros H. f_equal. auto.
Qed.

Lemma findOneAndUpdate_found (subs : list Subscription) (r : Subscription) :
  findBySubscriptionId sid subs = Some r ->
  findBySubscriptionId sid (findOneAndUpdate sid now u subs)
  = Some (applyUpdate now u r).
Proof.
  unfold findBySubscriptionId.
  induction subs as [|s rest IH]; simpl; [discriminate|].
  destruct (String.eqb (subscriptionId s) sid) eqn:E; simpl.
  - intros [= <-]. now rewrite E.
  - rewrite E. exact IH.
Qed.

Lemma findOneAndUpdate_lookup (subs : list Subscription) :
  findBySubscriptionId sid (findOneAndUpdate sid now u subs)
  = applyUpdate now u <$> findBySubscriptionId sid subs.
Proof.
  destruct (findBySubscriptionId sid subs) as [r|] eqn:E; simpl.
  - now apply findOneAndUpdate_found.
  - now rewrite findOneAndUpdate_unknown.
Qed.

(** A second update that overwrites all that a first one wrote leaves
    what it alone would have left. *)
Lemma findOneAndUpdate_absorb (now0 : Date) (u0 : Update) (subs : list Subscription) :
  (forall s, applyUpdate now u (applyUpdate now0 u0 s) = applyUpdate now u s) ->
  findOneAndUpdate sid now u (findOneAndUpdate sid now0 u0 subs)
  = findOneAndUpdate sid now u subs.
Proof.
  intros Habs.
  induction subs as [|s rest IH]; simpl; [reflexivity|].
  destruct (String.eqb (subscriptionId s) sid) eqn:E; simpl.
  - rewrite E. now rewrite Habs.
  - rewrite E. now rewrite IH.
Qed.

Lemma findOneAndUpsert_lookup (subs : list Subscription) :
  findBySubscriptionId sid (findOneAndUpsert sid now u subs)
  = Some (applyUpdate now u
            (default (schemaDefaults sid now) (findBySubscriptionId sid subs))).
Proof.
  unfold findOneAndUpsert.
  destruct (findBySubscriptionId sid subs) as [r|] eqn:E; simpl.
  - now apply findOneAndUpdate_found.
  - revert E. unfold findBySubscriptionId.
    induction subs as [|x rest IH]; simpl.
    + now rewrite String.eqb_refl.
    + destruct (String.eqb (subscriptionId x) sid); [discriminate|]. exact IH.
Qed.

End Collection.

Lemma replaceDoc_found doc subs s :
  findBySubscriptionId (subscriptionId doc) subs = Some s ->
  findBySubscriptionId (subscriptionId doc) (replaceDoc doc subs) = Some doc.
Proof.
  unfold findBySubscriptionId.
  induction subs as [|x rest IH]; simpl; [discriminate|].
  destruct (String.eqb (subscriptionId x) (subscriptionId doc)) eqn:E; simpl.
  - intros _. now rewrite String.eqb_refl.
  - now rewrite E.
Qed.

Lemma replaceDoc_ids doc subs :
  map subscriptionId (replaceDoc doc subs) = map subscriptionId subs.
Proof.
  induction subs as [|x rest IH]; simpl; [reflexivity|].
  destruct (String.eqb_spec (subscriptionId x) (subscriptionId doc)); simpl; congruence.
Qed.

(* ================================================================== *)
(** ** Webhook ingestion *)
(* ================================================================== *)

(** The update written by the subscription-deleted handler. *)
Lemma handleSubscriptionDeleted_eq now p subs :
  handleSubscriptionDeleted now p subs
  = Ok (findOneAndUpdate (id p) now
          {| u_email := None; u_userId := None; u_productId := None;
             u_websiteId := None;
             u_status := Some "canceled";
             u_startDate := None; u_currentPeriodEnd := None;
             u_canceledAt := Some (Some (deletedCanceledAt now p));
             u_cancelAtPeriodEnd := Some false;
             u_trialEnd := None; u_metadata := None |} subs).
Proof.
  unfold handleSubscriptionDeleted.
  now destruct (findBySubscriptionId _ _).
Qed.

(** The first record with the key is the one that an update rewrites. *)
Lemma findOneAndUpdate_split sid subs r :
  findBySubscriptionId sid subs = Some r ->
  exists pre post,
    subs = (pre ++ r :: post)%list
    /\ Forall (fun x => subscriptionId x <> sid) pre
    /\ subscriptionId r = sid
    /\ forall now' u' r',
         subscriptionId r' = sid ->
         findOneAndUpdate sid now' u' (pre ++ r' :: post)%list
         = (pre ++ applyUpdate now' u' r' :: post)%list.
Proof.
  unfold findBySubscriptionId.
  induction subs as [|x rest IH]; simpl; [discriminate|].
  destruct (String.eqb_spec (subscriptionId x) sid) as [E|E].
  - intros [= ->]. exists [], rest. repeat split; [constructor|assumption|].
    intros now' u' r' Hr'. simpl. now rewrite Hr', String.eqb_refl.
  - intros H. destruct (IH H) as (pre & post & -> & Hpre & Hkey & Hupd).
    exists (x :: pre), post. repeat split; [now constructor|assumption|].
    intros now' u' r' Hr'. simpl.
    destruct (String.eqb_spec (subscriptionId x) sid); [contradiction|].
    now rewrite Hupd.
Qed.

(** C6, counterexample.  Two deliveries of the same payload one second
    apart, the payload carrying no [canceled_at]: the record after the
    second delivery is not the record after the first, their [canceledAt]
    are the times of the two deliveries. *)
Lemma handleSubscriptionDeleted_second_delivery_differs :
  let p := Sample.providerSub "canceled" None in
  let subs := [Sample.record "active" 1702592000000] in
  exists once twice r1 r2,
    handleSubscriptionDeleted 1701000001000 p subs = Ok once
    /\ handleSubscriptionDeleted 1701000002000 p once = Ok twice
    /\ findBySubscriptionId (id p) once = Some r1
    /\ findBySubscriptionId (id p) twice = Some r2
    /\ canceledAt r1 = Some 1701000001000
    /\ canceledAt r2 = Some 1701000002000
    /\ r2 <> r1
    /\ twice <> once.
Proof.
  vm_compute. eexists _, _, _, _.
  repeat (split; [reflexivity|]). split; discriminate.
Qed.

(** C6, as amended.  Applying the same [customer.subscription.deleted]
    payload a second time (at [t2], after a first application at [t1])
    succeeds and leaves the collection that a single application at [t2]
    leaves.  The record of the payload's subscription is then the record
    stored before the first application with [status] set to [canceled],
    [cancelAtPeriodEnd] to [false], [canceledAt] to the payload's
    [canceled_at] (in milliseconds) or, when the payload has none (a zero
    counts as none), to the time of the application, and [updatedAt] to
    the time of the application; every other record, and every other
    field, is as it was.  So the second application changes [updatedAt],
    and [canceledAt] when the payload carries none; with the same clock
    value it changes nothing.  Without a stored record of the subscription
    neither application changes anything. *)
Theorem handleSubscriptionDeleted_idempotent
    (t1 t2 : Date) (p : StripeSubscription) (subs : list Subscription) :
  let canceled (t : Date) (r : Subscription) : Subscription :=
    {| email := email r; userId := userId r; productId := productId r;
       websiteId := websiteId r; subscriptionId := subscriptionId r;
       status := "canceled";
       startDate := startDate r; currentPeriodEnd := currentPeriodEnd r;
       canceledAt := Some (match canceled_at p with
                           | Some c => if c =? 0 then t else c * 1000
                           | None => t
                           end);
       cancelAtPeriodEnd := false;
       trialEnd := trialEnd r; metadata := metadata r;
       updatedAt := t |} in
  exists once twice,
    handleSubscriptionDeleted t1 p subs = Ok once
    /\ handleSubscriptionDeleted t2 p once = Ok twice
    /\ handleSubscriptionDeleted t2 p subs = Ok twice
    /\ (findBySubscriptionId (id p) subs = None -> once = subs /\ twice = subs)
    /\ (forall r, findBySubscriptionId (id p) subs = Some r ->
          exists pre post,
            subs = (pre ++ r :: post)%list
            /\ Forall (fun x => subscriptionId x <> id p) pre
            /\ once = (pre ++ canceled t1 r :: post)%list
            /\ twice = (pre ++ canceled t2 r :: post)%list)
    /\ (t1 = t2 -> twice = once)
    /\ (truthyNum (canceled_at p) <> None ->
        Forall2 (fun r1 r2 => r2 = r1 \/ r2 = withUpdatedAt t2 r1) once twice).
Proof.
  intros canceled.
  assert (Hcanceled : forall t r,
            applyUpdate t
              {| u_email := None; u_userId := None; u_productId := None;
                 u_websiteId := None;
                 u_status := Some "canceled";
                 u_startDate := None; u_currentPeriodEnd := None;
                 u_canceledAt := Some (Some (deletedCanceledAt t p));
                 u_cancelAtPeriodEnd := Some false;
                 u_trialEnd := None; u_metadata := None |} r
            = canceled t r).
  { intros t r. unfold applyUpdate, canceled, deletedCanceledAt, truthyNum. simpl.
    destruct (canceled_at p) as [c|]; [|reflexivity].
    now destruct (c =? 0). }
  rewrite !handleSubscriptionDeleted_eq.
  eexists _, _. split; [reflexivity|].
  rewrite handleSubscriptionDeleted_eq.
  split; [reflexivity|].
  split. { f_equal. symmetry. now apply findOneAndUpdate_absorb. }
  match goal with
  | |- (_ -> ?once = _ /\ ?twice = _) /\ _ =>
      assert (Hnone : findBySubscriptionId (id p) subs = None ->
                      once = subs /\ twice = subs);
      [|assert (Hrec : forall r, findBySubscriptionId (id p) subs = Some r ->
          exists pre post,
            subs = (pre ++ r :: post)%list
            /\ Forall (fun x => subscriptionId x <> id p) pre
            /\ once = (pre ++ canceled t1 r :: post)%list
            /\ twice = (pre ++ canceled t2 r :: post)%list)]
  end.
  { intros Hnone. rewrite !(findOneAndUpdate_unknown _ _ _ subs Hnone).
    split; reflexivity. }
  { intros r Hr.
    destruct (findOneAndUpdate_split _ _ _ Hr)
      as (pre & post & -> & Hpre & Hkey & Hupd).
    exists pre, post. split; [reflexivity|]. split; [assumption|].
    rewrite (Hupd _ _ r Hkey), Hcanceled. split; [reflexivity|].
    rewrite (Hupd _ _ (canceled t1 r) Hkey), Hcanceled. reflexivity. }
  split; [exact Hnone|]. split; [exact Hrec|].
  split. { intros <-. now apply findOneAndUpdate_absorb. }
  intros Hsome.
  destruct (findBySubscriptionId (id p) subs) as [r|] eqn:Hr.
  - destruct (Hrec r eq_refl) as (pre & post & _ & _ & -> & ->).
    apply Forall2_app; [apply Forall_Forall2_diag, Forall_true; auto|].
    constructor; [|apply Forall_Forall2_diag, Forall_true; auto].
    right. unfold canceled, withUpdatedAt, applyUpdate, truthyNum in *. simpl.
    destruct (canceled_at p) as [c|]; [|congruence].
    destruct (c =? 0); [congruence|reflexivity].
  - destruct (Hnone eq_refl) as [-> ->].
    apply Forall_Forall2_diag, Forall_true; auto.
Qed.

Lemma handleSubscriptionDeleted_idempotent_witness :
  let p := Sample.providerSub "canceled" (Some 1701000000) in
  let subs := [Sample.record "active" 1702592000000] in
  exists twice r,
    handleSubscriptionDeleted 1701000002000 p subs = Ok twice
    /\ findBySubscriptionId "sub_1" twice = Some r
    /\ status r = "canceled"
    /\ cancelAtPeriodEnd r = false
    /\ canceledAt r = Some 1701000000000.
Proof.
  intros p subs.
  pose proof (handleSubscriptionDeleted_idempotent 1701000001000 1701000002000 p subs)
    as H.
  cbv zeta in H. destruct H as (once & twice & _ & _ & H2 & _ & Hrec & _).
  destruct (Hrec (Sample.record "active" 1702592000000) eq_refl)
    as (pre & post & Hsubs & Hpre & _ & Htwice).
  destruct pre as [|x pre]; [|destruct pre; discriminate Hsubs].
  injection Hsubs as <-. simpl in Htwice.
  exists twice. eexists. split; [exact H2|]. rewrite Htwice.
  split; [reflexivity|]. repeat split.
Defined.

Lemma mapStatus_normalized st :
  mapStatus st <> "past_due" /\ mapStatus st <> "unpaid".
Proof.
  unfold mapStatus.
  destruct (String.eqb_spec st "past_due") as [->|H1]; simpl; [split; discriminate|].
  destruct (String.eqb_spec st "unpaid") as [->|H2]; simpl; [split; discriminate|].
  now split.
Qed.

(** What the subscription-updated handler stores is the mapped status. *)
Lemma handleSubscriptionUpdated_status now p subs :
  exists subs', handleSubscriptionUpdated now p subs = Ok subs'
    /\ forall r, findBySubscriptionId (id p) subs' = Some r ->
         status r = mapStatus (sub_status p).
Proof.
  eexists. split; [reflexivity|].
  intros r. rewrite findOneAndUpdate_lookup.
  destruct (findBySubscriptionId (id p) subs); simpl; [|discriminate].
  now intros [= <-].
Qed.

(** What the payment-succeeded handler stores is the mapped status of the
    subscription it retrieved. *)
Lemma handlePaymentSucceeded_status stripe now invoice subs subs' sid p :
  truthyStr (invoice_subscription invoice) = Some sid ->
  subscriptions_retrieve stripe sid = Ok p ->
  handlePaymentSucceeded stripe now invoice subs = Ok subs' ->
  exists r, findBySubscriptionId sid subs' = Some r
    /\ status r = mapStatus (sub_status p).
Proof.
  intros Hsid Hp. unfold handlePaymentSucceeded. rewrite Hsid.
  destruct (customers_retrieve stripe _) as [c|e]; simpl; [|discriminate].
  rewrite Hp. simpl. intros [= <-].
  rewrite findOneAndUpsert_lookup. eexists. split; reflexivity.
Qed.

(** What the checkout-completed handler stores is the provider's status as
    it is. *)
Lemma handleCheckoutCompleted_status stripe now session subs subs' sid p :
  truthyStr (session_subscription session) = Some sid ->
  subscriptions_retrieve stripe sid = Ok p ->
  truthyStr (assoc "websiteId" (sub_metadata p)) <> None ->
  truthyStr (assoc "userId" (sub_metadata p)) <> None ->
  handleCheckoutCompleted stripe now session subs = Ok subs' ->
  exists r, findBySubscriptionId sid subs' = Some r
    /\ status r = sub_status p.
Proof.
  intros Hsid Hp Hw Hu. unfold handleCheckoutCompleted. rewrite Hsid, Hp. simpl.
  destruct (customers_retrieve stripe _) as [c|e]; simpl; [|discriminate].
  destruct (truthyStr (assoc "websiteId" _)); [|congruence].
  destruct (truthyStr (assoc "userId" _)); [|congruence].
  intros [= <-].
  rewrite findOneAndUpsert_lookup. eexists. split; reflexivity.
Qed.

(** C5.  The handler of [checkout.session.completed] does not map the
    provider's status: a verified event for a subscription that the
    provider reports as [past_due] is answered with 200 and leaves a
    record whose stored status is [past_due]. *)
Theorem checkout_completed_stores_past_due :
  let event := CheckoutSessionCompleted (mkSession (Some "sub_1") (Some "cus_1") None) in
  let stripe := Sample.provider "past_due" event in
  let out := handleWebhook stripe (Some "whsec_1") 1700000001000
               (mkWebhookRequest "{}" (Some "good")) [] in
  statusCode (fst out) = 200
  /\ exists r, snd out = [r] /\ status r = "past_due".
Proof.
  vm_compute. split; [reflexivity|]. eexists. split; reflexivity.
Qed.

(* ================================================================== *)
(** ** Cancel *)
(* ================================================================== *)

Lemma cancelError_codes e :
  statusCode (cancelError e)
  = if optEqb (err_type e) "StripeInvalidRequestError" then 400
    else if optEqb (err_code e) "resource_missing" then 404 else 500.
Proof.
  unfold cancelError.
  destruct (optEqb (err_type e) _); [reflexivity|].
  now destruct (optEqb (err_code e) _).
Qed.

(** The 404 answer needs an error that has the code [resource_missing]
    without being a [StripeInvalidRequestError]. *)
Lemma cancelError_404 e :
  statusCode (cancelError e) = 404
  <-> err_code e = Some "resource_missing"
      /\ err_type e <> Some "StripeInvalidRequestError".
Proof.
  rewrite cancelError_codes.
  destruct (optEqb (err_type e) _) eqn:Et.
  - apply optEqb_true in Et. split; [discriminate|]. intros [_ H]. contradiction.
  - destruct (optEqb (err_code e) _) eqn:Ec.
    + apply optEqb_true in Ec. split; [|reflexivity]. intros _. split; [assumption|].
      intros H. apply optEqb_true in H. congruence.
    + split; [discriminate|]. intros [H _]. apply optEqb_true in H. congruence.
Qed.

Lemma cancelSubscription_ids stripe now req subs :
  map subscriptionId (snd (cancelSubscription stripe now req subs))
  = map subscriptionId subs.
Proof.
  unfold cancelSubscription.
  destruct (cancelAttempt stripe now req subs) as [[res subs']|e] eqn:E; [|reflexivity].
  simpl. revert E. unfold cancelAttempt.
  destruct (truthyStr (c_subscriptionId req)) as [sid|]; [|now intros [= _ <-]].
  destruct (findBySubscriptionId sid subs) as [s|]; [|now intros [= _ <-]].
  destruct (notOwner (c_userId req) s) as [[|]|]; simpl; [now intros [= _ <-]| |discriminate].
  destruct (String.eqb (status s) "canceled"); [now intros [= _ <-]|].
  destruct (default false (c_cancelImmediately req)).
  - destruct (subscriptions_cancel stripe sid); simpl; [|discriminate].
    unfold save. destruct (validateSubscription _); simpl; [|discriminate].
    intros [= _ <-]. apply replaceDoc_ids.
  - destruct (subscriptions_update stripe sid true); simpl; [|discriminate].
    unfold save. destruct (validateSubscription _); simpl; [|discriminate].
    intros [= _ <-]. apply replaceDoc_ids.
Qed.

(** C2, as amended.  A cancel at period end of a subscription that is
    stored, is owned by the caller when a caller is named, is not canceled
    yet, whose provider update succeeds and whose document passes the
    schema validation of [save], is answered with 200; the stored record
    then has [cancelAtPeriodEnd = true], [canceledAt = now], its
    [currentPeriodEnd] as before, and for [status] the status that the
    provider returned for the updated subscription, or [active] when the
    provider returned none. *)
Theorem cancel_at_period_end_effect
    (stripe : Stripe) (now : Date) (req : CancelRequest)
    (subs : list Subscription) (sid : string) (s : Subscription)
    (upd : StripeSubscription) :
  truthyStr (c_subscriptionId req) = Some sid ->
  default false (c_cancelImmediately req) = false ->
  findBySubscriptionId sid subs = Some s ->
  notOwner (c_userId req) s = Ok false ->
  status s <> "canceled" ->
  subscriptions_update stripe sid true = Ok upd ->
  validateSubscription (scheduledCancel now upd s) = true ->
  let out := cancelSubscription stripe now req subs in
  statusCode (fst out) = 200
  /\ exists s', findBySubscriptionId sid (snd out) = Some s'
       /\ cancelAtPeriodEnd s' = true
       /\ canceledAt s' = Some now
       /\ currentPeriodEnd s' = currentPeriodEnd s
       /\ status s' = (if String.eqb (sub_status upd) "" then "active"
                       else sub_status upd).
Proof.
  intros Hsid Himm Hfind Hown Hst Hupd Hvalid out. subst out.
  unfold cancelSubscription, cancelAttempt.
  rewrite Hsid, Hfind, Himm. simpl. rewrite Hown. simpl.
  destruct (String.eqb_spec (status s) "canceled") as [E|_]; [contradiction|].
  rewrite Hupd. simpl.
  unfold save. unfold scheduledCancel, truthyStr in Hvalid. rewrite Hvalid. simpl.
  split; [reflexivity|].
  pose proof (findBySubscriptionId_key _ _ _ Hfind) as Hkey.
  eexists. split.
  - replace sid with (subscriptionId (withUpdatedAt now (scheduledCancel now upd s)))
      by exact Hkey.
    eapply replaceDoc_found. simpl. rewrite Hkey. exact Hfind.
  - simpl. repeat split. now destruct (String.eqb (sub_status upd) "").
Qed.

Lemma cancel_at_period_end_effect_witness :
  exists s', findBySubscriptionId "sub_1"
               (snd (cancelSubscription (Sample.provider "active" (OtherEvent "ping"))
                       1700000001000
                       (mkCancelRequest (Some "sub_1") (Some Sample.ownerId) None)
                       [Sample.record "active" 1702592000000])) = Some s'
    /\ cancelAtPeriodEnd s' = true
    /\ canceledAt s' = Some 1700000001000
    /\ currentPeriodEnd s' = Some 1702592000000
    /\ status s' = "active".
Proof.
  destruct (cancel_at_period_end_effect
              (Sample.provider "active" (OtherEvent "ping")) 1700000001000
              (mkCancelRequest (Some "sub_1") (Some Sample.ownerId) None)
              [Sample.record "active" 1702592000000] "sub_1"
              (Sample.record "active" 1702592000000)
              (Sample.providerSub "active" None))
    as [_ H]; try reflexivity.
  - discriminate.
  - exact H.
Defined.

(** C2, counterexample.  The stored record is [incomplete] (what the
    webhook handlers store for a subscription that is past due) and the
    provider reports [past_due] for the updated subscription: the cancel
    at period end succeeds and the stored status becomes [past_due]. *)
Lemma cancel_at_period_end_overwrites_status :
  let stripe := Sample.provider "past_due" (OtherEvent "ping") in
  let s := Sample.record "incomplete" 1702592000000 in
  let req := mkCancelRequest (Some "sub_1") (Some Sample.ownerId) (Some false) in
  let out := cancelSubscription stripe 1700000001000 req [s] in
  findBySubscriptionId "sub_1" [s] = Some s
  /\ status s <> "canceled"
  /\ subscriptions_update stripe "sub_1" true = Ok (Sample.providerSub "past_due" None)
  /\ statusCode (fst out) = 200
  /\ exists s', findBySubscriptionId "sub_1" (snd out) = Some s'
       /\ status s' = "past_due"
       /\ status s' <> status s.
Proof.
  vm_compute. repeat split; try discriminate.
  eexists. repeat split. discriminate.
Qed.

(** C3.  The provider no longer has the subscription and rejects the
    update with the error it uses for that, of type
    [StripeInvalidRequestError] and code [resource_missing]: the cancel is
    answered with 400 and the invalid-request message, not with 404, and
    the collection is left as it was. *)
Theorem cancel_resource_missing_answers_400 :
  let stripe := Sample.providerWithout (OtherEvent "ping") in
  let subs := [Sample.record "active" 1702592000000] in
  let req := mkCancelRequest (Some "sub_1") (Some Sample.ownerId) None in
  let out := cancelSubscription stripe 1700000001000 req subs in
  subscriptions_update stripe "sub_1" true = Throw Sample.missing
  /\ err_code Sample.missing = Some "resource_missing"
  /\ statusCode (fst out) = 400
  /\ field "message" (body (fst out))
     = Some (JStr "Invalid subscription ID or subscription already canceled")
  /\ snd out = subs.
Proof. vm_compute. repeat split. Qed.

(* ================================================================== *)
(** ** Who creates records *)
(* ================================================================== *)

(** C7.  An event that changes the list of the stored subscription ids is
    a [checkout.session.completed] or an [invoice.payment_succeeded]
    event.  The handlers of [customer.subscription.updated],
    [customer.subscription.deleted] and [invoice.payment_failed] always
    return and leave the list of ids as it was, and so does the cancel
    command.  A [customer.subscription.deleted] event for an id that is not
    stored returns without throwing and leaves the collection unchanged. *)
Theorem records_created_only_by_checkout_and_payment
    (stripe : Stripe) (now : Date) (subs : list Subscription) :
  (forall ev subs',
      dispatch stripe now ev subs = Ok subs' ->
      map subscriptionId subs' <> map subscriptionId subs ->
      (exists o, ev = CheckoutSessionCompleted o)
      \/ (exists o, ev = InvoicePaymentSucceeded o))
  /\ (forall p, exists subs',
        handleSubscriptionUpdated now p subs = Ok subs'
        /\ map subscriptionId subs' = map subscriptionId subs)
  /\ (forall p, exists subs',
        handleSubscriptionDeleted now p subs = Ok subs'
        /\ map subscriptionId subs' = map subscriptionId subs)
  /\ (forall i, exists subs',
        handlePaymentFailed now i subs = Ok subs'
        /\ map subscriptionId subs' = map subscriptionId subs)
  /\ (forall req,
        map subscriptionId (snd (cancelSubscription stripe now req subs))
        = map subscriptionId subs)
  /\ (forall p,
        findBySubscriptionId (id p) subs = None ->
        handleSubscriptionDeleted now p subs = Ok subs).
Proof.
  assert (Hupd : forall p, exists subs',
             handleSubscriptionUpdated now p subs = Ok subs'
             /\ map subscriptionId subs' = map subscriptionId subs).
  { intros p. eexists. split; [reflexivity|]. apply findOneAndUpdate_ids. }
  assert (Hdel : forall p, exists subs',
             handleSubscriptionDeleted now p subs = Ok subs'
             /\ map subscriptionId subs' = map subscriptionId subs).
  { intros p. rewrite handleSubscriptionDeleted_eq.
    eexists. split; [reflexivity|]. apply findOneAndUpdate_ids. }
  assert (Hfail : forall i, exists subs',
             handlePaymentFailed now i subs = Ok subs'
             /\ map subscriptionId subs' = map subscriptionId subs).
  { intros i. unfold handlePaymentFailed.
    destruct (truthyStr (invoice_subscription i)).
    - eexists. split; [reflexivity|]. apply findOneAndUpdate_ids.
    - eexists. split; reflexivity. }
  split; [|split; [|split; [|split; [|split]]]]; try assumption.
  - intros ev subs' Hrun Hnew.
    destruct ev as [o|o|o|o|o|o|t]; simpl in Hrun.
    + left. now exists o.
    + right. now exists o.
    + destruct (Hfail o) as (s & Hs & Hids). congruence.
    + destruct (Hupd o) as (s & Hs & Hids). congruence.
    + destruct (Hdel o) as (s & Hs & Hids). congruence.
    + unfold handleTrialWillEnd in Hrun.
      destruct (findBySubscriptionId _ _); congruence.
    + congruence.
  - intros req. apply cancelSubscription_ids.
  - intros p Hnone. rewrite handleSubscriptionDeleted_eq.
    now rewrite findOneAndUpdate_unknown.
Qed.

Lemma records_created_only_by_checkout_and_payment_witness :
  let stored := [Sample.record "active" 1702592000000] in
  let unknown :=
    {| id := "sub_2"; sub_status := "canceled";
       current_period_start := 1700000000; current_period_end := 1702592000;
       trial_end := None; canceled_at := Some 1701000000; cancel_at := None;
       cancel_at_period_end := false; sub_metadata := []; items_data := [] |} in
  handleSubscriptionDeleted 1701000000000 unknown stored = Ok stored.
Proof.
  intros stored unknown.
  destruct (records_created_only_by_checkout_and_payment
              (Sample.providerWithout (OtherEvent "ping")) 1701000000000 stored)
    as (_ & _ & _ & _ & _ & H).
  apply H. reflexivity.
Defined.

(* ================================================================== *)
(** ** The webhook endpoint *)
(* ================================================================== *)

(** C9.  The webhook endpoint answers 400 exactly when the signature
    verification throws.  For a verified event whose handling completes it
    answers 200 with [received: true] and the event's type, and the
    collection is what the handler left; this includes the event types that
    have no handler, which leave the collection unchanged.  For a verified
    event whose handler throws it answers 500 and the collection is
    unchanged. *)
Theorem handleWebhook_status_codes
    (stripe : Stripe) (secret : option string) (now : Date)
    (req : WebhookRequest) (subs : list Subscription) :
  let verified :=
    webhooks_constructEvent stripe (req_body req) (stripe_signature req) secret in
  let out := handleWebhook stripe secret now req subs in
  (statusCode (fst out) = 400 <-> exists err, verified = Throw err)
  /\ (forall event subs',
        verified = Ok event ->
        dispatch stripe now event subs = Ok subs' ->
        statusCode (fst out) = 200
        /\ field "received" (body (fst out)) = Some (JBool true)
        /\ field "eventType" (body (fst out)) = Some (JStr (event_type event))
        /\ snd out = subs')
  /\ (forall type,
        verified = Ok (OtherEvent type) ->
        statusCode (fst out) = 200
        /\ field "received" (body (fst out)) = Some (JBool true)
        /\ field "eventType" (body (fst out)) = Some (JStr type)
        /\ snd out = subs)
  /\ (forall event error,
        verified = Ok event ->
        dispatch stripe now event subs = Throw error ->
        statusCode (fst out) = 500 /\ snd out = subs).
Proof.
  intros verified out. subst out. unfold handleWebhook. fold verified.
  destruct verified as [event|err] eqn:Hv.
  - destruct (dispatch stripe now event subs) as [subs'|error] eqn:Hd; simpl.
    + split. { split; [discriminate|]. intros [e He]; discriminate. }
      split. { intros ev s [= <-]. rewrite Hd. intros [= <-]. now repeat split. }
      split. { intros t [= ->]. simpl in Hd. injection Hd as <-. now repeat split. }
      intros ev e [= <-]. rewrite Hd. discriminate.
    + split. { split; [discriminate|]. intros [e He]; discriminate. }
      split. { intros ev s [= <-]. rewrite Hd. discriminate. }
      split. { intros t [= ->]. simpl in Hd. discriminate. }
      intros ev e _ _. now split.
  - simpl. split. { split; [eauto|reflexivity]. }
    split. { intros ev s; discriminate. }
    split. { intros t; discriminate. }
    intros ev e; discriminate.
Qed.

Lemma handleWebhook_status_codes_witness :
  let event := InvoicePaymentSucceeded (mkInvoice (Some "sub_1") (Some "cus_1") None) in
  statusCode (fst (handleWebhook (Sample.providerWithout event) None
                     1701000000000 (mkWebhookRequest "{}" (Some "good")) [])) = 500.
Proof.
  intros event.
  pose proof (handleWebhook_status_codes
                (Sample.providerWithout event) None
                1701000000000 (mkWebhookRequest "{}" (Some "good")) []) as H.
  cbv zeta in H. destruct H as (_ & _ & _ & H).
  destruct (H event Sample.missing) as [H500 _]; [reflexivity|reflexivity|exact H500].
Defined.

(* ================================================================== *)
(** ** Website deletion *)
(* ================================================================== *)

Lemma deleteMany_complete i subs :
  Forall (fun s => websiteId s <> Some i)
         (List.filter (fun s => negb (optEqb (websiteId s) i)) subs).
Proof.
  apply List.Forall_forall. intros s Hin.
  apply List.filter_In in Hin as [_ Hkeep].
  intros Heq. apply optEqb_true in Heq. rewrite Heq in Hkeep. discriminate.
Qed.

Lemma deleteMany_keeps i subs s :
  In s subs -> websiteId s <> Some i ->
  In s (List.filter (fun s => negb (optEqb (websiteId s) i)) subs).
Proof.
  intros Hin Hne. apply List.filter_In. split; [assumption|].
  destruct (optEqb (websiteId s) i) eqn:E; [|reflexivity].
  apply optEqb_true in E. contradiction.
Qed.

(** C4, counterexample.  The first operation of a deletion removes the
    website and the last one removes its subscriptions: a process that
    stops after the first operation leaves no website and the website's
    subscription still stored. *)
Lemma deleteWebsite_removes_website_first :
  let s := Sample.record "active" 1702592000000 in
  let db := Sample.db "" [s] in
  let between := deleteWebsiteInterrupted 1 Sample.siteId db in
  deleteWebsiteOps db Sample.siteId
  = [WebsiteFindByIdAndDelete Sample.siteId;
     TemplateDecrementUsage Sample.templateOfSite;
     SubscriptionDeleteMany Sample.siteId]
  /\ websites db !! Sample.siteId = Some (Sample.site "")
  /\ websites between !! Sample.siteId = None
  /\ subscriptions between = [s]
  /\ websiteId s = Some Sample.siteId.
Proof. vm_compute. repeat split. Qed.

(** C4, as amended.  The deletion of a stored website first deletes the
    Website record, then adjusts the usage count of its template if it has
    one, and last deletes all Subscription records of that website.  A
    process that stops between two operations has either changed nothing
    or removed the website; as long as the website is stored no
    subscription has been removed.  A completed deletion is answered with
    200 and leaves neither the website nor a subscription of it, and keeps
    the subscriptions of the other websites.  The website is the one whose
    id the requested [websiteId] spells, in upper or lower case. *)
Theorem deleteWebsite_cascade (db : Db) (wid c : string) (w : Website) :
  castObjectId wid = Some c ->
  websites db !! c = Some w ->
  let out := deleteWebsite wid db in
  (exists usage,
      deleteWebsiteOps db c
      = WebsiteFindByIdAndDelete c :: usage ++ [SubscriptionDeleteMany c]
      /\ Forall (fun op => exists t, op = TemplateDecrementUsage t) usage)
  /\ (forall k,
        let d := deleteWebsiteInterrupted k wid db in
        (d = db \/ websites d !! c = None)
        /\ (is_Some (websites d !! c) -> subscriptions d = subscriptions db))
  /\ statusCode (fst out) = 200
  /\ websites (snd out) !! c = None
  /\ Forall (fun s => websiteId s <> Some c) (subscriptions (snd out))
  /\ (forall s, In s (subscriptions db) -> websiteId s <> Some c ->
        In s (subscriptions (snd out))).
Proof.
  intros Hid Hw out. subst out.
  pose proof (proj1 (castObjectId_Some _ _) Hid) as [Hre _].
  unfold deleteWebsite, deleteWebsiteInterrupted, deleteWebsiteOps.
  rewrite Hre, Hid, Hw. simpl negb. cbv iota.
  assert (Hgone : delete c (websites db) !! c = None) by apply lookup_delete_eq.
  split.
  { exists (match templateId w with Some t => [TemplateDecrementUsage t] | None => [] end).
    split; [reflexivity|]. destruct (templateId w); repeat constructor. eauto. }
  split.
  { intros k. destruct (templateId w) as [t|]; simpl.
    - destruct k as [|[|[|k]]]; simpl; rewrite ?take_nil; simpl;
        (split; [auto | try reflexivity; intros [x Hx]; congruence]).
    - destruct k as [|[|k]]; simpl; rewrite ?take_nil; simpl;
        (split; [auto | try reflexivity; intros [x Hx]; congruence]). }
  split; [reflexivity|].
  destruct (templateId w) as [t|]; simpl;
    (split; [exact Hgone|]); (split; [apply deleteMany_complete|]);
    intros s; apply deleteMany_keeps.
Qed.

Lemma deleteWebsite_cascade_witness :
  let db := Sample.db "" [Sample.record "active" 1702592000000] in
  websites (snd (deleteWebsite Sample.siteId db)) !! Sample.siteId = None
  /\ Forall (fun s => websiteId s <> Some Sample.siteId)
            (subscriptions (snd (deleteWebsite Sample.siteId db))).
Proof.
  intros db.
  destruct (deleteWebsite_cascade db Sample.siteId Sample.siteId (Sample.site ""))
    as (_ & _ & _ & Hw & Hs & _); [reflexivity|reflexivity|].
  split; [exact Hw|exact Hs].
Defined.

(* ================================================================== *)
(** ** The bulk entitlement query *)
(* ================================================================== *)

Lemma mapM_castObjectId websiteIds ids :
  mapM castObjectId websiteIds = Some ids <->
  Forall (fun i => isObjectIdString i = true) websiteIds
  /\ ids = map toLowerCase websiteIds.
Proof.
  rewrite mapM_Some. split.
  - induction 1 as [|i c l k Hc _ IH]; [split; [constructor|reflexivity]|].
    apply castObjectId_Some in Hc as [Hi ->]. destruct IH as [IH ->].
    split; [now constructor|reflexivity].
  - intros [Hall ->]. induction Hall as [|i l Hi _ IH]; constructor; [|exact IH].
    now apply castObjectId_Some.
Qed.

Lemma mapM_castObjectId_None websiteIds :
  Exists (fun i => isObjectIdString i = false) websiteIds ->
  mapM castObjectId websiteIds = None.
Proof.
  intros Hex. destruct (mapM castObjectId websiteIds) as [ids|] eqn:E; [|reflexivity].
  apply mapM_castObjectId in E as [Hall _].
  apply List.Exists_exists in Hex as (i & Hin & Hi).
  rewrite List.Forall_forall in Hall. rewrite (Hall i Hin) in Hi. discriminate.
Qed.

Lemma getBulkSubscriptionStatus_folds now subs userId' websiteIds u :
  castObjectId userId' = Some u ->
  Forall (fun i => isObjectIdString i = true) websiteIds ->
  getBulkSubscriptionStatus now subs userId' websiteIds
  = foldl (subStep now) (foldl initStep ∅ websiteIds)
          (List.filter (bulkMatch u (map toLowerCase websiteIds)) subs).
Proof.
  intros Hu Hall. unfold getBulkSubscriptionStatus. rewrite Hu.
  now rewrite (proj2 (mapM_castObjectId websiteIds _) (conj Hall eq_refl)).
Qed.

Lemma init_lookup websiteIds (m : gmap string StatusEntry) k :
  foldl initStep m websiteIds !! k
  = if decide (k ∈ websiteIds) then Some noEntitlement else m !! k.
Proof.
  revert m. induction websiteIds as [|i l IH]; intros m; cbn [foldl].
  - destruct (decide (k ∈ [])) as [H|H]; [inversion H|reflexivity].
  - rewrite IH. unfold initStep.
    destruct (decide (k ∈ l)) as [Hl|Hl].
    + rewrite decide_True by now right. reflexivity.
    + destruct (decide (k = i)) as [->|Hne].
      * rewrite decide_True by now left. apply lookup_insert_eq.
      * rewrite decide_False by (intros [|]%elem_of_cons; contradiction).
        now apply lookup_insert_ne.
Qed.

(** The entry under a key is the one written for the last subscription
    found for it. *)
Lemma sub_lookup now (l : list Subscription) (m : gmap string StatusEntry) k :
  foldl (subStep now) m l !! k
  = match last (List.filter (fun s => optEqb (websiteId s) k) l) with
    | Some s => Some (entryOf now s)
    | None => m !! k
    end.
Proof.
  revert m. induction l as [|s l IH]; intros m; [reflexivity|].
  cbn [foldl List.filter]. rewrite IH.
  destruct (optEqb (websiteId s) k) eqn:E.
  - apply optEqb_true in E. rewrite last_cons.
    destruct (last _); [reflexivity|].
    unfold subStep. rewrite E. apply lookup_insert_eq.
  - destruct (last _); [reflexivity|].
    unfold subStep. destruct (websiteId s) as [w|] eqn:Hw; [|reflexivity].
    apply lookup_insert_ne. intros ->. simpl in E.
    now rewrite String.eqb_refl in E.
Qed.

(** The subscriptions found for one key are the active records of the
    user for that website, when it is among the ids of the filter. *)
Lemma found_at u ids subs k :
  List.filter (fun s => optEqb (websiteId s) k) (List.filter (bulkMatch u ids) subs)
  = if existsb (String.eqb k) ids then activeRecords subs u k else [].
Proof.
  unfold activeRecords.
  induction subs as [|s subs IH]; cbn [List.filter]; [now destruct (existsb _ ids)|].
  unfold bulkMatch at 1.
  destruct (optEqb (websiteId s) k) eqn:E.
  - pose proof (proj1 (optEqb_true _ _) E) as Hw. rewrite Hw.
    change (existsb (optEqb (Some k)) ids) with (existsb (String.eqb k) ids).
    destruct (optEqb (userId s) u), (existsb (String.eqb k) ids),
      (String.eqb (status s) "active");
      cbn [andb List.filter]; rewrite ?E; cbn [andb List.filter];
      rewrite ?IH; reflexivity.
  - rewrite andb_false_r. cbn [andb].
    destruct (_ && _ && _); cbn [List.filter]; rewrite ?E; exact IH.
Qed.

Lemma existsb_eqb_In k ids : existsb (String.eqb k) ids = true <-> In k ids.
Proof.
  rewrite existsb_exists. split.
  - intros (x & Hin & ->%String.eqb_eq). exact Hin.
  - intros Hin. exists k. now rewrite String.eqb_refl.
Qed.

Lemma activeRecords_spec subs u w s :
  In s (activeRecords subs u w) <->
  In s subs /\ userId s = Some u /\ websiteId s = Some w /\ status s = "active".
Proof.
  unfold activeRecords. rewrite List.filter_In, !andb_true_iff, !optEqb_true.
  rewrite String.eqb_eq. tauto.
Qed.

Lemma last_In {A} (l : list A) x : last l = Some x -> In x l.
Proof. intros H. apply list_elem_of_In. apply last_Some in H as [l' ->]. set_solver. Qed.

(** The entry under each key of the result, when no cast fails. *)
Lemma bulk_lookup now subs userId' websiteIds u k :
  castObjectId userId' = Some u ->
  Forall (fun i => isObjectIdString i = true) websiteIds ->
  getBulkSubscriptionStatus now subs userId' websiteIds !! k
  = match (if existsb (String.eqb k) (map toLowerCase websiteIds)
           then last (activeRecords subs u k) else None) with
    | Some s => Some (entryOf now s)
    | None => if decide (k ∈ websiteIds) then Some noEntitlement else None
    end.
Proof.
  intros Hu Hall. rewrite (getBulkSubscriptionStatus_folds _ _ _ _ u Hu Hall).
  rewrite sub_lookup, found_at, init_lookup, lookup_empty.
  now destruct (existsb _ _).
Qed.

Lemma bulk_empty now subs userId' websiteIds :
  isObjectIdString userId' = false
  \/ Exists (fun i => isObjectIdString i = false) websiteIds ->
  getBulkSubscriptionStatus now subs userId' websiteIds = ∅.
Proof.
  unfold getBulkSubscriptionStatus. intros [Hu|Hi].
  - apply castObjectId_None in Hu. now rewrite Hu.
  - rewrite (mapM_castObjectId_None _ Hi). now destruct (castObjectId userId').
Qed.

Lemma castable_or_not websiteIds :
  Forall (fun i => isObjectIdString i = true) websiteIds
  \/ Exists (fun i => isObjectIdString i = false) websiteIds.
Proof.
  induction websiteIds as [|i l [IH|IH]]; [left; constructor| |right; now constructor].
  destruct (isObjectIdString i) eqn:Hi; [left|right]; now constructor.
Qed.

(** An entry is either not entitled and without record, or entitled with
    a stored record of that user and website that is active and has not
    expired; the keys of the latter are ids in canonical form. *)
Lemma bulk_entry now subs userId' websiteIds k e :
  getBulkSubscriptionStatus now subs userId' websiteIds !! k = Some e ->
  (hasActive e = false /\ subscription e = None)
  \/ (hasActive e = true
      /\ exists u s, castObjectId userId' = Some u
           /\ castObjectId k = Some k
           /\ subscription e = Some s
           /\ In s subs /\ userId s = Some u /\ websiteId s = Some k
           /\ status s = "active"
           /\ dateGt (currentPeriodEnd s) now = true).
Proof.
  destruct (castObjectId userId') as [u|] eqn:Hu.
  2:{ rewrite bulk_empty, lookup_empty; [discriminate|].
      left. now apply castObjectId_None. }
  destruct (castable_or_not websiteIds) as [Hall|Hex].
  2:{ rewrite bulk_empty, lookup_empty; [discriminate|]. now right. }
  rewrite (bulk_lookup _ _ _ _ u k Hu Hall).
  destruct (existsb _ _) eqn:Hk.
  2:{ case_decide; [|discriminate]. intros [= <-]. now left. }
  destruct (last (activeRecords subs u k)) as [s|] eqn:Hlast.
  2:{ case_decide; [|discriminate]. intros [= <-]. now left. }
  intros [= <-]. unfold entryOf.
  apply last_In, activeRecords_spec in Hlast as (Hin & Hus & Hws & Hst).
  destruct (dateGt (currentPeriodEnd s) now) eqn:Hp; [right|now left].
  split; [reflexivity|]. exists u, s.
  apply existsb_eqb_In, in_map_iff in Hk as (i & <- & Hi).
  rewrite List.Forall_forall in Hall.
  split; [reflexivity|]. split.
  { apply (castObjectId_canonical i). apply castObjectId_Some. auto. }
  auto 8.
Qed.

(** C8, counterexample.  Two requested ids that are the same id give a
    map with one entry; one requested id spelled in upper case, for a
    website with an entitling record, gives two entries; and a requested
    id that is no ObjectId leaves no entry at all, whatever else is
    requested. *)
Lemma getBulkSubscriptionStatus_not_one_entry_per_id :
  let websiteIds := [Sample.siteId; Sample.siteId] in
  length websiteIds = 2%nat
  /\ size (getBulkSubscriptionStatus 2000 [] Sample.ownerId websiteIds) = 1%nat
  /\ size (getBulkSubscriptionStatus 2000 [Sample.record "active" 3000]
             Sample.ownerId ["507F1F77BCF86CD799439011"]) = 2%nat
  /\ size (getBulkSubscriptionStatus 2000 [Sample.record "active" 3000]
             Sample.ownerId [Sample.siteId; "not-an-id"]) = 0%nat.
Proof. vm_compute. repeat split. Qed.

(** C8, as amended.  When the user id or one of the requested ids is not
    a string of 24 hexadecimal digits, the query fails and the result is
    the empty map.  Otherwise the result has an entry for every requested
    id, under the string requested, and no entry besides those and the
    canonical (lower-case) forms of the requested ids; when all requested
    ids are in canonical form its keys are exactly the requested ids, one
    entry per distinct id, hence [N] entries for [N] pairwise distinct
    ids.  Each entry is either marked entitled and carries a stored record
    of that user and website that is active with [currentPeriodEnd > now],
    or is marked not entitled and carries no record.  The entry under the
    canonical form of a requested id is decided by the last stored record
    of that user and website with the status [active]: entitled with that
    record when its period has not ended, not entitled when it has ended,
    and the default, not entitled, when there is no such record.  The
    entry under a requested string that is not in canonical form is the
    default. *)
Theorem getBulkSubscriptionStatus_entries
    (now : Date) (subs : list Subscription) (userId' : string)
    (websiteIds : list string) :
  let statusMap := getBulkSubscriptionStatus now subs userId' websiteIds in
  (isObjectIdString userId' = false
   \/ Exists (fun i => isObjectIdString i = false) websiteIds ->
   statusMap = ∅)
  /\ (forall u,
        castObjectId userId' = Some u ->
        Forall (fun i => isObjectIdString i = true) websiteIds ->
        list_to_set websiteIds ⊆ dom statusMap
        /\ dom statusMap
           ⊆ list_to_set websiteIds ∪ list_to_set (map toLowerCase websiteIds)
        /\ (Forall (fun i => toLowerCase i = i) websiteIds ->
            dom statusMap = list_to_set websiteIds
            /\ size statusMap = length (remove_dups websiteIds)
            /\ (NoDup websiteIds -> size statusMap = length websiteIds))
        /\ (forall k e, statusMap !! k = Some e ->
              (hasActive e = true
               /\ exists s, subscription e = Some s
                    /\ In s subs
                    /\ userId s = Some u
                    /\ websiteId s = Some k
                    /\ status s = "active"
                    /\ dateGt (currentPeriodEnd s) now = true)
              \/ (hasActive e = false /\ subscription e = None))
        /\ (forall i, In i websiteIds ->
              statusMap !! toLowerCase i
              = match last (activeRecords subs u (toLowerCase i)) with
                | Some s =>
                    Some (if dateGt (currentPeriodEnd s) now
                          then {| hasActive := true; subscription := Some s |}
                          else {| hasActive := false; subscription := None |})
                | None =>
                    if decide (toLowerCase i ∈ websiteIds)
                    then Some {| hasActive := false; subscription := None |}
                    else None
                end)
        /\ (forall i, In i websiteIds -> toLowerCase i <> i ->
              statusMap !! i = Some {| hasActive := false; subscription := None |})).
Proof.
  intros statusMap. subst statusMap. split; [apply bulk_empty|].
  intros u Hu Hall.
  set (statusMap := getBulkSubscriptionStatus now subs userId' websiteIds).
  assert (Hlook := fun k => bulk_lookup now subs userId' websiteIds u k Hu Hall).
  fold statusMap in Hlook.
  assert (Hreq : list_to_set websiteIds ⊆ dom statusMap).
  { intros k Hk%elem_of_list_to_set. apply elem_of_dom. rewrite Hlook.
    rewrite decide_True by exact Hk. destruct (if existsb _ _ then _ else _); eauto. }
  assert (Hkeys : dom statusMap
                  ⊆ list_to_set websiteIds ∪ list_to_set (map toLowerCase websiteIds)).
  { intros k [e He]%elem_of_dom. rewrite Hlook in He.
    destruct (existsb _ _) eqn:Hk.
    - apply elem_of_union_r, elem_of_list_to_set, list_elem_of_In.
      now apply existsb_eqb_In.
    - case_decide as Hin; [|discriminate].
      now apply elem_of_union_l, elem_of_list_to_set. }
  split; [exact Hreq|]. split; [exact Hkeys|]. split.
  { intros Hcanon.
    assert (Hids : map toLowerCase websiteIds = websiteIds).
    { clear -Hcanon. induction Hcanon as [|i l Hi _ IH]; simpl; [reflexivity|].
      now rewrite Hi, IH. }
    assert (Hdom : dom statusMap = list_to_set websiteIds).
    { rewrite Hids in Hkeys. set_solver. }
    split; [exact Hdom|].
    split.
    - rewrite <- size_dom, Hdom.
      rewrite <- (size_list_to_set (C:=gset string) (remove_dups websiteIds))
        by apply NoDup_remove_dups.
      f_equal. apply set_eq. intros x.
      rewrite !elem_of_list_to_set. now rewrite elem_of_remove_dups.
    - intros Hnd. rewrite <- size_dom, Hdom. now apply size_list_to_set. }
  split.
  { intros k e He.
    destruct (bulk_entry _ _ _ _ _ _ He) as [H|(Ha & u' & s & Hu' & _ & H)];
      [now right|left].
    rewrite Hu in Hu'. injection Hu' as <-. eauto. }
  split.
  { intros i Hi. rewrite Hlook.
    assert (existsb (String.eqb (toLowerCase i)) (map toLowerCase websiteIds) = true)
      as -> by (apply existsb_eqb_In, in_map, Hi).
    unfold entryOf, noEntitlement.
    destruct (last _) as [s|]; [|reflexivity].
    now destruct (dateGt _ _). }
  intros i Hi Hne. rewrite Hlook.
  assert (existsb (String.eqb i) (map toLowerCase websiteIds) = false) as ->.
  { apply not_true_iff_false. intros (j & Hj & _)%existsb_eqb_In%in_map_iff.
    apply Hne. rewrite <- Hj. apply toLowerCase_idem. }
  rewrite decide_True by now apply list_elem_of_In. reflexivity.
Qed.

Lemma getBulkSubscriptionStatus_entries_witness :
  let subs := [Sample.record "active" 3000; Sample.record "active" 1000] in
  let statusMap :=
    getBulkSubscriptionStatus 2000 subs Sample.ownerId
      [Sample.siteId; "507f1f77bcf86cd799439012"] in
  size statusMap = 2%nat
  /\ statusMap !! Sample.siteId = Some {| hasActive := false; subscription := None |}.
Proof.
  intros subs statusMap.
  pose proof (getBulkSubscriptionStatus_entries 2000 subs Sample.ownerId
                [Sample.siteId; "507f1f77bcf86cd799439012"]) as H.
  cbv zeta in H. destruct H as [_ H].
  destruct (H Sample.ownerId) as (_ & _ & Hcanon & _ & Hlast & _);
    [reflexivity|repeat constructor|].
  split.
  - apply Hcanon; [repeat constructor|].
    repeat constructor.
    + intros Hin. apply list_elem_of_In in Hin. simpl in Hin.
      destruct Hin as [Hin|[]]. discriminate Hin.
    + intros Hin. apply list_elem_of_In in Hin. destruct Hin.
  - apply (Hlast Sample.siteId). now left.
Defined.

(* ================================================================== *)
(** ** Entitlement gates *)
(* ================================================================== *)

Lemma findActiveFor_exists subs u w :
  (exists s, In s subs /\ userId s = Some u /\ websiteId s = Some w
             /\ status s = "active") ->
  exists s, findActiveFor subs u w = Some s.
Proof.
  intros (s & Hin & Hu & Hw & Hst).
  unfold findActiveFor.
  destruct (find _ subs) as [s'|] eqn:E; [eauto|].
  exfalso. eapply find_none in E; [|exact Hin].
  simpl in E. rewrite Hu, Hw, Hst in E. simpl in E.
  now rewrite !String.eqb_refl in E.
Qed.

Lemma findActiveFor_spec subs u w s :
  findActiveFor subs u w = Some s ->
  In s subs /\ userId s = Some u /\ websiteId s = Some w /\ status s = "active".
Proof.
  unfold findActiveFor. intros H. apply find_some in H as [Hin H].
  rewrite !andb_true_iff in H. destruct H as [[Hu Hw] Hs].
  apply optEqb_true in Hu, Hw. apply String.eqb_eq in Hs. auto.
Qed.

(** C10.  The DNS check answers [true] whatever it is asked.  A
    verification request for a stored website, with a domain whose lower
    case form is the stored [customDomain], while the collection holds a
    subscription of the website (and of its owner) with status [active],
    is answered with 200 and the success message; the stored website then
    has [isCustomDomainVerified = true] and [domainVerifiedAt = now].  No
    request at all is answered with the verification-failed message.  The
    website is the one whose id the [siteid] of the request spells, in
    upper or lower case. *)
Theorem verifyCustomDomain_always_succeeds
    (now : Date) (domain siteid c : string) (db : Db) (website : Website) :
  castObjectId siteid = Some c ->
  websites db !! c = Some website ->
  customDomain website = toLowerCase domain ->
  (exists s, In s (subscriptions db)
        /\ status s = "active"
        /\ websiteId s = Some c
        /\ userId s = Some (w_userId website)) ->
  let out := verifyCustomDomain now domain (Some siteid) db in
  statusCode (fst out) = 200
  /\ field "message" (body (fst out)) = Some (JStr "Domain verified successfully")
  /\ (exists website',
        websites (snd out) !! c = Some website'
        /\ isCustomDomainVerified website' = true
        /\ domainVerifiedAt website' = Some now
        /\ customDomain website' = customDomain website)
  /\ (forall domain' targetSlug, verifyDNSRecord domain' targetSlug = true)
  /\ (forall now' domain' siteid' db',
        field "message" (body (fst (verifyCustomDomain now' domain' siteid' db')))
        <> Some (JStr "Domain verification failed. Please check your DNS settings.")).
Proof.
  intros Hc Hw Hdom (s & Hin & Hst & Hws & Hu) out. subst out.
  pose proof (proj1 (castObjectId_Some _ _) Hc) as [Hid _].
  assert (Hne : siteid <> "").
  { intros ->. discriminate Hid. }
  destruct (findActiveFor_exists (subscriptions db) (w_userId website) c)
    as [s' Hs']; [eauto 6|].
  split; [|split; [|split; [|split]]].
  1-3: unfold verifyCustomDomain, truthyStr;
       destruct (String.eqb_spec siteid ""); [contradiction|];
       rewrite Hid, Hc; cbn [negb]; rewrite Hw, Hdom, String.eqb_refl, Hs'; simpl.
  - reflexivity.
  - reflexivity.
  - eexists. rewrite lookup_insert_eq. split; [reflexivity|]. simpl. auto.
  - reflexivity.
  - intros now' domain' siteid' db'. unfold verifyCustomDomain.
    destruct (truthyStr siteid') as [i|]; [|simpl; discriminate].
    destruct (isObjectIdString i); simpl; [|discriminate].
    destruct (castObjectId i) as [c'|]; [|simpl; discriminate].
    destruct (websites db' !! c') as [w'|]; [|simpl; discriminate].
    destruct (String.eqb _ _); simpl; [|discriminate].
    destruct (findActiveFor (subscriptions db') _ _);
      unfold verifyDNSRecord; simpl; discriminate.
Qed.

Lemma verifyCustomDomain_always_succeeds_witness :
  statusCode (fst (verifyCustomDomain 2000 "Example.COM"
                     (Some "507F1F77BCF86CD799439011")
                     (Sample.db "example.com" [Sample.record "active" 3000]))) = 200.
Proof.
  apply (verifyCustomDomain_always_succeeds 2000 "Example.COM"
           "507F1F77BCF86CD799439011" Sample.siteId
           (Sample.db "example.com" [Sample.record "active" 3000])
           (Sample.site "example.com")); try reflexivity.
  exists (Sample.record "active" 3000). simpl. auto.
Defined.

(** The consumers that evaluate the predicate of [isActive]. *)
Lemma getActiveSubscription_isActive now subs w s :
  getActiveSubscription now subs w = Some s ->
  exists c, castObjectId w = Some c
    /\ In s subs /\ websiteId s = Some c /\ isActive now s = true.
Proof.
  unfold getActiveSubscription, isActive.
  destruct (castObjectId w) as [c|]; [|discriminate]. intros H.
  apply find_some in H as [Hin H].
  rewrite !andb_true_iff in H. destruct H as [[Hw Hs] Hp].
  apply optEqb_true in Hw. rewrite Hs, Hp. eauto.
Qed.

(** Without an entitling record of the website the lookup finds nothing;
    with one it finds one. *)
Lemma getActiveSubscription_None now subs w :
  getActiveSubscription now subs w = None <->
  forall c s, castObjectId w = Some c -> In s subs -> websiteId s = Some c ->
              isActive now s = false.
Proof.
  unfold getActiveSubscription, isActive. split.
  - destruct (castObjectId w) as [c|]; [|discriminate].
    intros E c' s [= <-] Hin Hw.
    eapply find_none in E; [|exact Hin]. cbn beta in E.
    rewrite Hw in E. cbn [optEqb] in E. rewrite String.eqb_refl in E. exact E.
  - intros Hnone. destruct (castObjectId w) as [c|]; [|reflexivity].
    destruct (find _ subs) as [s|] eqn:E; [|reflexivity].
    apply find_some in E as [Hin H].
    rewrite !andb_true_iff in H. destruct H as [[Hw Hs] Hp].
    apply optEqb_true in Hw. pose proof (Hnone c s eq_refl Hin Hw) as Hno.
    rewrite Hs, Hp in Hno. discriminate.
Qed.

Lemma hasActiveSubscription_isActive now subs userId' websiteId' :
  hasActiveSubscription now subs userId' websiteId' = true <->
  exists u w s, castObjectId userId' = Some u /\ castObjectId websiteId' = Some w
                /\ In s subs /\ userId s = Some u /\ websiteId s = Some w
                /\ isActive now s = true.
Proof.
  unfold hasActiveSubscription, isActive. split.
  - destruct (castObjectId userId') as [u|]; [|discriminate].
    destruct (castObjectId websiteId') as [w|]; [|discriminate].
    destruct (find _ subs) as [s|] eqn:E; [|discriminate]. intros _.
    apply find_some in E as [Hin H].
    rewrite !andb_true_iff in H. destruct H as [[[Hu Hw] Hs] Hp].
    apply optEqb_true in Hu, Hw. exists u, w, s. rewrite Hs, Hp. auto 8.
  - intros (u & w & s & -> & -> & Hin & Hu & Hw & Ha).
    destruct (find _ subs) as [s'|] eqn:E; [reflexivity|].
    eapply find_none in E; [|exact Hin]. simpl in E.
    rewrite Hu, Hw in E. simpl in E. rewrite !String.eqb_refl in E.
    simpl in E. congruence.
Qed.

Lemma isSubscriptionValid_isActive now s :
  currentPeriodEnd s <> None ->
  isSubscriptionValid now (Some s) = isActive now s.
Proof.
  unfold isSubscriptionValid, isActive, dateGt.
  destruct (String.eqb (status s) "active"); simpl; [|reflexivity].
  destruct (currentPeriodEnd s) as [e|]; [|congruence]. intros _.
  destruct (Z.leb_spec e now), (Z.ltb_spec now e); try reflexivity; lia.
Qed.

(** The gate of [setCustomDomain] lets a request pass only with an active
    record of the owner whose period has not ended before [now]. *)
Lemma setCustomDomain_gate now wid domain db :
  statusCode (fst (setCustomDomain now wid domain db)) = 200 ->
  exists c w s,
    castObjectId wid = Some c
    /\ websites db !! c = Some w
    /\ findActiveFor (subscriptions db) (w_userId w) c = Some s
    /\ expiredBefore (currentPeriodEnd s) now = false.
Proof.
  unfold setCustomDomain.
  destruct (castObjectId wid) as [c|] eqn:Hc.
  2:{ apply castObjectId_None in Hc. rewrite Hc. simpl. discriminate. }
  rewrite (proj1 (proj1 (castObjectId_Some _ _) Hc)). cbn [negb].
  destruct (truthyStr domain) as [d|]; [|simpl; discriminate].
  destruct (domainRegex _); cbn [negb]; [|simpl; discriminate].
  destruct (websites db !! c) as [w|] eqn:Hw; [|simpl; discriminate].
  destruct (findActiveFor _ _ _) as [s|] eqn:Hs; [|simpl; discriminate].
  destruct (expiredBefore _ _) eqn:E; [simpl; discriminate|].
  intros _. exists c, w, s. auto 6.
Qed.

(** C1.  One millisecond after the end of its period a subscription with
    status [active] is not entitling: [isActive] and
    [hasActiveSubscription] are false, the [requireActiveSubscription]
    middleware answers 403, and so do the gates of [setCustomDomain] and
    [publishWebsite].  The gate of [verifyCustomDomain] lets the request
    through: it is answered with 200 and the domain is marked verified. *)
Theorem verify_gate_admits_expired_subscription :
  let now := 1702592000001 in
  let s := Sample.record "active" 1702592000000 in
  let db := Sample.db "example.com" [s] in
  let out := verifyCustomDomain now "example.com" (Some Sample.siteId) db in
  isActive now s = false
  /\ hasActiveSubscription now (subscriptions db) Sample.ownerId Sample.siteId = false
  /\ (exists res, requireActiveSubscription now (Some Sample.siteId) None
                    (subscriptions db) = inl res
                  /\ statusCode res = 403)
  /\ statusCode (fst out) = 200
  /\ (isCustomDomainVerified <$> websites (snd out) !! Sample.siteId) = Some true
  /\ statusCode (fst (setCustomDomain now Sample.siteId (Some "example.com") db)) = 403
  /\ statusCode (fst (publishWebsite "https://app.example" now Sample.siteId
                        (mkPublishBody (VBool true) None) db)) = 403.
Proof.
  vm_compute. repeat split.
  eexists. split; reflexivity.
Qed.

(** At the very instant of [currentPeriodEnd] the publish gate and the
    entitlement check still grant, where [isActive] does not any more. *)
Lemma gates_admit_period_end_instant :
  let now := 1702592000000 in
  let s := Sample.record "active" now in
  let db := Sample.db "" [s] in
  isActive now s = false
  /\ statusCode (fst (publishWebsite "https://app.example" now Sample.siteId
                        (mkPublishBody (VBool true) None) db)) = 200
  /\ field "hasActiveSubscription"
       (body (checkSubscription now [s] Sample.ownerId Sample.siteId))
     = Some (JBool true).
Proof. vm_compute. repeat split. Qed.

(* ================================================================== *)
(** * Further properties *)
(* ================================================================== *)

(** ** Webhook ingestion: frame, uniqueness, redelivery *)

Lemma findBySubscriptionId_None sid subs :
  findBySubscriptionId sid subs = None <-> ~ In sid (map subscriptionId subs).
Proof.
  unfold findBySubscriptionId.
  induction subs as [|x rest IH]; simpl; [tauto|].
  destruct (String.eqb_spec (subscriptionId x) sid) as [E|E].
  - split; [discriminate|]. intros H. exfalso. apply H. now left.
  - rewrite IH. tauto.
Qed.



Lemma recordsOf_update_other sid sid' now u subs :
  sid <> sid' ->
  recordsOf sid' (findOneAndUpdate sid now u subs) = recordsOf sid' subs.
Proof.
  intros Hne. unfold recordsOf.
  induction subs as [|x rest IH]; simpl; [reflexivity|].
  destruct (String.eqb_spec (subscriptionId x) sid) as [E|E]; simpl.
  - destruct (String.eqb_spec (subscriptionId x) sid'); [congruence|reflexivity].
  - now rewrite IH.
Qed.

Lemma recordsOf_upsert_other sid sid' now u subs :
  sid <> sid' ->
  recordsOf sid' (findOneAndUpsert sid now u subs) = recordsOf sid' subs.
Proof.
  intros Hne. unfold findOneAndUpsert.
  destruct (findBySubscriptionId sid subs).
  - now apply recordsOf_update_other.
  - unfold recordsOf. rewrite List.filter_app. simpl.
    destruct (String.eqb_spec sid sid'); [contradiction|]. apply app_nil_r.
Qed.

Lemma findOneAndUpsert_ids sid now u subs :
  map subscriptionId (findOneAndUpsert sid now u subs)
  = match findBySubscriptionId sid subs with
    | Some _ => map subscriptionId subs
    | None => (map subscriptionId subs ++ [sid])%list
    end.
Proof.
  unfold findOneAndUpsert.
  destruct (findBySubscriptionId sid subs).
  - apply findOneAndUpdate_ids.
  - now rewrite map_app.
Qed.

Lemma findOneAndUpsert_NoDup sid now u subs :
  NoDup (map subscriptionId subs) ->
  NoDup (map subscriptionId (findOneAndUpsert sid now u subs)).
Proof.
  intros Hnd. rewrite findOneAndUpsert_ids.
  destruct (findBySubscriptionId sid subs) eqn:E; [assumption|].
  apply findBySubscriptionId_None in E.
  apply NoDup_ListNoDup. apply List.NoDup_app; auto using NoDup_ListNoDup.
  - now apply NoDup_ListNoDup.
  - repeat constructor. intros [].
  - intros x Hx [<-|[]]. contradiction.
Qed.






(** X1.  [invoice.payment_failed] marks the record of the invoice's
    subscription as [incomplete] and changes nothing else.  The handler
    always returns.  When the invoice names a subscription that is stored,
    the first record with that id is rewritten with [status]
    [incomplete] and [updatedAt] the time of the event; every other
    field of it, and every other record, is as before.  When the invoice
    names no subscription, or one that is not stored, the collection is
    unchanged. *)
Theorem handlePaymentFailed_only_status
    (now : Date) (invoice : Invoice) (subs : list Subscription) :
  exists subs',
    handlePaymentFailed now invoice subs = Ok subs'
    /\ (truthyStr (invoice_subscription invoice) = None -> subs' = subs)
    /\ (forall sid,
          truthyStr (invoice_subscription invoice) = Some sid ->
          (findBySubscriptionId sid subs = None -> subs' = subs)
          /\ (forall r, findBySubscriptionId sid subs = Some r ->
                exists pre post,
                  subs = (pre ++ r :: post)%list
                  /\ Forall (fun x => subscriptionId x <> sid) pre
                  /\ subs'
                     = (pre
                        ++ {| email := email r; userId := userId r;
                              productId := productId r; websiteId := websiteId r;
                              subscriptionId := subscriptionId r;
                              status := "incomplete";
                              startDate := startDate r;
                              currentPeriodEnd := currentPeriodEnd r;
                              canceledAt := canceledAt r;
                              cancelAtPeriodEnd := cancelAtPeriodEnd r;
                              trialEnd := trialEnd r; metadata := metadata r;
                              updatedAt := now |}
                        :: post)%list)).
Proof.
  unfold handlePaymentFailed.
  destruct (truthyStr (invoice_subscription invoice)) as [sid|].
  - eexists. split; [reflexivity|]. split; [discriminate|].
    intros sid' [= <-]. split.
    + apply findOneAndUpdate_unknown.
    + intros r Hr.
      destruct (findOneAndUpdate_split _ _ _ Hr)
        as (pre & post & -> & Hpre & Hkey & Hupd).
      exists pre, post. split; [reflexivity|]. split; [assumption|].
      now rewrite (Hupd _ _ r Hkey).
  - exists subs. split; [reflexivity|]. split; [reflexivity|]. discriminate.
Qed.

Lemma handlePaymentFailed_only_status_witness :
  handlePaymentFailed 1701000000000
    (mkInvoice (Some "sub_1") (Some "cus_1") None)
    [Sample.record "active" 1702592000000; Sample.record "active" 1702592000000]
  = Ok [applyUpdate 1701000000000
          {| u_email := None; u_userId := None; u_productId := None;
             u_websiteId := None; u_status := Some "incomplete";
             u_startDate := None; u_currentPeriodEnd := None;
             u_canceledAt := None; u_cancelAtPeriodEnd := None;
             u_trialEnd := None; u_metadata := None |}
          (Sample.record "active" 1702592000000);
        Sample.record "active" 1702592000000].
Proof.
  destruct (handlePaymentFailed_only_status 1701000000000
              (mkInvoice (Some "sub_1") (Some "cus_1") None)
              [Sample.record "active" 1702592000000;
               Sample.record "active" 1702592000000])
    as (subs' & Hrun & _ & Hsid).
  destruct (Hsid "sub_1" eq_refl) as [_ Hrec].
  destruct (Hrec (Sample.record "active" 1702592000000) eq_refl)
    as (pre & post & Hsubs & Hpre & ->).
  destruct pre as [|x pre].
  - injection Hsubs as <-. exact Hrun.
  - exfalso. injection Hsubs as <- _. inversion Hpre as [|? ? Hx _]. now apply Hx.
Defined.

(** X2.  An event touches only the records of the subscription it is
    about: the records of every other subscription id are the same after
    the event as before, for every event type. *)
Theorem dispatch_leaves_other_subscriptions
    (stripe : Stripe) (now : Date) (event : Event)
    (subs subs' : list Subscription) (sid : string) :
  dispatch stripe now event subs = Ok subs' ->
  eventSubscription event <> Some sid ->
  recordsOf sid subs' = recordsOf sid subs.
Proof.
  intros Hrun Hother.
  destruct event as [o|o|o|o|o|o|t]; simpl in Hrun, Hother.
  - unfold handleCheckoutCompleted in Hrun.
    destruct (truthyStr (session_subscription o)) as [i|]; [|congruence].
    destruct (subscriptions_retrieve stripe i); simpl in Hrun; [|discriminate].
    destruct (customers_retrieve stripe _); simpl in Hrun; [|discriminate].
    destruct (truthyStr (assoc "websiteId" _)); [|congruence].
    destruct (truthyStr (assoc "userId" _)); [|congruence].
    injection Hrun as <-. apply recordsOf_upsert_other. congruence.
  - unfold handlePaymentSucceeded in Hrun.
    destruct (truthyStr (invoice_subscription o)) as [i|]; [|congruence].
    destruct (customers_retrieve stripe _); simpl in Hrun; [|discriminate].
    destruct (subscriptions_retrieve stripe i); simpl in Hrun; [|discriminate].
    injection Hrun as <-. apply recordsOf_upsert_other. congruence.
  - unfold handlePaymentFailed in Hrun.
    destruct (truthyStr (invoice_subscription o)) as [i|]; [|congruence].
    injection Hrun as <-. apply recordsOf_update_other. congruence.
  - injection Hrun as <-. apply recordsOf_update_other. congruence.
  - rewrite handleSubscriptionDeleted_eq in Hrun.
    injection Hrun as <-. apply recordsOf_update_other. congruence.
  - unfold handleTrialWillEnd in Hrun.
    destruct (findBySubscriptionId _ _); congruence.
  - congruence.
Qed.

Lemma dispatch_leaves_other_subscriptions_witness :
  let other :=
    {| email := Some "else@example.com"; userId := Some Sample.ownerId;
       productId := Some "prod_2"; websiteId := Some "507f1f77bcf86cd799439012";
       subscriptionId := "sub_2"; status := "active";
       startDate := Some 1700000000000; currentPeriodEnd := Some 1702592000000;
       canceledAt := None; cancelAtPeriodEnd := false; trialEnd := None;
       metadata := []; updatedAt := 1700000000000 |} in
  let subs := [Sample.record "active" 1702592000000; other] in
  exists subs',
    dispatch (Sample.providerWithout (OtherEvent "ping")) 1701000000000
      (CustomerSubscriptionDeleted (Sample.providerSub "canceled" (Some 1701000000)))
      subs = Ok subs'
    /\ recordsOf "sub_2" subs' = [other].
Proof.
  intros other subs.
  destruct (dispatch (Sample.providerWithout (OtherEvent "ping")) 1701000000000
              (CustomerSubscriptionDeleted (Sample.providerSub "canceled" (Some 1701000000)))
              subs) as [subs'|e] eqn:Hrun; [|vm_compute in Hrun; discriminate].
  exists subs'. split; [reflexivity|].
  apply (dispatch_leaves_other_subscriptions _ _ _ _ _ "sub_2" Hrun).
  discriminate.
Defined.

Lemma dispatch_ids stripe now event subs subs' :
  dispatch stripe now event subs = Ok subs' ->
  map subscriptionId subs' = map subscriptionId subs
  \/ exists sid, eventSubscription event = Some sid
       /\ findBySubscriptionId sid subs = None
       /\ map subscriptionId subs' = (map subscriptionId subs ++ [sid])%list.
Proof.
  intros Hrun.
  destruct event as [o|o|o|o|o|o|t]; simpl in Hrun |- *.
  - unfold handleCheckoutCompleted in Hrun.
    destruct (truthyStr (session_subscription o)) as [i|]; [|left; congruence].
    destruct (subscriptions_retrieve stripe i); simpl in Hrun; [|discriminate].
    destruct (customers_retrieve stripe _); simpl in Hrun; [|discriminate].
    destruct (truthyStr (assoc "websiteId" _)); [|left; congruence].
    destruct (truthyStr (assoc "userId" _)); [|left; congruence].
    injection Hrun as <-. rewrite findOneAndUpsert_ids.
    destruct (findBySubscriptionId i subs) eqn:E; [now left|right; eauto].
  - unfold handlePaymentSucceeded in Hrun.
    destruct (truthyStr (invoice_subscription o)) as [i|]; [|left; congruence].
    destruct (customers_retrieve stripe _); simpl in Hrun; [|discriminate].
    destruct (subscriptions_retrieve stripe i); simpl in Hrun; [|discriminate].
    injection Hrun as <-. rewrite findOneAndUpsert_ids.
    destruct (findBySubscriptionId i subs) eqn:E; [now left|right; eauto].
  - left. unfold handlePaymentFailed in Hrun.
    destruct (truthyStr (invoice_subscription o)) as [i|]; [|congruence].
    injection Hrun as <-. apply findOneAndUpdate_ids.
  - left. injection Hrun as <-. apply findOneAndUpdate_ids.
  - left. rewrite handleSubscriptionDeleted_eq in Hrun.
    injection Hrun as <-. apply findOneAndUpdate_ids.
  - left. unfold handleTrialWillEnd in Hrun.
    destruct (findBySubscriptionId _ _); congruence.
  - left. congruence.
Qed.


Lemma replaceDoc_lookup sid doc subs s :
  findBySubscriptionId sid subs = Some s ->
  subscriptionId doc = sid ->
  findBySubscriptionId sid (replaceDoc doc subs) = Some doc.
Proof. intros Hf <-. eapply replaceDoc_found. exact Hf. Qed.

Lemma reactivateSubscription_ids stripe now req subs :
  map subscriptionId (snd (reactivateSubscription stripe now req subs))
  = map subscriptionId subs.
Proof.
  unfold reactivateSubscription.
  destruct (reactivateAttempt stripe now req subs) as [[res subs']|e] eqn:E; [|reflexivity].
  simpl. revert E. unfold reactivateAttempt.
  destruct (truthyStr (r_subscriptionId req)) as [sid|]; [|now intros [= _ <-]].
  destruct (findBySubscriptionId sid subs) as [s|]; [|now intros [= _ <-]].
  destruct (notOwner (r_userId req) s) as [[|]|]; simpl; [now intros [= _ <-]| |discriminate].
  destruct (cancelAtPeriodEnd s); simpl; [|now intros [= _ <-]].
  destruct (subscriptions_update stripe sid false); simpl; [|discriminate].
  unfold save. destruct (validateSubscription _); simpl; [|discriminate].
  intros [= _ <-]. apply replaceDoc_ids.
Qed.

(** X3.  The subscription ids stay unique: if no two stored records share a
    [subscriptionId], the same holds after any webhook event and after a
    cancel or reactivate command; an event adds at most one record, and
    only for an id that was not stored. *)
Theorem subscriptionId_stays_unique
    (stripe : Stripe) (now : Date) (subs : list Subscription) :
  NoDup (map subscriptionId subs) ->
  (forall event subs',
      dispatch stripe now event subs = Ok subs' ->
      NoDup (map subscriptionId subs')
      /\ (length subs' <= S (length subs))%nat)
  /\ (forall req,
        NoDup (map subscriptionId (snd (cancelSubscription stripe now req subs))))
  /\ (forall req,
        NoDup (map subscriptionId (snd (reactivateSubscription stripe now req subs))))
  /\ (forall endpointSecret req,
        NoDup (map subscriptionId (snd (handleWebhook stripe endpointSecret now req subs)))).
Proof.
  intros Hnd. split; [|split; [|split]].
  - intros event subs' Hrun.
    destruct (dispatch_ids _ _ _ _ _ Hrun) as [Hids|(sid & _ & Hnew & Hids)].
    + split; [now rewrite Hids|].
      apply (f_equal (@length _)) in Hids. rewrite !length_map in Hids. lia.
    + split.
      * rewrite Hids. apply findBySubscriptionId_None in Hnew.
        apply NoDup_ListNoDup. apply List.NoDup_app.
        -- now apply NoDup_ListNoDup.
        -- repeat constructor. intros [].
        -- intros x Hx [<-|[]]. contradiction.
      * apply (f_equal (@length _)) in Hids.
        rewrite length_app, !length_map in Hids. simpl in Hids. lia.
  - intros req. now rewrite cancelSubscription_ids.
  - intros req. now rewrite reactivateSubscription_ids.
  - intros secret req. unfold handleWebhook.
    destruct (webhooks_constructEvent _ _ _ _) as [event|e]; [|exact Hnd].
    destruct (dispatch stripe now event subs) as [subs'|e] eqn:Hrun; [|exact Hnd].
    simpl. destruct (dispatch_ids _ _ _ _ _ Hrun) as [Hids|(sid & _ & Hnew & Hids)].
    + now rewrite Hids.
    + rewrite Hids. apply findBySubscriptionId_None in Hnew.
      apply NoDup_ListNoDup. apply List.NoDup_app.
      * now apply NoDup_ListNoDup.
      * repeat constructor. intros [].
      * intros x Hx [<-|[]]. contradiction.
Qed.

Lemma subscriptionId_stays_unique_witness :
  NoDup (map subscriptionId
           (snd (handleWebhook
                   (Sample.provider "active"
                      (CheckoutSessionCompleted (mkSession (Some "sub_1") (Some "cus_1") None)))
                   None 1701000000000 (mkWebhookRequest "{}" (Some "good"))
                   [Sample.record "active" 1702592000000]))).
Proof.
  apply subscriptionId_stays_unique.
  repeat constructor. intros H. apply list_elem_of_In in H. destruct H.
Defined.



(** X5.  After an [invoice.payment_succeeded] or a
    [customer.subscription.updated] event the record of the event's
    subscription does not have the status [past_due] or [unpaid]: the
    provider's status is stored as it is, except that these two become
    [incomplete].  The provider's status is that of the event's
    subscription object for [customer.subscription.updated], and that of
    the subscription the handler retrieves for
    [invoice.payment_succeeded]. *)
Theorem payment_and_update_normalize_status
    (stripe : Stripe) (now : Date) (event : Event)
    (subs subs' : list Subscription) (sid : string) (r : Subscription) :
  (exists o, event = InvoicePaymentSucceeded o)
  \/ (exists o, event = CustomerSubscriptionUpdated o) ->
  dispatch stripe now event subs = Ok subs' ->
  eventSubscription event = Some sid ->
  findBySubscriptionId sid subs' = Some r ->
  status r <> "past_due" /\ status r <> "unpaid"
  /\ (forall o, event = CustomerSubscriptionUpdated o ->
        status r = (if String.eqb (sub_status o) "past_due"
                       || String.eqb (sub_status o) "unpaid"
                    then "incomplete" else sub_status o))
  /\ (forall o, event = InvoicePaymentSucceeded o ->
        exists p, subscriptions_retrieve stripe sid = Ok p
          /\ status r = (if String.eqb (sub_status p) "past_due"
                            || String.eqb (sub_status p) "unpaid"
                         then "incomplete" else sub_status p)).
Proof.
  intros [[o ->]|[o ->]] Hrun Hsid Hr; simpl in Hrun, Hsid.
  - unfold handlePaymentSucceeded in Hrun. rewrite Hsid in Hrun.
    destruct (customers_retrieve stripe _); simpl in Hrun; [|discriminate].
    destruct (subscriptions_retrieve stripe sid) as [p|]; simpl in Hrun; [|discriminate].
    injection Hrun as <-. rewrite findOneAndUpsert_lookup in Hr.
    injection Hr as <-. simpl.
    destruct (mapStatus_normalized (sub_status p)). repeat split; auto.
    + intros o' [=].
    + intros o' _. exists p. split; reflexivity.
  - injection Hsid as <-. unfold handleSubscriptionUpdated in Hrun.
    injection Hrun as <-. rewrite findOneAndUpdate_lookup in Hr.
    destruct (findBySubscriptionId (id o) subs); simpl in Hr; [|discriminate].
    injection Hr as <-. simpl.
    destruct (mapStatus_normalized (sub_status o)). repeat split; auto.
    + intros o' [= <-]. reflexivity.
    + intros o' [=].
Qed.

Lemma payment_and_update_normalize_status_witness :
  let event := InvoicePaymentSucceeded (mkInvoice (Some "sub_1") (Some "cus_1") None) in
  exists subs' r,
    dispatch (Sample.provider "unpaid" event) 1701000000000 event
      [Sample.record "active" 1702592000000] = Ok subs'
    /\ findBySubscriptionId "sub_1" subs' = Some r
    /\ status r = "incomplete".
Proof.
  intros event.
  destruct (dispatch (Sample.provider "unpaid" event) 1701000000000 event
              [Sample.record "active" 1702592000000]) as [subs'|e] eqn:Hrun;
    [|vm_compute in Hrun; discriminate].
  destruct (findBySubscriptionId "sub_1" subs') as [r|] eqn:Hr;
    [|vm_compute in Hrun; injection Hrun as <-; vm_compute in Hr; discriminate].
  exists subs', r. split; [reflexivity|]. split; [exact Hr|].
  destruct (payment_and_update_normalize_status
              (Sample.provider "unpaid" event) 1701000000000 event
              [Sample.record "active" 1702592000000] subs' "sub_1" r)
    as (_ & _ & _ & H);
    try first [exact Hrun | exact Hr | reflexivity | (left; eexists; reflexivity)].
  destruct (H _ eq_refl) as (p & Hp & ->).
  vm_compute in Hp. injection Hp as <-. reflexivity.
Defined.

(** X6.  Events that are dropped.  An event that names no subscription (a
    checkout session or an invoice without subscription reference, an
    event type without handler) is answered without error and leaves the
    collection unchanged whatever the provider would answer; so is a
    [customer.subscription.trial_will_end] event, and a checkout session
    whose subscription lacks the [websiteId] or the [userId] metadata. *)
Theorem dispatch_dropped_events
    (stripe : Stripe) (now : Date) (subs : list Subscription) :
  (forall event, eventSubscription event = None ->
                 dispatch stripe now event subs = Ok subs)
  /\ (forall p, dispatch stripe now (CustomerSubscriptionTrialWillEnd p) subs = Ok subs)
  /\ (forall session sid p c,
        truthyStr (session_subscription session) = Some sid ->
        subscriptions_retrieve stripe sid = Ok p ->
        customers_retrieve stripe (session_customer session) = Ok c ->
        truthyStr (assoc "websiteId" (sub_metadata p)) = None
        \/ truthyStr (assoc "userId" (sub_metadata p)) = None ->
        dispatch stripe now (CheckoutSessionCompleted session) subs = Ok subs).
Proof.
  split; [|split].
  - intros [o|o|o|o|o|o|t]; simpl; try discriminate; intros H.
    + unfold handleCheckoutCompleted. now rewrite H.
    + unfold handlePaymentSucceeded. now rewrite H.
    + unfold handlePaymentFailed. now rewrite H.
    + reflexivity.
  - intros p. simpl. unfold handleTrialWillEnd.
    now destruct (findBySubscriptionId _ _).
  - intros session sid p c Hsid Hp Hc Hmeta. simpl.
    unfold handleCheckoutCompleted. rewrite Hsid, Hp. simpl. rewrite Hc. simpl.
    destruct Hmeta as [-> | H]; [reflexivity|].
    rewrite H. now destruct (truthyStr (assoc "websiteId" _)).
Qed.

Lemma dispatch_dropped_events_witness :
  dispatch (Sample.providerWithout (OtherEvent "ping")) 1701000000000
    (InvoicePaymentSucceeded (mkInvoice None (Some "cus_1") None))
    [Sample.record "active" 1702592000000]
  = Ok [Sample.record "active" 1702592000000].
Proof.
  apply (proj1 (dispatch_dropped_events _ _ _)). reflexivity.
Defined.

(** ** Cancel and reactivate *)

Lemma save_ok now doc subs :
  validateSubscription doc = true ->
  save now doc subs = Ok (replaceDoc (withUpdatedAt now doc) subs).
Proof. unfold save. now intros ->. Qed.

(** X7.  An immediate cancel of a stored subscription that is not canceled
    yet (owned by the caller when one is named), whose provider cancel
    succeeds and whose document passes the validation of [save], is
    answered with 200 and [refundable: true]; the stored record then has
    the status [canceled], [cancelAtPeriodEnd = false], and
    [currentPeriodEnd] and [canceledAt] equal to the time of the call, so
    that it is not entitling at that time or at any other. *)
Theorem cancel_immediately_effect
    (stripe : Stripe) (now : Date) (req : CancelRequest)
    (subs : list Subscription) (sid : string) (s : Subscription)
    (upd : StripeSubscription) :
  truthyStr (c_subscriptionId req) = Some sid ->
  c_cancelImmediately req = Some true ->
  findBySubscriptionId sid subs = Some s ->
  notOwner (c_userId req) s = Ok false ->
  status s <> "canceled" ->
  subscriptions_cancel stripe sid = Ok upd ->
  validateSubscription (setStatus "canceled" s) = true ->
  let out := cancelSubscription stripe now req subs in
  statusCode (fst out) = 200
  /\ (field "data" (body (fst out)) ≫= field "refundable") = Some (JBool true)
  /\ exists s', findBySubscriptionId sid (snd out) = Some s'
       /\ status s' = "canceled"
       /\ cancelAtPeriodEnd s' = false
       /\ currentPeriodEnd s' = Some now
       /\ canceledAt s' = Some now
       /\ userId s' = userId s /\ websiteId s' = websiteId s
       /\ (forall t, isActive t s' = false).
Proof.
  intros Hsid Himm Hfind Hown Hst Hcancel Hvalid out. subst out.
  unfold cancelSubscription, cancelAttempt.
  rewrite Hsid, Hfind, Himm. simpl. rewrite Hown. simpl.
  destruct (String.eqb_spec (status s) "canceled") as [E|_]; [contradiction|].
  rewrite Hcancel. simpl.
  rewrite save_ok.
  2:{ revert Hvalid. unfold validateSubscription. simpl.
      rewrite !andb_true_iff. intuition. }
  simpl. split; [reflexivity|]. split; [reflexivity|].
  pose proof (findBySubscriptionId_key _ _ _ Hfind) as Hkey.
  eexists. split.
  - match goal with |- findBySubscriptionId _ (replaceDoc ?d _) = _ =>
      replace sid with (subscriptionId d) by exact Hkey;
      eapply replaceDoc_found; simpl; rewrite Hkey; exact Hfind
    end.
  - simpl. repeat split.
Qed.

Lemma cancel_immediately_effect_witness :
  exists s', findBySubscriptionId "sub_1"
               (snd (cancelSubscription (Sample.provider "active" (OtherEvent "ping"))
                       1700000001000
                       (mkCancelRequest (Some "sub_1") None (Some true))
                       [Sample.record "active" 1702592000000])) = Some s'
    /\ status s' = "canceled"
    /\ currentPeriodEnd s' = Some 1700000001000.
Proof.
  destruct (cancel_immediately_effect
              (Sample.provider "active" (OtherEvent "ping")) 1700000001000
              (mkCancelRequest (Some "sub_1") None (Some true))
              [Sample.record "active" 1702592000000] "sub_1"
              (Sample.record "active" 1702592000000)
              (Sample.providerSub "canceled" (Some 1701000000)))
    as (_ & _ & s' & Hf & Hs & _ & Hp & _); try reflexivity.
  - discriminate.
  - exists s'. auto.
Defined.

(** X8.  A cancel that is not answered with 200 writes nothing.  A
    subscription that is not stored is answered with 404, one that belongs
    to another user with 403 and one that is canceled already with 400,
    whatever the provider would answer. *)
Theorem cancel_rejections_write_nothing
    (stripe : Stripe) (now : Date) (req : CancelRequest) (subs : list Subscription) :
  let out := cancelSubscription stripe now req subs in
  (statusCode (fst out) <> 200 -> snd out = subs)
  /\ (truthyStr (c_subscriptionId req) = None -> statusCode (fst out) = 400)
  /\ (forall sid, truthyStr (c_subscriptionId req) = Some sid ->
        findBySubscriptionId sid subs = None -> statusCode (fst out) = 404)
  /\ (forall sid s u owner,
        truthyStr (c_subscriptionId req) = Some sid ->
        findBySubscriptionId sid subs = Some s ->
        truthyStr (c_userId req) = Some u -> userId s = Some owner -> owner <> u ->
        statusCode (fst out) = 403)
  /\ (forall sid s,
        truthyStr (c_subscriptionId req) = Some sid ->
        findBySubscriptionId sid subs = Some s ->
        notOwner (c_userId req) s = Ok false ->
        status s = "canceled" ->
        statusCode (fst out) = 400).
Proof.
  intros out. subst out. unfold cancelSubscription, cancelAttempt.
  split; [|split; [|split; [|split]]].
  - destruct (truthyStr (c_subscriptionId req)) as [sid|]; [|reflexivity].
    destruct (findBySubscriptionId sid subs) as [s|]; [|reflexivity].
    destruct (notOwner (c_userId req) s) as [[|]|]; simpl; try reflexivity.
    destruct (String.eqb (status s) "canceled"); [reflexivity|].
    destruct (default false (c_cancelImmediately req)).
    + destruct (subscriptions_cancel stripe sid); simpl; [|reflexivity].
      unfold save. destruct (validateSubscription _); simpl; [congruence|reflexivity].
    + destruct (subscriptions_update stripe sid true) as [upd|]; simpl; [|reflexivity].
      unfold save. destruct (validateSubscription _); simpl; [congruence|reflexivity].
  - now intros ->.
  - intros sid -> ->. reflexivity.
  - intros sid s u owner -> -> Hu Ho Hne. unfold notOwner. rewrite Hu, Ho. simpl.
    destruct (String.eqb_spec owner u); [contradiction|reflexivity].
  - intros sid s -> -> -> ->. reflexivity.
Qed.

Lemma cancel_rejections_write_nothing_witness :
  statusCode (fst (cancelSubscription (Sample.providerWithout (OtherEvent "ping"))
                     1700000001000
                     (mkCancelRequest (Some "sub_1") None None)
                     [Sample.record "canceled" 1702592000000])) = 400.
Proof.
  pose proof (cancel_rejections_write_nothing
                (Sample.providerWithout (OtherEvent "ping")) 1700000001000
                (mkCancelRequest (Some "sub_1") None None)
                [Sample.record "canceled" 1702592000000]) as H.
  cbv zeta in H. destruct H as (_ & _ & _ & _ & H).
  apply (H "sub_1" (Sample.record "canceled" 1702592000000)); reflexivity.
Defined.
(** X9.  A reactivate that is not answered with 200 writes nothing.  A
    subscription that is not scheduled for cancellation
    ([cancelAtPeriodEnd = false]) is answered with 400 whatever the
    provider would answer, one that is not stored with 404; and every
    error thrown on the way, the provider's included, is answered with
    500. *)
Theorem reactivate_rejections_write_nothing
    (stripe : Stripe) (now : Date) (req : ReactivateRequest)
    (subs : list Subscription) :
  let out := reactivateSubscription stripe now req subs in
  (statusCode (fst out) <> 200 -> snd out = subs)
  /\ (forall sid, truthyStr (r_subscriptionId req) = Some sid ->
        findBySubscriptionId sid subs = None -> statusCode (fst out) = 404)
  /\ (forall sid s,
        truthyStr (r_subscriptionId req) = Some sid ->
        findBySubscriptionId sid subs = Some s ->
        notOwner (r_userId req) s = Ok false ->
        cancelAtPeriodEnd s = false ->
        statusCode (fst out) = 400 /\ snd out = subs)
  /\ (forall sid s e,
        truthyStr (r_subscriptionId req) = Some sid ->
        findBySubscriptionId sid subs = Some s ->
        notOwner (r_userId req) s = Ok false ->
        cancelAtPeriodEnd s = true ->
        subscriptions_update stripe sid false = Throw e ->
        statusCode (fst out) = 500 /\ snd out = subs)
  /\ (forall e,
        reactivateAttempt stripe now req subs = Throw e ->
        statusCode (fst out) = 500 /\ snd out = subs
        /\ field "error" (body (fst out)) = Some (JStr (err_message e))).
Proof.
  intros out. subst out. unfold reactivateSubscription.
  split; [|split; [|split; [|split]]]; [| | | |intros e ->; simpl; auto];
    unfold reactivateAttempt.
  - destruct (truthyStr (r_subscriptionId req)) as [sid|]; [|reflexivity].
    destruct (findBySubscriptionId sid subs) as [s|]; [|reflexivity].
    destruct (notOwner (r_userId req) s) as [[|]|]; simpl; try reflexivity.
    destruct (cancelAtPeriodEnd s); simpl; [|reflexivity].
    destruct (subscriptions_update stripe sid false); simpl; [|reflexivity].
    unfold save. destruct (validateSubscription _); simpl; [congruence|reflexivity].
  - intros sid -> ->. reflexivity.
  - intros sid s -> -> -> ->. simpl. auto.
  - intros sid s e -> -> -> -> ->. simpl. auto.
Qed.

Lemma reactivate_rejections_write_nothing_witness :
  statusCode (fst (reactivateSubscription (Sample.providerWithout (OtherEvent "ping"))
                     1700000001000
                     (mkReactivateRequest (Some "sub_1") None)
                     [Sample.record "active" 1702592000000])) = 400.
Proof.
  pose proof (reactivate_rejections_write_nothing
                (Sample.providerWithout (OtherEvent "ping")) 1700000001000
                (mkReactivateRequest (Some "sub_1") None)
                [Sample.record "active" 1702592000000]) as H.
  cbv zeta in H. destruct H as (_ & _ & H & _).
  apply (H "sub_1" (Sample.record "active" 1702592000000)); reflexivity.
Defined.

(** X10.  A reactivate of a stored subscription that is scheduled for
    cancellation (owned by the caller when one is named), whose provider
    update succeeds and whose document passes the validation of [save], is
    answered with 200.  The stored record then has
    [cancelAtPeriodEnd = false] and the status [active], whatever its
    status was and whatever the provider reports; its [currentPeriodEnd]
    and its [canceledAt] are as before, so that it is entitling exactly
    until its period ends. *)
Theorem reactivate_effect
    (stripe : Stripe) (now : Date) (req : ReactivateRequest)
    (subs : list Subscription) (sid : string) (s : Subscription)
    (upd : StripeSubscription) :
  truthyStr (r_subscriptionId req) = Some sid ->
  findBySubscriptionId sid subs = Some s ->
  notOwner (r_userId req) s = Ok false ->
  cancelAtPeriodEnd s = true ->
  subscriptions_update stripe sid false = Ok upd ->
  validateSubscription (setStatus "active" s) = true ->
  let out := reactivateSubscription stripe now req subs in
  statusCode (fst out) = 200
  /\ exists s', findBySubscriptionId sid (snd out) = Some s'
       /\ cancelAtPeriodEnd s' = false
       /\ status s' = "active"
       /\ currentPeriodEnd s' = currentPeriodEnd s
       /\ canceledAt s' = canceledAt s
       /\ (forall t, isActive t s' = dateGt (currentPeriodEnd s) t).
Proof.
  intros Hsid Hfind Hown Hsched Hupd Hvalid out. subst out.
  unfold reactivateSubscription, reactivateAttempt.
  rewrite Hsid, Hfind. simpl. rewrite Hown. simpl. rewrite Hsched. simpl.
  rewrite Hupd. simpl.
  rewrite save_ok.
  2:{ revert Hvalid. unfold validateSubscription. simpl.
      rewrite !andb_true_iff. intuition. }
  simpl. split; [reflexivity|].
  eexists. split.
  - eapply replaceDoc_lookup; [exact Hfind|].
    simpl. eapply findBySubscriptionId_key. exact Hfind.
  - simpl. repeat split.
Qed.

Lemma reactivate_effect_witness :
  let scheduled := setCancelAtPeriodEnd true (Sample.record "incomplete" 1702592000000) in
  exists s', findBySubscriptionId "sub_1"
               (snd (reactivateSubscription
                       (Sample.provider "past_due" (OtherEvent "ping"))
                       1700000001000
                       (mkReactivateRequest (Some "sub_1") (Some Sample.ownerId))
                       [scheduled])) = Some s'
    /\ cancelAtPeriodEnd s' = false
    /\ status s' = "active".
Proof.
  intros scheduled.
  destruct (reactivate_effect
              (Sample.provider "past_due" (OtherEvent "ping")) 1700000001000
              (mkReactivateRequest (Some "sub_1") (Some Sample.ownerId))
              [scheduled] "sub_1" scheduled (Sample.providerSub "past_due" None))
    as (_ & s' & Hf & Hc & Hs & _); try reflexivity.
  exists s'. auto.
Defined.

Lemma notOwner_userId u s s' :
  userId s' = userId s -> notOwner u s' = notOwner u s.
Proof. unfold notOwner. now intros ->. Qed.

Lemma cancel_at_period_end_store stripe now req subs sid s upd :
  truthyStr (c_subscriptionId req) = Some sid ->
  default false (c_cancelImmediately req) = false ->
  findBySubscriptionId sid subs = Some s ->
  notOwner (c_userId req) s = Ok false ->
  status s <> "canceled" ->
  subscriptions_update stripe sid true = Ok upd ->
  validateSubscription (scheduledCancel now upd s) = true ->
  snd (cancelSubscription stripe now req subs)
  = replaceDoc (withUpdatedAt now (scheduledCancel now upd s)) subs.
Proof.
  intros Hsid Himm Hfind Hown Hst Hupd Hvalid.
  unfold cancelSubscription, cancelAttempt.
  rewrite Hsid, Hfind, Himm. simpl. rewrite Hown. simpl.
  destruct (String.eqb_spec (status s) "canceled") as [E|_]; [contradiction|].
  rewrite Hupd. simpl.
  unfold save. unfold scheduledCancel, truthyStr in Hvalid. rewrite Hvalid.
  reflexivity.
Qed.

(** X11.  Cancel at period end followed by reactivate.  When both requests
    succeed, the stored record ends with [cancelAtPeriodEnd = false], the
    status [active] and the [currentPeriodEnd] it had before the cancel;
    its [canceledAt] keeps the time of the cancel. *)
Theorem cancel_then_reactivate
    (stripe : Stripe) (t1 t2 : Date) (sid : string) (caller : option string)
    (subs : list Subscription) (s : Subscription)
    (upd1 upd2 : StripeSubscription) :
  sid <> "" ->
  findBySubscriptionId sid subs = Some s ->
  notOwner caller s = Ok false ->
  status s <> "canceled" ->
  subscriptions_update stripe sid true = Ok upd1 ->
  subscriptions_update stripe sid false = Ok upd2 ->
  validateSubscription (scheduledCancel t1 upd1 s) = true ->
  let canceled :=
    cancelSubscription stripe t1 (mkCancelRequest (Some sid) caller None) subs in
  let out :=
    reactivateSubscription stripe t2 (mkReactivateRequest (Some sid) caller)
      (snd canceled) in
  statusCode (fst canceled) = 200
  /\ statusCode (fst out) = 200
  /\ map subscriptionId (snd out) = map subscriptionId subs
  /\ exists s', findBySubscriptionId sid (snd out) = Some s'
       /\ cancelAtPeriodEnd s' = false
       /\ status s' = "active"
       /\ currentPeriodEnd s' = currentPeriodEnd s
       /\ canceledAt s' = Some t1.
Proof.
  intros Hne Hfind Hown Hst Hupd1 Hupd2 Hvalid canceled out.
  assert (Hsid : truthyStr (Some sid) = Some sid).
  { simpl. destruct (String.eqb_spec sid ""); [contradiction|reflexivity]. }
  pose proof (findBySubscriptionId_key _ _ _ Hfind) as Hkey.
  assert (Hstore : snd canceled
                   = replaceDoc (withUpdatedAt t1 (scheduledCancel t1 upd1 s)) subs).
  { apply (cancel_at_period_end_store stripe t1 _ subs sid s upd1); auto. }
  assert (Hcode : statusCode (fst canceled) = 200).
  { subst canceled. unfold cancelSubscription, cancelAttempt.
    cbn [c_subscriptionId c_userId c_cancelImmediately].
    rewrite Hsid, Hfind. simpl. rewrite Hown. simpl.
    destruct (String.eqb_spec (status s) "canceled") as [E|_]; [contradiction|].
    rewrite Hupd1. simpl.
    unfold save. unfold scheduledCancel, truthyStr in Hvalid. now rewrite Hvalid. }
  split; [exact Hcode|].
  set (doc := withUpdatedAt t1 (scheduledCancel t1 upd1 s)) in *.
  assert (Hdoc : findBySubscriptionId sid (snd canceled) = Some doc).
  { rewrite Hstore. eapply replaceDoc_lookup; [exact Hfind|exact Hkey]. }
  assert (Hown2 : notOwner caller doc = Ok false).
  { rewrite <- Hown. now apply notOwner_userId. }
  assert (Hvalid2 : validateSubscription
                      (setStatus "active" (setCancelAtPeriodEnd false doc)) = true).
  { revert Hvalid. unfold validateSubscription. simpl.
    rewrite !andb_true_iff. intuition. }
  subst out. unfold reactivateSubscription, reactivateAttempt.
  cbn [r_subscriptionId r_userId].
  rewrite Hsid, Hdoc. simpl. rewrite Hown2. simpl.
  rewrite Hupd2. simpl. rewrite save_ok by exact Hvalid2. simpl.
  split; [reflexivity|]. split.
  { rewrite replaceDoc_ids, Hstore. apply replaceDoc_ids. }
  eexists. split.
  - eapply replaceDoc_lookup; [exact Hdoc|exact Hkey].
  - simpl. repeat split.
Qed.

Lemma cancel_then_reactivate_witness :
  let stripe := Sample.provider "active" (OtherEvent "ping") in
  let subs := [Sample.record "active" 1702592000000] in
  let canceled :=
    cancelSubscription stripe 1700000001000
      (mkCancelRequest (Some "sub_1") (Some Sample.ownerId) None) subs in
  exists s',
    findBySubscriptionId "sub_1"
      (snd (reactivateSubscription stripe 1700000002000
              (mkReactivateRequest (Some "sub_1") (Some Sample.ownerId))
              (snd canceled))) = Some s'
    /\ cancelAtPeriodEnd s' = false
    /\ status s' = "active"
    /\ currentPeriodEnd s' = Some 1702592000000
    /\ canceledAt s' = Some 1700000001000.
Proof.
  intros stripe subs canceled.
  destruct (cancel_then_reactivate stripe 1700000001000 1700000002000 "sub_1"
              (Some Sample.ownerId) subs (Sample.record "active" 1702592000000)
              (Sample.providerSub "active" None) (Sample.providerSub "active" None))
    as (_ & _ & _ & H); try reflexivity; try discriminate.
  exact H.
Defined.

(** ** Entitlement checks *)

(** X12.  The [requireActiveSubscription] middleware calls [next()] only
    with a stored record of the requested website (the website whose id
    the route parameter spells, in upper or lower case) that is entitling
    at that time ([isActive]), and that belongs to the caller when the
    request body names a [userId].  Every other request is answered with
    400, 403 or 500; 400 is the answer to a request without [websiteId].
    When no stored record of the website is entitling, and also when the
    parameter spells no id at all, the request is answered with 403 and
    [requiresSubscription: true]; when a record is entitling and the body
    names no [userId], [next()] is called. *)
Theorem requireActiveSubscription_sound
    (now : Date) (wid caller : option string) (subs : list Subscription) :
  match requireActiveSubscription now wid caller subs with
  | inr s =>
      exists w c,
        wid = Some w /\ castObjectId w = Some c
        /\ In s subs /\ websiteId s = Some c /\ isActive now s = true
        /\ (forall u, truthyStr caller = Some u -> userId s = Some u)
  | inl res =>
      statusCode res = 400 \/ statusCode res = 403 \/ statusCode res = 500
  end
  /\ (truthyStr wid = None ->
      exists res, requireActiveSubscription now wid caller subs = inl res
        /\ statusCode res = 400)
  /\ (forall w, truthyStr wid = Some w ->
        (forall c s, castObjectId w = Some c -> In s subs ->
                     websiteId s = Some c -> isActive now s = false) ->
        exists res, requireActiveSubscription now wid caller subs = inl res
          /\ statusCode res = 403
          /\ field "requiresSubscription" (body res) = Some (JBool true))
  /\ (forall w c s, truthyStr wid = Some w -> castObjectId w = Some c ->
        In s subs -> websiteId s = Some c -> isActive now s = true ->
        truthyStr caller = None ->
        exists s', requireActiveSubscription now wid caller subs = inr s').
Proof.
  unfold requireActiveSubscription.
  destruct (truthyStr wid) as [w|] eqn:Hwid.
  2:{ split; [now left|]. split; [eauto|]. split; discriminate. }
  assert (wid = Some w) as Hw.
  { unfold truthyStr in Hwid. destruct wid as [x|]; [|discriminate].
    destruct (String.eqb x ""); congruence. }
  destruct (getActiveSubscription now subs w) as [s0|] eqn:E.
  - destruct (getActiveSubscription_isActive _ _ _ _ E) as (c & Hc & Hin & Hws & Ha).
    split; [|split; [discriminate|split]].
    + unfold notOwner.
      destruct (truthyStr caller) as [u|]; [|exists w, c; repeat split; auto; discriminate].
      destruct (userId s0) as [owner|] eqn:Ho; [|auto].
      destruct (String.eqb_spec owner u) as [->|]; cbn [negb]; [|auto].
      exists w, c. repeat split; auto. intros u' [= <-]. exact Ho.
    + intros w' [= <-] Hnone. rewrite (Hnone c s0 Hc Hin Hws) in Ha. discriminate.
    + intros w' c' s [= <-] Hc' Hin' Hws' Ha' Hcaller.
      unfold notOwner. rewrite Hcaller. eauto.
  - split; [auto|]. split; [discriminate|]. split.
    + intros w' _ _. eexists. repeat split.
    + intros w' c s [= <-] Hc Hin Hws Ha _.
      rewrite (proj1 (getActiveSubscription_None _ _ _) E c s Hc Hin Hws) in Ha.
      discriminate.
Qed.

Lemma requireActiveSubscription_sound_witness :
  exists s,
    requireActiveSubscription 1702591000000 (Some "507F1F77BCF86CD799439011") None
      [Sample.record "active" 1702592000000] = inr s.
Proof.
  destruct (requireActiveSubscription_sound 1702591000000
              (Some "507F1F77BCF86CD799439011") None
              [Sample.record "active" 1702592000000]) as (_ & _ & _ & H).
  apply (H "507F1F77BCF86CD799439011" Sample.siteId
           (Sample.record "active" 1702592000000)); try reflexivity.
  now left.
Defined.

(** X13.  The bulk query never reports an entitlement that the single
    checks deny: when the entry of a website is marked entitled, then
    [hasActiveSubscription] is true for that user and website, the record
    attached is a stored record of that user and website that satisfies
    [isActive], and [checkSubscription] reports an active subscription
    when both ids are well formed. *)
Theorem bulk_entitlement_agrees_with_single_check
    (now : Date) (subs : list Subscription) (userId' : string)
    (websiteIds : list string) (w : string) (e : StatusEntry) :
  getBulkSubscriptionStatus now subs userId' websiteIds !! w = Some e ->
  hasActive e = true ->
  hasActiveSubscription now subs userId' w = true
  /\ (exists s, subscription e = Some s /\ isActive now s = true
        /\ In s subs /\ websiteId s = Some w
        /\ exists u, castObjectId userId' = Some u /\ userId s = Some u)
  /\ (isObjectIdString userId' = true -> isObjectIdString w = true ->
      field "hasActiveSubscription" (body (checkSubscription now subs userId' w))
      = Some (JBool true)).
Proof.
  intros He Ha.
  apply bulk_entry in He
    as [[Hf _]|(_ & u & s & Hu & Hw & Hs & Hin & Hus & Hws & Hst & Hp)];
    [congruence|].
  assert (Hact : isActive now s = true).
  { unfold isActive. rewrite Hst, Hp. reflexivity. }
  split; [|split].
  - apply hasActiveSubscription_isActive. exists u, w, s. auto 8.
  - exists s. eauto 8.
  - intros Hu' Hw'. unfold checkSubscription. rewrite Hu', Hw', Hu, Hw. simpl.
    destruct (find _ subs) as [s'|] eqn:E; [reflexivity|].
    exfalso. eapply find_none in E; [|exact Hin]. simpl in E.
    rewrite Hus, Hws, Hst in E. simpl in E. rewrite !String.eqb_refl in E. simpl in E.
    unfold dateGt in Hp. unfold dateGe in E.
    destruct (currentPeriodEnd s) as [t|]; [|discriminate].
    apply Z.ltb_lt in Hp. apply Z.leb_gt in E. lia.
Qed.

Lemma bulk_entitlement_agrees_with_single_check_witness :
  hasActiveSubscription 2000 [Sample.record "active" 3000]
    "507F191E810C19729DE860EA" Sample.siteId
  = true.
Proof.
  destruct (bulk_entitlement_agrees_with_single_check 2000
              [Sample.record "active" 3000] "507F191E810C19729DE860EA"
              ["507F1F77BCF86CD799439011"]
              Sample.siteId
              {| hasActive := true;
                 subscription := Some (Sample.record "active" 3000) |})
    as [H _]; [reflexivity|reflexivity|exact H].
Defined.

Lemma find_first {A} (P : A -> bool) pre x post :
  Forall (fun y => P y = false) pre -> P x = true ->
  find P (pre ++ x :: post)%list = Some x.
Proof.
  intros Hpre Hx. induction Hpre as [|y pre Hy _ IH]; simpl.
  - now rewrite Hx.
  - now rewrite Hy.
Qed.

(** X14.  [checkSubscription] answers 400 when one of the two ids is not a
    24-digit hexadecimal string and 200 otherwise.  In the 200 answer
    [hasActiveSubscription] is true exactly when a stored record of that
    user and website (the ids that the two strings spell, in upper or
    lower case) has the status [active] and a [currentPeriodEnd] that is
    not before [now]; [data] is then the summary of the first such
    record: its [subscriptionId], [status], [currentPeriodEnd],
    [cancelAtPeriodEnd] and [productId]; without such a record the flag
    is false and [data] is [null]. *)
Theorem checkSubscription_answers
    (now : Date) (subs : list Subscription) (userId' websiteId' : string) :
  let res := checkSubscription now subs userId' websiteId' in
  let entitling (u w : string) (s : Subscription) : Prop :=
    userId s = Some u /\ websiteId s = Some w /\ status s = "active"
    /\ dateGe (currentPeriodEnd s) now = true in
  (isObjectIdString userId' && isObjectIdString websiteId' = false ->
   statusCode res = 400)
  /\ (forall u w,
        castObjectId userId' = Some u -> castObjectId websiteId' = Some w ->
        statusCode res = 200
        /\ (field "hasActiveSubscription" (body res) = Some (JBool true)
            <-> exists s, In s subs /\ entitling u w s)
        /\ ((forall s, In s subs -> ~ entitling u w s) ->
            field "hasActiveSubscription" (body res) = Some (JBool false)
            /\ field "data" (body res) = Some JNull)
        /\ (forall pre s post,
              subs = (pre ++ s :: post)%list ->
              Forall (fun x => ~ entitling u w x) pre ->
              entitling u w s ->
              field "hasActiveSubscription" (body res) = Some (JBool true)
              /\ field "data" (body res)
                 = Some (JObj
                     [("subscriptionId", JStr (subscriptionId s));
                      ("status", JStr (status s));
                      ("currentPeriodEnd", jsonOfOptDate (currentPeriodEnd s));
                      ("cancelAtPeriodEnd", JBool (cancelAtPeriodEnd s));
                      ("productId", match productId s with
                                    | Some p => JStr p
                                    | None => JNull
                                    end)]))).
Proof.
  intros res entitling. subst res. unfold checkSubscription. split.
  - intros H. apply andb_false_iff in H as [-> | ->]; simpl; [reflexivity|].
    now rewrite orb_true_r.
  - intros u w Hu Hw.
    rewrite (proj1 (proj1 (castObjectId_Some _ _) Hu)),
            (proj1 (proj1 (castObjectId_Some _ _) Hw)), Hu, Hw.
    cbn [negb orb].
    set (P := fun s => optEqb (userId s) u && optEqb (websiteId s) w
                       && String.eqb (status s) "active"
                       && dateGe (currentPeriodEnd s) now).
    assert (HP : forall s, P s = true <-> entitling u w s).
    { intros s. unfold P, entitling.
      rewrite !andb_true_iff, !optEqb_true, String.eqb_eq. tauto. }
    assert (Hflag : forall pre s post,
              subs = (pre ++ s :: post)%list ->
              Forall (fun x => ~ entitling u w x) pre -> entitling u w s ->
              find P subs = Some s).
    { intros pre s post -> Hpre Hs. apply find_first; [|now apply HP].
      eapply List.Forall_impl; [|exact Hpre]. intros x Hx.
      apply not_true_iff_false. now rewrite HP. }
    destruct (find P subs) as [s|] eqn:E.
    + split; [reflexivity|]. split; [|split].
      * split; [intros _|reflexivity].
        apply find_some in E as [Hin E]. exists s. split; [exact Hin|now apply HP].
      * intros Hnone. apply find_some in E as [Hin E].
        destruct (Hnone s Hin). now apply HP.
      * intros pre s' post Hsubs Hpre Hs'.
        injection (Hflag _ _ _ Hsubs Hpre Hs') as <-.
        split; reflexivity.
    + split; [reflexivity|]. split; [|split].
      * split; [discriminate|]. intros (s & Hin & Hs).
        eapply find_none in E; [|exact Hin]. apply HP in Hs. congruence.
      * intros _. split; reflexivity.
      * intros pre s' post Hsubs Hpre Hs'.
        discriminate (Hflag _ _ _ Hsubs Hpre Hs').
Qed.

Lemma checkSubscription_answers_witness :
  field "hasActiveSubscription"
    (body (checkSubscription 2000
             [Sample.record "canceled" 3000; Sample.record "active" 3000]
             "507F191E810C19729DE860EA" "507F1F77BCF86CD799439011"))
  = Some (JBool true).
Proof.
  pose proof (checkSubscription_answers 2000
                [Sample.record "canceled" 3000; Sample.record "active" 3000]
                "507F191E810C19729DE860EA" "507F1F77BCF86CD799439011") as H.
  cbv zeta in H. destruct H as [_ H].
  destruct (H Sample.ownerId Sample.siteId eq_refl eq_refl) as (_ & _ & _ & Hfirst).
  apply (Hfirst [Sample.record "canceled" 3000] (Sample.record "active" 3000) []).
  - reflexivity.
  - repeat constructor. intros (_ & _ & Hst & _). discriminate Hst.
  - repeat split.
Defined.

(** ** Website actions *)

Lemma domainTaken_false ws domain wid :
  domainTaken ws domain wid = false ->
  forall i w, ws !! i = Some w -> i <> wid -> customDomain w <> domain.
Proof.
  unfold domainTaken. intros H i w Hi Hne Hd.
  apply not_true_iff_false in H. apply H.
  apply existsb_exists. exists (i, w). split.
  - apply list_elem_of_In. now apply elem_of_map_to_list.
  - rewrite Hd, String.eqb_refl. simpl.
    destruct (String.eqb_spec i wid); [contradiction|reflexivity].
Qed.

Lemma slugTaken_false ws slug' wid :
  slugTaken ws slug' wid = false ->
  forall i w, ws !! i = Some w -> i <> wid -> slug w <> slug'.
Proof.
  unfold slugTaken. intros H i w Hi Hne Hd.
  apply not_true_iff_false in H. apply H.
  apply existsb_exists. exists (i, w). split.
  - apply list_elem_of_In. now apply elem_of_map_to_list.
  - rewrite Hd, String.eqb_refl. simpl.
    destruct (String.eqb_spec i wid); [contradiction|reflexivity].
Qed.

(** X15.  [setCustomDomain].  A request that is not answered with 200
    changes nothing.  A request answered with 200 stores, for that website
    only, the domain in lower case and trimmed, which matches the domain
    pattern and is the custom domain of no other website; the domain is
    stored unverified; slug, publication state and subscriptions are left
    as they were; and the owner has an [active] subscription for the
    website whose period did not end before [now].  The website is the
    one whose id the requested [websiteId] spells, in upper or lower
    case. *)
Theorem setCustomDomain_effect
    (now : Date) (wid : string) (domain : option string) (db : Db) :
  let out := setCustomDomain now wid domain db in
  (statusCode (fst out) <> 200 -> snd out = db)
  /\ (statusCode (fst out) = 200 ->
      exists c d w w' s,
        castObjectId wid = Some c
        /\ truthyStr domain = Some d
        /\ websites db !! c = Some w
        /\ websites (snd out) !! c = Some w'
        /\ customDomain w' = trim (toLowerCase d)
        /\ domainRegex (customDomain w') = true
        /\ isCustomDomainVerified w' = false
        /\ domainVerifiedAt w' = None
        /\ slug w' = slug w /\ isPublished w' = isPublished w
        /\ publishedAt w' = publishedAt w
        /\ w_userId w' = w_userId w /\ templateId w' = templateId w
        /\ (forall i x, i <> c -> websites (snd out) !! i = Some x ->
              websites db !! i = Some x /\ customDomain x <> customDomain w')
        /\ (forall i, i <> c -> websites (snd out) !! i = websites db !! i)
        /\ subscriptions (snd out) = subscriptions db
        /\ templates (snd out) = templates db
        /\ findActiveFor (subscriptions db) (w_userId w) c = Some s
        /\ expiredBefore (currentPeriodEnd s) now = false).
Proof.
  intros out. subst out. unfold setCustomDomain.
  destruct (castObjectId_cases wid) as [[Hid Hc]|[Hid Hc]]; rewrite Hid, ?Hc;
    cbn [negb]; [split; [reflexivity|simpl; discriminate]|].
  destruct (truthyStr domain) as [d|]; [|split; [reflexivity|simpl; discriminate]].
  destruct (domainRegex (trim (toLowerCase d))) eqn:Hre; cbn [negb];
    [|split; [reflexivity|simpl; discriminate]].
  destruct (websites db !! toLowerCase wid) as [w|] eqn:Hw;
    [|split; [reflexivity|simpl; discriminate]].
  destruct (findActiveFor _ _ _) as [s|] eqn:Hs;
    [|split; [reflexivity|simpl; discriminate]].
  destruct (expiredBefore _ _) eqn:He; [split; [reflexivity|simpl; discriminate]|].
  destruct (domainTaken _ _ _) eqn:Ht; [split; [reflexivity|simpl; discriminate]|].
  simpl. split; [congruence|]. intros _.
  exists (toLowerCase wid), d, w. eexists. exists s.
  split; [reflexivity|]. split; [reflexivity|]. split; [assumption|].
  split; [apply lookup_insert_eq|]. simpl.
  repeat (split; [first [reflexivity|assumption]|]).
  split.
  { intros i x Hne. rewrite lookup_insert_ne by congruence. intros Hx.
    split; [assumption|]. eapply domainTaken_false; eauto. }
  split; [intros i Hne; apply lookup_insert_ne; congruence|].
  auto.
Qed.

Lemma setCustomDomain_effect_witness :
  exists w',
    websites (snd (setCustomDomain 1702591000000 "507F1F77BCF86CD799439011"
                     (Some " Example.com ")
                     (Sample.db "" [Sample.record "active" 1702592000000])))
      !! Sample.siteId = Some w'
    /\ customDomain w' = "example.com".
Proof.
  pose proof (setCustomDomain_effect 1702591000000 "507F1F77BCF86CD799439011"
                (Some " Example.com ")
                (Sample.db "" [Sample.record "active" 1702592000000])) as H.
  cbv zeta in H. destruct H as [_ H].
  destruct H as (c & d & w & w' & s & Hc & Hd & _ & Hw' & Hdom & _); [reflexivity|].
  injection Hc as <-. injection Hd as <-.
  exists w'. split; [exact Hw'|]. rewrite Hdom. reflexivity.
Defined.

(** The database after a custom domain has been assigned. *)
Lemma setCustomDomain_stored now wid domain db :
  statusCode (fst (setCustomDomain now wid domain db)) = 200 ->
  exists c d w s,
    castObjectId wid = Some c
    /\ truthyStr domain = Some d
    /\ websites db !! c = Some w
    /\ findActiveFor (subscriptions db) (w_userId w) c = Some s
    /\ snd (setCustomDomain now wid domain db)
       = withWebsites
           (<[c := {| w_userId := w_userId w; templateId := templateId w;
                      slug := slug w;
                      customDomain := trim (toLowerCase d);
                      isPublished := isPublished w;
                      publishedAt := publishedAt w;
                      isCustomDomainVerified := false;
                      domainVerifiedAt := None |}]> (websites db)) db.
Proof.
  unfold setCustomDomain.
  destruct (castObjectId_cases wid) as [[Hid Hc]|[Hid Hc]]; rewrite Hid, ?Hc;
    cbn [negb]; [simpl; discriminate|].
  destruct (truthyStr domain) as [d|]; [|simpl; discriminate].
  destruct (domainRegex _); cbn [negb]; [|simpl; discriminate].
  destruct (websites db !! toLowerCase wid) as [w|] eqn:Hw; [|simpl; discriminate].
  destruct (findActiveFor _ _ _) as [s|] eqn:Hs; [|simpl; discriminate].
  destruct (expiredBefore _ _); [simpl; discriminate|].
  destruct (domainTaken _ _ _); [simpl; discriminate|].
  intros _. exists (toLowerCase wid), d, w, s. auto 8.
Qed.

(** X16.  A domain that has just been assigned can be verified.  After a
    [setCustomDomain] answered with 200, a [verifyCustomDomain] for the
    same website with the stored domain, in any letter case, is answered
    with 200 and marks the domain verified, at whatever time it is made;
    the two requests may spell the id of the website differently. *)
Theorem setCustomDomain_then_verify
    (now now' : Date) (wid wid' d domain' : string) (db : Db) :
  let assigned := setCustomDomain now wid (Some d) db in
  statusCode (fst assigned) = 200 ->
  toLowerCase domain' = trim (toLowerCase d) ->
  castObjectId wid' = castObjectId wid ->
  let out := verifyCustomDomain now' domain' (Some wid') (snd assigned) in
  statusCode (fst out) = 200
  /\ exists c w', castObjectId wid = Some c
       /\ websites (snd out) !! c = Some w'
       /\ customDomain w' = trim (toLowerCase d)
       /\ isCustomDomainVerified w' = true
       /\ domainVerifiedAt w' = Some now'.
Proof.
  intros assigned H200 Hdom Hsame out. subst out assigned.
  destruct (setCustomDomain_stored _ _ _ _ H200)
    as (c & d0 & w & s & Hc & Hd & Hw & Hs & ->).
  assert (d0 = d) as ->.
  { unfold truthyStr in Hd. destruct (String.eqb d ""); congruence. }
  rewrite Hc in Hsame.
  pose proof (proj1 (proj1 (castObjectId_Some _ _) Hsame)) as Hid'.
  assert (Hne : wid' <> "") by (intros ->; discriminate Hid').
  unfold verifyCustomDomain, truthyStr.
  destruct (String.eqb_spec wid' ""); [contradiction|].
  rewrite Hid', Hsame. cbn [negb websites withWebsites].
  rewrite lookup_insert_eq. cbn [customDomain].
  rewrite Hdom, String.eqb_refl.
  cbn [negb subscriptions websites withWebsites w_userId].
  rewrite Hs. simpl.
  split; [reflexivity|].
  exists c. eexists. split; [assumption|].
  rewrite lookup_insert_eq. split; [reflexivity|]. simpl. auto.
Qed.

Lemma setCustomDomain_then_verify_witness :
  let db := Sample.db "" [Sample.record "active" 1702592000000] in
  statusCode
    (fst (verifyCustomDomain 1800000000000 "EXAMPLE.com" (Some Sample.siteId)
            (snd (setCustomDomain 1700000000000 "507F1F77BCF86CD799439011"
                    (Some " Example.COM ") db)))) = 200.
Proof.
  intros db.
  apply (setCustomDomain_then_verify 1700000000000 1800000000000
           "507F1F77BCF86CD799439011" Sample.siteId
           " Example.COM " "EXAMPLE.com" db); reflexivity.
Defined.

Lemma publishWebsite_unchanged frontendUrl now wid reqBody db :
  statusCode (fst (publishWebsite frontendUrl now wid reqBody db)) <> 200 ->
  snd (publishWebsite frontendUrl now wid reqBody db) = db.
Proof.
  unfold publishWebsite.
  destruct (castObjectId_cases wid) as [[Hid Hc]|[Hid Hc]]; rewrite Hid, ?Hc;
    cbn [negb]; [reflexivity|].
  destruct (websites db !! toLowerCase wid) as [w|]; [|reflexivity].
  destruct (match p_isPublished reqBody with VBool true => true | _ => false end);
    [destruct (findActiveFor _ _ _) as [s|]; [|reflexivity];
     destruct (expiredBefore _ _); [reflexivity|] |];
    (destruct (truthyStr (p_slug reqBody)) as [sl|];
     [destruct (String.eqb sl (slug w));
      [|destruct (validateSlug sl); cbn [negb]; [|reflexivity];
        destruct (slugTaken _ _ _); [reflexivity|]]|];
     destruct (castBoolean (p_isPublished reqBody)); simpl; congruence).
Qed.

(** X17.  [publishWebsite].  A request that is not answered with 200
    changes nothing.  A request answered with 200 stores, for the website
    whose id the requested [websiteId] spells, the value that the body's
    [isPublished] is cast to ([true] for [true], ['true'], [1], ['1'] and
    ['yes'], [false] for [false], ['false'], [0], ['0'] and ['no'],
    [null] for [null], the default for a missing key) and sets
    [publishedAt] to the time of the call when the body's value is truthy
    and to [null] otherwise; a new slug is stored only if it is valid and
    the slug of no other website; everything else is left as it was.  The
    subscription is checked only when [isPublished] is the boolean
    [true]: then a request is answered with 200 only if the owner has an
    [active] subscription for the website whose period did not end before
    [now], and with 403 otherwise.  For every other value that can be
    cast (['true'] and [1], which store [true], among them) a request for
    a stored website that changes no slug is answered with 200, whatever
    the subscriptions are; so is a request with the boolean [true] whose
    owner has such a subscription.  A value that cannot be cast is never
    answered with 200. *)
Theorem publishWebsite_effect
    (frontendUrl : string) (now : Date) (wid : string)
    (reqBody : PublishBody) (db : Db) :
  let out := publishWebsite frontendUrl now wid reqBody db in
  let v := p_isPublished reqBody in
  (statusCode (fst out) <> 200 -> snd out = db)
  /\ (statusCode (fst out) = 200 ->
      exists c w w',
        castObjectId wid = Some c
        /\ websites db !! c = Some w
        /\ websites (snd out) !! c = Some w'
        /\ castBoolean v <> PathCastError
        /\ isPublished w' = storedPath (castBoolean v)
        /\ publishedAt w' = (if truthy v then Some now else None)
        /\ (slug w' = slug w
            \/ (p_slug reqBody = Some (slug w')
                /\ validateSlug (slug w') = true
                /\ forall i x, i <> c -> websites db !! i = Some x ->
                               slug x <> slug w'))
        /\ customDomain w' = customDomain w
        /\ isCustomDomainVerified w' = isCustomDomainVerified w
        /\ domainVerifiedAt w' = domainVerifiedAt w
        /\ w_userId w' = w_userId w /\ templateId w' = templateId w
        /\ (forall i, i <> c -> websites (snd out) !! i = websites db !! i)
        /\ subscriptions (snd out) = subscriptions db
        /\ templates (snd out) = templates db
        /\ (v = VBool true ->
            exists s, findActiveFor (subscriptions db) (w_userId w) c = Some s
                      /\ expiredBefore (currentPeriodEnd s) now = false))
  /\ (forall c w, castObjectId wid = Some c -> websites db !! c = Some w ->
        v = VBool true ->
        (forall s, findActiveFor (subscriptions db) (w_userId w) c = Some s ->
                   expiredBefore (currentPeriodEnd s) now = true) ->
        statusCode (fst out) = 403
        /\ field "requiresSubscription" (body (fst out)) = Some (JBool true))
  /\ (forall c w, castObjectId wid = Some c -> websites db !! c = Some w ->
        v <> VBool true -> castBoolean v <> PathCastError ->
        p_slug reqBody = None ->
        statusCode (fst out) = 200
        /\ field "message" (body (fst out))
           = Some (JStr (if truthy v then "Website published successfully"
                         else "Website unpublished")))
  /\ (castBoolean v = PathCastError -> statusCode (fst out) <> 200)
  /\ (forall c w s, castObjectId wid = Some c -> websites db !! c = Some w ->
        v = VBool true ->
        findActiveFor (subscriptions db) (w_userId w) c = Some s ->
        expiredBefore (currentPeriodEnd s) now = false ->
        p_slug reqBody = None ->
        statusCode (fst out) = 200
        /\ field "message" (body (fst out))
           = Some (JStr "Website published successfully")).
Proof.
  intros out v. subst out v.
  assert (Hslug :
    forall sl, truthyStr (p_slug reqBody) = Some sl -> p_slug reqBody = Some sl).
  { intros sl. unfold truthyStr. destruct (p_slug reqBody) as [x|]; [|discriminate].
    destruct (String.eqb x ""); congruence. }
  split; [apply publishWebsite_unchanged|].
  unfold publishWebsite.
  destruct (castObjectId_cases wid) as [[Hid Hc]|[Hid Hc]]; rewrite Hid, Hc;
    cbn [negb].
  { split; [simpl; discriminate|]. split; [discriminate|]. split; [discriminate|].
    split; [simpl; discriminate|discriminate]. }
  destruct (websites db !! toLowerCase wid) as [w|] eqn:Hw.
  2:{ split; [simpl; discriminate|]. split; [intros c w [= <-]; congruence|].
      split; [intros c w [= <-]; congruence|].
      split; [simpl; discriminate|intros c w s [= <-]; congruence]. }
  set (c := toLowerCase wid) in *.
  set (gate := match p_isPublished reqBody with VBool true => true | _ => false end).
  assert (Hgate : gate = true <-> p_isPublished reqBody = VBool true).
  { unfold gate. destruct (p_isPublished reqBody) as [| |[]| | | |];
      split; congruence. }
  assert (Hdone : forall sl,
            (sl = slug w
             \/ (p_slug reqBody = Some sl /\ validateSlug sl = true
                 /\ forall i x, i <> c -> websites db !! i = Some x -> slug x <> sl)) ->
            (p_isPublished reqBody = VBool true ->
             exists s, findActiveFor (subscriptions db) (w_userId w) c = Some s
                       /\ expiredBefore (currentPeriodEnd s) now = false) ->
            castBoolean (p_isPublished reqBody) <> PathCastError ->
            let w' := {| w_userId := w_userId w; templateId := templateId w;
                         slug := sl; customDomain := customDomain w;
                         isPublished := storedPath (castBoolean (p_isPublished reqBody));
                         publishedAt := if truthy (p_isPublished reqBody)
                                        then Some now else None;
                         isCustomDomainVerified := isCustomDomainVerified w;
                         domainVerifiedAt := domainVerifiedAt w |} in
            let db' := withWebsites (<[c := w']> (websites db)) db in
            exists c0 w0 w1,
              Some c = Some c0
              /\ websites db !! c0 = Some w0
              /\ websites db' !! c0 = Some w1
              /\ castBoolean (p_isPublished reqBody) <> PathCastError
              /\ isPublished w1 = storedPath (castBoolean (p_isPublished reqBody))
              /\ publishedAt w1 = (if truthy (p_isPublished reqBody)
                                   then Some now else None)
              /\ (slug w1 = slug w0
                  \/ (p_slug reqBody = Some (slug w1)
                      /\ validateSlug (slug w1) = true
                      /\ forall i x, i <> c0 -> websites db !! i = Some x ->
                                     slug x <> slug w1))
              /\ customDomain w1 = customDomain w0
              /\ isCustomDomainVerified w1 = isCustomDomainVerified w0
              /\ domainVerifiedAt w1 = domainVerifiedAt w0
              /\ w_userId w1 = w_userId w0 /\ templateId w1 = templateId w0
              /\ (forall i, i <> c0 -> websites db' !! i = websites db !! i)
              /\ subscriptions db' = subscriptions db
              /\ templates db' = templates db
              /\ (p_isPublished reqBody = VBool true ->
                  exists s, findActiveFor (subscriptions db) (w_userId w0) c0 = Some s
                            /\ expiredBefore (currentPeriodEnd s) now = false)).
  { intros sl Hsl Hg Hcast w' db'. exists c, w, w'. subst db'. simpl.
    split; [reflexivity|]. split; [exact Hw|]. split; [apply lookup_insert_eq|].
    repeat (split; [first [reflexivity|assumption]|]).
    split; [intros i Hi; apply lookup_insert_ne; congruence|]. auto. }
  split; [|split; [|split; [|split]]].
  - (* what a 200 means *)
    destruct gate eqn:Hg.
    + destruct (findActiveFor _ _ _) as [s|] eqn:Hs; [|simpl; discriminate].
      destruct (expiredBefore _ _) eqn:He; [simpl; discriminate|].
      destruct (truthyStr (p_slug reqBody)) as [sl|] eqn:Hsl.
      * destruct (String.eqb_spec sl (slug w)) as [->|Hne].
        -- destruct (castBoolean _) eqn:Hcast; try (simpl; discriminate);
             intros _; apply (Hdone (slug w)); eauto; congruence.
        -- destruct (validateSlug sl) eqn:Hv; cbn [negb]; [|simpl; discriminate].
           destruct (slugTaken _ _ _) eqn:Ht; [simpl; discriminate|].
           assert (Hnew : sl = slug w
                          \/ (p_slug reqBody = Some sl /\ validateSlug sl = true
                              /\ forall i x, i <> c -> websites db !! i = Some x ->
                                             slug x <> sl)).
           { right. split; [auto|]. split; [assumption|].
             intros i x Hi Hx. eapply slugTaken_false; eauto. }
           destruct (castBoolean _) eqn:Hcast; try (simpl; discriminate);
             intros _; apply (Hdone sl); eauto; congruence.
      * destruct (castBoolean _) eqn:Hcast; try (simpl; discriminate);
          intros _; apply (Hdone (slug w)); eauto; congruence.
    + assert (Hno : p_isPublished reqBody = VBool true ->
                    exists s, findActiveFor (subscriptions db) (w_userId w) c = Some s
                              /\ expiredBefore (currentPeriodEnd s) now = false).
      { intros H. apply Hgate in H. discriminate. }
      destruct (truthyStr (p_slug reqBody)) as [sl|] eqn:Hsl.
      * destruct (String.eqb_spec sl (slug w)) as [->|Hne].
        -- destruct (castBoolean _) eqn:Hcast; try (simpl; discriminate);
             intros _; apply (Hdone (slug w)); auto; congruence.
        -- destruct (validateSlug sl) eqn:Hv; cbn [negb]; [|simpl; discriminate].
           destruct (slugTaken _ _ _) eqn:Ht; [simpl; discriminate|].
           assert (Hnew : sl = slug w
                          \/ (p_slug reqBody = Some sl /\ validateSlug sl = true
                              /\ forall i x, i <> c -> websites db !! i = Some x ->
                                             slug x <> sl)).
           { right. split; [auto|]. split; [assumption|].
             intros i x Hi Hx. eapply slugTaken_false; eauto. }
           destruct (castBoolean _) eqn:Hcast; try (simpl; discriminate);
             intros _; apply (Hdone sl); auto; congruence.
      * destruct (castBoolean _) eqn:Hcast; try (simpl; discriminate);
          intros _; apply (Hdone (slug w)); auto; congruence.
  - (* the gate denies *)
    intros c0 w0 [= <-] Hw0 Hv Hexp.
    rewrite Hw in Hw0. injection Hw0 as <-.
    rewrite (proj2 Hgate Hv).
    destruct (findActiveFor _ _ _) as [s|] eqn:Hs; [|split; reflexivity].
    rewrite (Hexp s eq_refl). split; reflexivity.
  - (* no gate for the other values *)
    intros c0 w0 [= <-] Hw0 Hv Hcast Hnoslug.
    rewrite Hw in Hw0. injection Hw0 as <-.
    assert (gate = false) as ->.
    { destruct gate; [|reflexivity]. destruct Hv. now apply Hgate. }
    rewrite Hnoslug. cbn [truthyStr].
    destruct (castBoolean _); try contradiction; split; reflexivity.
  - (* a value that cannot be cast *)
    intros Hcast. rewrite Hcast.
    destruct gate;
      [destruct (findActiveFor _ _ _) as [s|]; [|simpl; discriminate];
       destruct (expiredBefore _ _); [simpl; discriminate|] |];
      (destruct (truthyStr (p_slug reqBody)) as [sl|];
       [destruct (String.eqb sl (slug w));
        [|destruct (validateSlug sl); cbn [negb]; [|simpl; discriminate];
          destruct (slugTaken _ _ _); [simpl; discriminate|]]|];
       simpl; discriminate).
  - (* the gate admits *)
    intros c0 w0 s [= <-] Hw0 Hv Hs Hexp Hnoslug.
    rewrite Hw in Hw0. injection Hw0 as <-.
    rewrite (proj2 Hgate Hv), Hs, Hexp, Hnoslug, Hv. split; reflexivity.
Qed.

Lemma publishWebsite_effect_witness :
  let out := publishWebsite "https://app.example" 1700000000000
               "507F1F77BCF86CD799439011" (mkPublishBody (VStr "true") None)
               (Sample.db "" []) in
  statusCode (fst out) = 200
  /\ field "message" (body (fst out)) = Some (JStr "Website published successfully").
Proof.
  intros out. subst out.
  pose proof (publishWebsite_effect "https://app.example" 1700000000000
                "507F1F77BCF86CD799439011" (mkPublishBody (VStr "true") None)
                (Sample.db "" [])) as H.
  cbv zeta in H. destruct H as (_ & _ & _ & H & _).
  apply (H Sample.siteId (Sample.site "")); try reflexivity; discriminate.
Defined.

Lemma requireActiveSubscription_cases now w caller subs :
  (exists s c, requireActiveSubscription now (Some w) caller subs = inr s
               /\ castObjectId w = Some c
               /\ In s subs /\ websiteId s = Some c /\ isActive now s = true)
  \/ (exists res, requireActiveSubscription now (Some w) caller subs = inl res
                  /\ (statusCode res = 400 \/ statusCode res = 403
                      \/ statusCode res = 500)).
Proof.
  unfold requireActiveSubscription.
  destruct (truthyStr (Some w)) as [w0|] eqn:Hw0; [|right; eexists; split; eauto].
  assert (w0 = w) as ->.
  { simpl in Hw0. destruct (String.eqb w ""); congruence. }
  destruct (getActiveSubscription now subs w) as [s|] eqn:E;
    [|right; eexists; split; eauto].
  destruct (getActiveSubscription_isActive _ _ _ _ E) as (c & Hc & Hin & Hw & Ha).
  destruct (notOwner caller s) as [[|]|]; [right| left |right]; eauto 10.
Qed.

Lemma requireActiveSubscription_denies now w caller subs :
  w <> "" ->
  (forall c s, castObjectId w = Some c -> In s subs -> websiteId s = Some c ->
               isActive now s = false) ->
  requireActiveSubscription now (Some w) caller subs
  = inl (mkResponse 403
           (JObj [("success", JBool false);
                  ("message", JStr "Active subscription required for this action");
                  ("requiresSubscription", JBool true)])).
Proof.
  intros Hne Hnone. unfold requireActiveSubscription, truthyStr.
  destruct (String.eqb_spec w ""); [contradiction|].
  rewrite (proj2 (getActiveSubscription_None now subs w) Hnone). reflexivity.
Qed.

(** X18.  The publish route.  Behind the [requireActiveSubscription]
    middleware a request is answered with 200 only if a stored record of
    the website whose id the requested [websiteId] spells is entitling at
    that time ([isActive]); this holds for unpublishing too, which the
    route answers with 403 and [requiresSubscription: true] when the
    requested id is not empty and no record of that website is entitling
    (in particular when the requested id spells no id at all).  A request
    that is not answered with 200 changes nothing. *)
Theorem publishRoute_requires_entitlement
    (frontendUrl : string) (now : Date) (wid : string) (caller : option string)
    (reqBody : PublishBody) (db : Db) :
  let out := publishRoute frontendUrl now wid caller reqBody db in
  (statusCode (fst out) = 200 ->
   exists c s, castObjectId wid = Some c
               /\ In s (subscriptions db) /\ websiteId s = Some c
               /\ isActive now s = true)
  /\ (statusCode (fst out) <> 200 -> snd out = db)
  /\ (wid <> "" ->
      (forall c s, castObjectId wid = Some c -> In s (subscriptions db) ->
                   websiteId s = Some c -> isActive now s = false) ->
      statusCode (fst out) = 403
      /\ field "requiresSubscription" (body (fst out)) = Some (JBool true)).
Proof.
  intros out. subst out. unfold publishRoute.
  split; [|split].
  - destruct (requireActiveSubscription_cases now wid caller (subscriptions db))
      as [(s & c & Hs & Hc & Hin & Hw & Ha)|(res & Hres & Hcode)].
    + eauto 8.
    + rewrite Hres. simpl. intros H. rewrite H in Hcode.
      destruct Hcode as [?|[?|?]]; discriminate.
  - destruct (requireActiveSubscription _ _ _ _); [reflexivity|].
    apply publishWebsite_unchanged.
  - intros Hne Hnone.
    rewrite (requireActiveSubscription_denies _ _ _ _ Hne Hnone).
    split; reflexivity.
Qed.

Lemma publishRoute_requires_entitlement_witness :
  exists c s,
    castObjectId "507F1F77BCF86CD799439011" = Some c
    /\ In s [Sample.record "active" 1702592000000]
    /\ websiteId s = Some c /\ isActive 1700000000000 s = true.
Proof.
  pose proof (publishRoute_requires_entitlement "https://app.example" 1700000000000
                "507F1F77BCF86CD799439011" None (mkPublishBody (VBool false) None)
                (Sample.db "" [Sample.record "active" 1702592000000])) as H.
  cbv zeta in H. destruct H as (H & _ & _).
  apply H. reflexivity.
Defined.

Lemma setCustomDomain_unchanged now wid domain db :
  statusCode (fst (setCustomDomain now wid domain db)) <> 200 ->
  snd (setCustomDomain now wid domain db) = db.
Proof.
  unfold setCustomDomain.
  destruct (castObjectId_cases wid) as [[Hid Hc]|[Hid Hc]]; rewrite Hid, ?Hc;
    cbn [negb]; [reflexivity|].
  destruct (truthyStr domain) as [d|]; [|reflexivity].
  destruct (domainRegex (trim (toLowerCase d))); cbn [negb]; [|reflexivity].
  destruct (websites db !! toLowerCase wid) as [w|]; [|reflexivity].
  destruct (findActiveFor _ _ _) as [s|]; [|reflexivity].
  destruct (expiredBefore _ _); [reflexivity|].
  destruct (domainTaken _ _ _); [reflexivity|].
  simpl. congruence.
Qed.

(** X26.  The custom-domain route.  Behind the [requireActiveSubscription]
    middleware a request is answered with 200 only if both checks pass for
    the website whose id the requested [websiteId] spells: a stored record
    of the website is entitling at that time ([isActive], the middleware),
    and the owner of the website has a record for it with status [active]
    whose period did not end before [now] (the controller).  A request
    that is not answered with 200 changes nothing, and when the requested
    id is not empty and no record of that website is entitling the answer
    is 403 with [requiresSubscription: true]. *)
Theorem customDomainRoute_requires_entitlement
    (now : Date) (wid : string) (caller domain : option string) (db : Db) :
  let out := customDomainRoute now wid caller domain db in
  (statusCode (fst out) = 200 ->
   exists c w s s',
     castObjectId wid = Some c
     /\ websites db !! c = Some w
     /\ In s (subscriptions db) /\ websiteId s = Some c
     /\ isActive now s = true
     /\ In s' (subscriptions db) /\ websiteId s' = Some c
     /\ userId s' = Some (w_userId w) /\ status s' = "active"
     /\ expiredBefore (currentPeriodEnd s') now = false)
  /\ (statusCode (fst out) <> 200 -> snd out = db)
  /\ (wid <> "" ->
      (forall c s, castObjectId wid = Some c -> In s (subscriptions db) ->
                   websiteId s = Some c -> isActive now s = false) ->
      statusCode (fst out) = 403
      /\ field "requiresSubscription" (body (fst out)) = Some (JBool true)).
Proof.
  intros out. subst out. unfold customDomainRoute.
  split; [|split].
  - destruct (requireActiveSubscription_cases now wid caller (subscriptions db))
      as [(s & c & Hs & Hc & Hin & Hw & Ha)|(res & Hres & Hcode)].
    + rewrite Hs. intros H200.
      destruct (setCustomDomain_gate _ _ _ _ H200)
        as (c' & w & s' & Hc' & Hlook & Hfind & Hexp).
      assert (c' = c) as -> by congruence.
      destruct (findActiveFor_spec _ _ _ _ Hfind) as (Hin' & Hu' & Hw' & Hst').
      exists c, w, s, s'. auto 12.
    + rewrite Hres. simpl. intros H. rewrite H in Hcode.
      destruct Hcode as [?|[?|?]]; discriminate.
  - destruct (requireActiveSubscription _ _ _ _); [reflexivity|].
    apply setCustomDomain_unchanged.
  - intros Hne Hnone.
    rewrite (requireActiveSubscription_denies _ _ _ _ Hne Hnone).
    split; reflexivity.
Qed.

Lemma customDomainRoute_requires_entitlement_witness :
  exists c w s s',
    castObjectId "507F1F77BCF86CD799439011" = Some c
    /\ websites (Sample.db "" [Sample.record "active" 1702592000000]) !! c = Some w
    /\ In s [Sample.record "active" 1702592000000] /\ websiteId s = Some c
    /\ isActive 1702000000000 s = true
    /\ In s' [Sample.record "active" 1702592000000] /\ websiteId s' = Some c
    /\ userId s' = Some (w_userId w) /\ status s' = "active"
    /\ expiredBefore (currentPeriodEnd s') 1702000000000 = false.
Proof.
  pose proof (customDomainRoute_requires_entitlement 1702000000000
                "507F1F77BCF86CD799439011" (Some Sample.ownerId) (Some "example.com")
                (Sample.db "" [Sample.record "active" 1702592000000])) as H.
  cbv zeta in H. destruct H as (H & _ & _).
  apply H. reflexivity.
Defined.

(** X19.  [verifyCustomDomain] is answered with 200 only for a stored
    website (the one whose id the requested [siteid] spells) whose custom
    domain is the given domain in lower case and whose owner has a
    subscription with status [active] for it; the request then changes the
    verification fields of that website and nothing else.  A request that
    is not answered with 200 changes nothing; it is answered with 403 and
    [requiresSubscription: true] when the website and the domain match but
    the owner has no [active] subscription for the website. *)
Theorem verifyCustomDomain_effect
    (now : Date) (domain : string) (siteid : option string) (db : Db) :
  let out := verifyCustomDomain now domain siteid db in
  (statusCode (fst out) <> 200 -> snd out = db)
  /\ (statusCode (fst out) = 200 ->
      exists i c w w' s,
        siteid = Some i /\ isObjectIdString i = true
        /\ castObjectId i = Some c
        /\ websites db !! c = Some w
        /\ customDomain w = toLowerCase domain
        /\ In s (subscriptions db) /\ userId s = Some (w_userId w)
        /\ websiteId s = Some c /\ status s = "active"
        /\ websites (snd out) !! c = Some w'
        /\ isCustomDomainVerified w' = true /\ domainVerifiedAt w' = Some now
        /\ customDomain w' = customDomain w /\ slug w' = slug w
        /\ isPublished w' = isPublished w /\ publishedAt w' = publishedAt w
        /\ w_userId w' = w_userId w /\ templateId w' = templateId w
        /\ (forall j, j <> c -> websites (snd out) !! j = websites db !! j)
        /\ subscriptions (snd out) = subscriptions db
        /\ templates (snd out) = templates db)
  /\ (forall i c w, siteid = Some i -> castObjectId i = Some c ->
        websites db !! c = Some w -> customDomain w = toLowerCase domain ->
        findActiveFor (subscriptions db) (w_userId w) c = None ->
        statusCode (fst out) = 403
        /\ field "requiresSubscription" (body (fst out)) = Some (JBool true)).
Proof.
  intros out. subst out. unfold verifyCustomDomain. split; [|split].
  - destruct (truthyStr siteid) as [i|]; [|reflexivity].
    destruct (castObjectId_cases i) as [[Hid Hc]|[Hid Hc]]; rewrite Hid, ?Hc;
      cbn [negb]; [reflexivity|].
    destruct (websites db !! toLowerCase i) as [w|]; [|reflexivity].
    destruct (String.eqb _ _); cbn [negb]; [|reflexivity].
    destruct (findActiveFor _ _ _); [|reflexivity].
    unfold verifyDNSRecord. simpl. congruence.
  - destruct (truthyStr siteid) as [i|] eqn:Hi; [|simpl; discriminate].
    assert (siteid = Some i) as ->.
    { unfold truthyStr in Hi. destruct siteid as [x|]; [|discriminate].
      destruct (String.eqb x ""); congruence. }
    destruct (castObjectId_cases i) as [[Hid Hc]|[Hid Hc]]; rewrite Hid, ?Hc;
      cbn [negb]; [simpl; discriminate|].
    destruct (websites db !! toLowerCase i) as [w|] eqn:Hw; [|simpl; discriminate].
    destruct (String.eqb_spec (customDomain w) (toLowerCase domain)) as [Hd|];
      cbn [negb]; [|simpl; discriminate].
    destruct (findActiveFor _ _ _) as [s|] eqn:Hs; [|simpl; discriminate].
    apply findActiveFor_spec in Hs as (Hin & Hu & Hws & Hst).
    unfold verifyDNSRecord. simpl. intros _.
    exists i, (toLowerCase i), w. eexists. exists s.
    split; [reflexivity|]. repeat (split; [assumption|]).
    split; [apply lookup_insert_eq|]. simpl.
    repeat (split; [reflexivity|]).
    split; [|auto]. intros j Hj. apply lookup_insert_ne. congruence.
  - intros i c w -> Hc Hw Hd Hs.
    apply castObjectId_Some in Hc as [Hid ->]. unfold truthyStr.
    destruct (String.eqb_spec i ""); [subst; discriminate|].
    unfold castObjectId. rewrite Hid. cbn [negb].
    rewrite Hw, Hd, String.eqb_refl. cbn [negb]. rewrite Hs. split; reflexivity.
Qed.

Lemma verifyCustomDomain_effect_witness :
  statusCode (fst (verifyCustomDomain 1700000000000 "example.com"
                     (Some "507F1F77BCF86CD799439011")
                     (Sample.db "example.com" [Sample.record "canceled" 1702592000000])))
  = 403.
Proof.
  pose proof (verifyCustomDomain_effect 1700000000000 "example.com"
                (Some "507F1F77BCF86CD799439011")
                (Sample.db "example.com" [Sample.record "canceled" 1702592000000])) as H.
  cbv zeta in H. destruct H as (_ & _ & H).
  apply (H "507F1F77BCF86CD799439011" Sample.siteId (Sample.site "example.com"));
    reflexivity.
Defined.

(** X20.  [deleteWebsite] on an id that is not well formed is answered
    with 400, and on a well-formed id that spells the id of no stored
    website with 404; both change nothing.  A deletion answered with 200
    removes the website the requested id spells, leaves every other
    website stored as it was, lowers the usage count of the website's
    template by exactly one when that template is stored, and leaves the
    usage counts of the other templates as they were; the answer repeats
    the id as it was requested. *)
Theorem deleteWebsite_frame (wid : string) (db : Db) :
  let out := deleteWebsite wid db in
  (isObjectIdString wid = false -> statusCode (fst out) = 400 /\ snd out = db)
  /\ (forall c, castObjectId wid = Some c -> websites db !! c = None ->
      statusCode (fst out) = 404 /\ snd out = db)
  /\ (forall c w, castObjectId wid = Some c -> websites db !! c = Some w ->
        statusCode (fst out) = 200
        /\ field "data" (body (fst out)) = Some (JObj [("websiteId", JStr wid)])
        /\ websites (snd out) !! c = None
        /\ (forall j, j <> c -> websites (snd out) !! j = websites db !! j)
        /\ (forall t, templateId w = Some t ->
              templates (snd out) !! t = (fun n => n - 1) <$> templates db !! t)
        /\ (forall t, templateId w <> Some t ->
              templates (snd out) !! t = templates db !! t)).
Proof.
  intros out. subst out. unfold deleteWebsite, deleteWebsiteOps.
  split; [|split].
  - intros ->. auto.
  - intros c Hc Hw. rewrite Hc.
    apply castObjectId_Some in Hc as [-> _]. cbn [negb].
    rewrite Hw. simpl. split; [reflexivity|].
    unfold runOps. simpl. unfold withWebsites. rewrite delete_id by assumption.
    now destruct db.
  - intros c w Hc Hw. rewrite Hc.
    apply castObjectId_Some in Hc as [-> _]. cbn [negb].
    rewrite Hw. simpl. split; [reflexivity|]. split; [reflexivity|].
    destruct (templateId w) as [t|]; simpl.
    + split; [apply lookup_delete_eq|].
      split; [intros j Hj; apply lookup_delete_ne; congruence|].
      split.
      * intros t' [= <-]. apply lookup_alter_eq.
      * intros t' Hne. apply lookup_alter_ne. congruence.
    + split; [apply lookup_delete_eq|].
      split; [intros j Hj; apply lookup_delete_ne; congruence|].
      split; [discriminate|reflexivity].
Qed.

Lemma deleteWebsite_frame_witness :
  templates (snd (deleteWebsite "507F1F77BCF86CD799439011" (Sample.db "" [])))
    !! Sample.templateOfSite = Some 0.
Proof.
  pose proof (deleteWebsite_frame "507F1F77BCF86CD799439011" (Sample.db "" [])) as H.
  cbv zeta in H. destruct H as (_ & _ & H).
  destruct (H Sample.siteId (Sample.site "")) as (_ & _ & _ & _ & Ht & _);
    [reflexivity|reflexivity|].
  rewrite (Ht Sample.templateOfSite eq_refl). reflexivity.
Defined.

(** ** [ensureTailwindCDN] *)

Lemma append_cons c a b : String c a +:+ b = String c (a +:+ b).
Proof. reflexivity. Qed.

Lemma append_nil b : "" +:+ b = b.
Proof. reflexivity. Qed.

Lemma startsWith_app n s : startsWith n (n +:+ s) = true.
Proof.
  induction n as [|a n IH]; [reflexivity|].
  rewrite ?append_cons. simpl. now rewrite Ascii.eqb_refl, IH.
Qed.

Lemma startsWith_app_l n s q : startsWith n s = true -> startsWith n (s +:+ q) = true.
Proof.
  revert s. induction n as [|a n IH]; intros s; simpl; [reflexivity|].
  destruct s as [|b s]; [discriminate|]. rewrite ?append_cons. simpl.
  rewrite !andb_true_iff. intros [-> H]. auto.
Qed.

Lemma startsWith_split n s :
  startsWith n s = true -> s = n +:+ dropChars (String.length n) s.
Proof.
  revert s. induction n as [|a n IH]; intros s; simpl; [reflexivity|].
  destruct s as [|b s]; [discriminate|].
  rewrite andb_true_iff. intros [Hab H]. apply Ascii.eqb_eq in Hab as ->.
  rewrite ?append_cons. f_equal. now apply IH.
Qed.

Lemma includes_app_r n p s : includes n s = true -> includes n (p +:+ s) = true.
Proof.
  intros H. induction p as [|c p IH]; [exact H|].
  rewrite ?append_cons. simpl. rewrite IH. apply orb_true_r.
Qed.

Lemma includes_app_l n s q : includes n s = true -> includes n (s +:+ q) = true.
Proof.
  induction s as [|c s IH].
  - simpl. rewrite orb_false_r. intros H. destruct n; [|discriminate].
    destruct q; reflexivity.
  - simpl. rewrite orb_true_iff. intros [H|H].
    + apply (startsWith_app_l n (String c s) q) in H. rewrite ?append_cons in *.
      simpl. rewrite H. reflexivity.
    + rewrite ?append_cons. simpl. rewrite (IH H). apply orb_true_r.
Qed.

Lemma includes_middle n p s q :
  includes n s = true -> includes n (p +:+ s +:+ q) = true.
Proof. intros H. apply includes_app_r, includes_app_l, H. Qed.

Lemma replaceFirst_split needle replacement s :
  includes needle s = true ->
  exists pre post,
    s = pre +:+ needle +:+ post
    /\ (forall pre' post', s = pre' +:+ needle +:+ post' ->
          (String.length pre <= String.length pre')%nat)
    /\ replaceFirst needle replacement s = pre +:+ replacement +:+ post.
Proof.
  induction s as [|c s IH].
  - simpl. rewrite orb_false_r. intros H. exists "", "".
    rewrite H. destruct needle; [|discriminate]. simpl.
    split; [reflexivity|]. split; [intros; lia|]. now destruct replacement.
  - intros H. cbn [replaceFirst].
    destruct (startsWith needle (String c s)) eqn:Hs.
    + exists "", (dropChars (String.length needle) (String c s)).
      split; [now apply startsWith_split|]. split; [simpl; intros; lia|reflexivity].
    + cbn [includes] in H. rewrite Hs in H. simpl in H.
      destruct (IH H) as (pre & post & Heq & Hfirst & Hr).
      exists (String c pre), post. rewrite ?append_cons.
      split; [now rewrite <- Heq|]. split; [|now rewrite Hr].
      intros [|c' pre'] post' Hdec.
      * rewrite append_nil in Hdec. rewrite Hdec, startsWith_app in Hs. discriminate.
      * rewrite append_cons in Hdec. injection Hdec as _ Hdec.
        specialize (Hfirst _ _ Hdec). simpl. lia.
Qed.

Lemma includes_refl n : includes n n = true.
Proof.
  assert (H : startsWith n n = true).
  { induction n as [|c n IH]; simpl; [reflexivity|]. now rewrite Ascii.eqb_refl. }
  destruct n; simpl in *; [reflexivity|]. now rewrite H.
Qed.

Lemma includes_trans a b s :
  includes a b = true -> includes b s = true -> includes a s = true.
Proof.
  intros Hab Hbs.
  destruct (replaceFirst_split b "" s Hbs) as (pre & post & -> & _ & _).
  now apply includes_middle.
Qed.

(** X21.  [ensureTailwindCDN] returns the empty document and a document
    that mentions [tailwind] as they are.  Into every other document it
    puts the Tailwind script tag: on a line of its own before the first
    [</head>] when the document has one; otherwise on a line of its own
    after the first [<head>] when the document has one; otherwise in the
    head of a new document that has the given one as its body.  So the
    result of a non-empty document always mentions [tailwind], and
    applying the function twice is the same as applying it once. *)
Theorem ensureTailwindCDN_adds_script_once (html : string) :
  ensureTailwindCDN "" = ""
  /\ (includes "tailwind" html = true -> ensureTailwindCDN html = html)
  /\ (html <> "" -> includes "tailwind" html = false ->
      includes tailwindCDN (ensureTailwindCDN html) = true)
  /\ (html <> "" -> includes "tailwind" html = false ->
      includes "</head>" html = true ->
      exists pre post,
        html = pre +:+ "</head>" +:+ post
        /\ (forall pre' post', html = pre' +:+ "</head>" +:+ post' ->
              (String.length pre <= String.length pre')%nat)
        /\ ensureTailwindCDN html
           = pre +:+ ("  " +:+ tailwindCDN +:+ newline +:+ "</head>") +:+ post)
  /\ (html <> "" -> includes "tailwind" html = false ->
      includes "</head>" html = false -> includes "<head>" html = true ->
      exists pre post,
        html = pre +:+ "<head>" +:+ post
        /\ (forall pre' post', html = pre' +:+ "<head>" +:+ post' ->
              (String.length pre <= String.length pre')%nat)
        /\ ensureTailwindCDN html
           = pre +:+ ("<head>" +:+ newline +:+ "  " +:+ tailwindCDN) +:+ post)
  /\ (html <> "" -> includes "tailwind" html = false ->
      includes "</head>" html = false -> includes "<head>" html = false ->
      ensureTailwindCDN html
      = "<!DOCTYPE html>" +:+ newline
        +:+ "<html lang=" +:+ quote +:+ "en" +:+ quote +:+ ">" +:+ newline
        +:+ "<head>" +:+ newline
        +:+ "  <meta charset=" +:+ quote +:+ "UTF-8" +:+ quote +:+ ">" +:+ newline
        +:+ "  <meta name=" +:+ quote +:+ "viewport" +:+ quote
        +:+ " content=" +:+ quote +:+ "width=device-width, initial-scale=1.0" +:+ quote
        +:+ ">" +:+ newline
        +:+ "  " +:+ tailwindCDN +:+ newline
        +:+ "</head>" +:+ newline
        +:+ "<body>" +:+ newline
        +:+ "  " +:+ html +:+ newline
        +:+ "</body>" +:+ newline
        +:+ "</html>")
  /\ (html <> "" -> includes "tailwind" (ensureTailwindCDN html) = true)
  /\ ensureTailwindCDN (ensureTailwindCDN html) = ensureTailwindCDN html.
Proof.
  assert (Hkeep : forall h, includes "tailwind" h = true -> ensureTailwindCDN h = h).
  { intros h H. unfold ensureTailwindCDN. rewrite H, orb_true_r.
    now destruct (String.eqb h ""). }
  assert (Hcdn : forall h, includes "tailwind" h = false ->
                   includes "cdn.tailwindcss.com" h = false).
  { intros h Hno. destruct (includes "cdn.tailwindcss.com" h) eqn:Hcdn; [|reflexivity].
    now rewrite (includes_trans "tailwind" "cdn.tailwindcss.com" h eq_refl Hcdn) in Hno. }
  assert (Hadd : forall h, h <> "" -> includes "tailwind" h = false ->
                   includes tailwindCDN (ensureTailwindCDN h) = true).
  { intros h Hne Hno. unfold ensureTailwindCDN.
    destruct (String.eqb_spec h ""); [contradiction|].
    rewrite (Hcdn h Hno), Hno. cbn [orb].
    destruct (includes "</head>" h) eqn:H1.
    { destruct (replaceFirst_split "</head>"
                  ("  " +:+ tailwindCDN +:+ newline +:+ "</head>") h H1)
        as (pre & post & _ & _ & ->).
      apply includes_middle. reflexivity. }
    destruct (includes "<head>" h) eqn:H2.
    { destruct (replaceFirst_split "<head>"
                  ("<head>" +:+ newline +:+ "  " +:+ tailwindCDN) h H2)
        as (pre & post & _ & _ & ->).
      apply includes_middle. reflexivity. }
    repeat match goal with
           | |- includes _ (?p +:+ _) = true =>
               lazymatch p with
               | tailwindCDN => fail
               | _ => apply includes_app_r
               end
           end.
    apply includes_app_l, includes_refl. }
  assert (Hword : includes "tailwind" tailwindCDN = true) by reflexivity.
  split; [reflexivity|]. split; [apply Hkeep|]. split; [apply Hadd|].
  split.
  { intros Hne Hno H1. unfold ensureTailwindCDN.
    destruct (String.eqb_spec html ""); [contradiction|].
    rewrite (Hcdn html Hno), Hno, H1. cbn [orb].
    apply replaceFirst_split, H1. }
  split.
  { intros Hne Hno H1 H2. unfold ensureTailwindCDN.
    destruct (String.eqb_spec html ""); [contradiction|].
    rewrite (Hcdn html Hno), Hno, H1, H2. cbn [orb].
    apply replaceFirst_split, H2. }
  split.
  { intros Hne Hno H1 H2. unfold ensureTailwindCDN.
    destruct (String.eqb_spec html ""); [contradiction|].
    rewrite (Hcdn html Hno), Hno, H1, H2. reflexivity. }
  assert (Hhas : html <> "" -> includes "tailwind" (ensureTailwindCDN html) = true).
  { intros Hne. destruct (includes "tailwind" html) eqn:Hin.
    - now rewrite Hkeep.
    - eapply includes_trans; [exact Hword|]. now apply Hadd. }
  split; [exact Hhas|].
  destruct (String.eqb_spec html "") as [->|Hne]; [reflexivity|].
  apply Hkeep, Hhas, Hne.
Qed.

Lemma ensureTailwindCDN_adds_script_once_witness :
  exists pre post,
    "<html><head><title>t</title></head><body></head></body></html>"
    = pre +:+ "</head>" +:+ post
    /\ String.length pre = 28%nat
    /\ ensureTailwindCDN "<html><head><title>t</title></head><body></head></body></html>"
       = pre +:+ ("  " +:+ tailwindCDN +:+ newline +:+ "</head>") +:+ post.
Proof.
  destruct (ensureTailwindCDN_adds_script_once
              "<html><head><title>t</title></head><body></head></body></html>")
    as (_ & _ & _ & H & _).
  destruct H as (pre & post & Hdec & Hfirst & Hres);
    [discriminate|reflexivity|reflexivity|].
  exists pre, post. split; [exact Hdec|]. split; [|exact Hres].
  pose proof (Hfirst "<html><head><title>t</title>" "<body></head></body></html>"
                eq_refl) as Hle.
  cbn [String.length] in Hle.
  assert (Hlen : forall n s, String.length s = n ->
            forall q, startsWith "</head>" (dropChars n (s +:+ q)) = startsWith "</head>" q).
  { intros n s <- q. induction s as [|a s IH]; [reflexivity|]. exact IH. }
  assert (Hat : startsWith "</head>"
                  (dropChars (String.length pre)
                     "<html><head><title>t</title></head><body></head></body></html>")
                = true).
  { rewrite Hdec at 1. rewrite (Hlen _ pre eq_refl). apply startsWith_app. }
  remember (String.length pre) as n eqn:Hn. clear - Hle Hat.
  do 28 (destruct n as [|n]; [vm_compute in Hat; discriminate|]).
  lia.
Defined.

(** ** Slugs *)

Lemma isAlnum_not_hyphen c : isAlnum c = true -> Ascii.eqb c "-" = false.
Proof. destruct c as [[] [] [] [] [] [] [] []]; (reflexivity || discriminate). Qed.

Lemma isAlnum_not_separator c : isAlnum c = true -> isSlugSeparator c = false.
Proof. destruct c as [[] [] [] [] [] [] [] []]; (reflexivity || discriminate). Qed.

Lemma isAlnum_source c : isAlnum c = true -> isSlugSource c = true.
Proof. destruct c as [[] [] [] [] [] [] [] []]; (reflexivity || discriminate). Qed.

Lemma isAlnum_lower c : isAlnum c = true -> lowerChar c = c.
Proof. destruct c as [[] [] [] [] [] [] [] []]; (reflexivity || discriminate). Qed.

Lemma isAlnum_not_space c : isAlnum c = true -> isSpace c = false.
Proof. destruct c as [[] [] [] [] [] [] [] []]; (reflexivity || discriminate). Qed.

Lemma lowered_source_char c :
  isSlugSource (lowerChar c) = true ->
  isSlugSeparator (lowerChar c) = true \/ isAlnum (lowerChar c) = true.
Proof.
  destruct c as [[] [] [] [] [] [] [] []];
    first [discriminate | (left; reflexivity) | (right; reflexivity)].
Qed.

Lemma startsWith_cons a p b s :
  startsWith (String a p) (String b s) = Ascii.eqb a b && startsWith p s.
Proof. reflexivity. Qed.

Lemma includes_cons n b s :
  includes n (String b s) = startsWith n (String b s) || includes n s.
Proof. reflexivity. Qed.

(** What [wordsTail] accepts: only lower-case letters, digits and hyphens,
    no hyphen at the end, none after another, none at the start when the
    previous character was one. *)
Lemma wordsTail_sound h s :
  wordsTail h s = true ->
  forallb (fun c => isAlnum c || Ascii.eqb c "-") (list_ascii_of_string s) = true
  /\ (h = true -> startsWith "-" s = false /\ s <> "")
  /\ includes "--" s = false
  /\ (forall p, s <> p +:+ "-").
Proof.
  revert h. induction s as [|c s IH]; intros h;
    cbn [wordsTail list_ascii_of_string forallb].
  - intros Hh. destruct h; [discriminate|].
    repeat split; try discriminate.
    intros [|a p]; simpl; discriminate.
  - destruct (isAlnum c) eqn:Hc.
    + intros H. destruct (IH _ H) as (Hall & _ & Hdd & Hend).
      pose proof (isAlnum_not_hyphen c Hc) as Hnh.
      rewrite Ascii.eqb_sym in Hnh.
      split; [exact Hall|].
      split; [intros _; split; [now rewrite startsWith_cons, Hnh|discriminate]|].
      split; [now rewrite includes_cons, startsWith_cons, Hnh|].
      intros [|a p]; rewrite ?append_cons, ?append_nil.
      * intros [= -> _]. discriminate.
      * intros [= _ Hs]. exact (Hend _ Hs).
    + destruct (Ascii.eqb_spec c "-") as [->|]; [|discriminate].
      destruct h; cbn [negb andb]; [discriminate|].
      intros H. destruct (IH _ H) as (Hall & Hstart & Hdd & Hend).
      destruct (Hstart eq_refl) as [Hs Hne].
      split; [exact Hall|].
      split; [discriminate|].
      split.
      * rewrite includes_cons, Hdd, orb_false_r.
        destruct s as [|b s]; [contradiction|].
        rewrite startsWith_cons, Hs. apply andb_false_r.
      * intros [|a p]; rewrite ?append_cons, ?append_nil.
        -- intros [= Hs']. contradiction.
        -- intros [= _ Hs']. exact (Hend _ Hs').
Qed.

(** X22.  A slug that [validateSlug] accepts has between 3 and 100
    characters, all of them lower-case letters, digits or hyphens; it
    neither starts nor ends with a hyphen and has no two hyphens in a
    row. *)
Theorem validateSlug_sound (s : string) :
  validateSlug s = true ->
  (3 <= String.length s <= 100)%nat
  /\ forallb (fun c => isAlnum c || Ascii.eqb c "-") (list_ascii_of_string s) = true
  /\ startsWith "-" s = false
  /\ (forall p, s <> p +:+ "-")
  /\ includes "--" s = false
  /\ toLowerCase s = s.
Proof.
  unfold validateSlug, slugRegex. rewrite !andb_true_iff.
  intros [[Hre Hlo] Hhi]. apply Nat.leb_le in Hlo, Hhi.
  destruct s as [|c s]; [discriminate|].
  apply andb_true_iff in Hre as [Hc Ht].
  destruct (wordsTail_sound _ _ Ht) as (Hall & _ & Hdd & Hend).
  pose proof (isAlnum_not_hyphen c Hc) as Hnh. rewrite Ascii.eqb_sym in Hnh.
  split; [simpl in *; lia|].
  split; [cbn [list_ascii_of_string forallb]; now rewrite Hc|].
  split; [now rewrite startsWith_cons, Hnh|]. split.
  { intros [|a p]; rewrite ?append_cons, ?append_nil.
    - intros [= -> _]. discriminate.
    - intros [= _ Hs]. exact (Hend _ Hs). }
  split; [now rewrite includes_cons, startsWith_cons, Hnh|].
  cbn [toLowerCase]. rewrite (isAlnum_lower c Hc). f_equal.
  clear -Hall.
  induction s as [|a s IH]; cbn [toLowerCase list_ascii_of_string forallb] in *;
    [reflexivity|].
  apply andb_true_iff in Hall as [Ha Hs]. rewrite (IH Hs). f_equal.
  apply orb_true_iff in Ha as [Ha|Ha]; [now apply isAlnum_lower|].
  apply Ascii.eqb_eq in Ha as ->. reflexivity.
Qed.

Lemma validateSlug_sound_witness :
  includes "--" "my-site-2" = false.
Proof.
  apply (validateSlug_sound "my-site-2"). reflexivity.
Defined.

Lemma list_ascii_of_string_of_list l :
  list_ascii_of_string (string_of_list_ascii l) = l.
Proof. induction l as [|c l IH]; simpl; [reflexivity|]. now rewrite IH. Qed.

Lemma string_of_list_ascii_of_string' s :
  string_of_list_ascii (list_ascii_of_string s) = s.
Proof. induction s as [|c s IH]; simpl; [reflexivity|]. now rewrite IH. Qed.

(** The characters left by [.replace(/[^\w\s-]/g, '')] in a lower-cased
    text are separators or lower-case letters and digits. *)
Lemma cleaned_chars l :
  Forall (fun c => isSlugSeparator c = true \/ isAlnum c = true)
         (List.filter isSlugSource (map lowerChar l)).
Proof.
  induction l as [|c l IH]; cbn [map List.filter]; [constructor|].
  destruct (isSlugSource (lowerChar c)) eqn:Hc; [|exact IH].
  constructor; [now apply lowered_source_char|exact IH].
Qed.

Lemma hyphenate_cons h c l :
  hyphenate h (c :: l) =
  if isSlugSeparator c
  then (if h then hyphenate true l else "-"%char :: hyphenate true l)
  else c :: hyphenate false l.
Proof. reflexivity. Qed.

Lemma wordsTail_cons h c s :
  wordsTail h (String c s) =
  if isAlnum c then wordsTail false s
  else if Ascii.eqb c "-" then negb h && wordsTail true s else false.
Proof. reflexivity. Qed.

Lemma dropLeadingHyphens_cons c l :
  dropLeadingHyphens (c :: l) =
  if Ascii.eqb c "-" then dropLeadingHyphens l else c :: l.
Proof. reflexivity. Qed.

Lemma dropTrailingHyphens_cons c l :
  dropTrailingHyphens (c :: l) =
  match dropTrailingHyphens l with
  | [] => if Ascii.eqb c "-" then [] else [c]
  | rest => c :: rest
  end.
Proof. reflexivity. Qed.

Lemma dropTrailingHyphens_keeps c l :
  Ascii.eqb c "-" = false ->
  dropTrailingHyphens (c :: l) = c :: dropTrailingHyphens l.
Proof.
  intros Hc. rewrite dropTrailingHyphens_cons, Hc.
  now destruct (dropTrailingHyphens l).
Qed.

(** After [.replace(/[\s_-]+/g, '-')] the text consists of letters, digits
    and single hyphens; [wordsTail] holds of it once the hyphens at both
    ends are gone. *)
Lemma hyphenate_then_drop h l :
  Forall (fun c => isSlugSeparator c = true \/ isAlnum c = true) l ->
  dropTrailingHyphens (hyphenate h l) = []
  \/ wordsTail h (string_of_list_ascii (dropTrailingHyphens (hyphenate h l))) = true.
Proof.
  intros Hl. revert h. induction Hl as [|c l Hc _ IH]; intros h; [now left|].
  rewrite hyphenate_cons.
  destruct (isSlugSeparator c) eqn:Hsep.
  - destruct h; [apply IH|].
    rewrite dropTrailingHyphens_cons.
    destruct (IH true) as [-> | Hw]; [now left|].
    destruct (dropTrailingHyphens (hyphenate true l)) as [|a r] eqn:Hd;
      [discriminate|].
    right. cbn [string_of_list_ascii]. rewrite wordsTail_cons.
    exact Hw.
  - destruct Hc as [Hc|Hc]; [congruence|].
    rewrite (dropTrailingHyphens_keeps _ _ (isAlnum_not_hyphen c Hc)).
    right. cbn [string_of_list_ascii]. rewrite wordsTail_cons, Hc.
    destruct (IH false) as [-> | Hw]; [reflexivity|exact Hw].
Qed.

Lemma hyphenate_leading h l :
  Forall (fun c => isSlugSeparator c = true \/ isAlnum c = true) l ->
  dropLeadingHyphens (hyphenate h l) = []
  \/ exists c l', Forall (fun c => isSlugSeparator c = true \/ isAlnum c = true) l'
       /\ isAlnum c = true
       /\ dropLeadingHyphens (hyphenate h l) = c :: hyphenate false l'.
Proof.
  intros Hl. revert h. induction Hl as [|c l Hc Hl IH]; intros h; [now left|].
  rewrite hyphenate_cons.
  destruct (isSlugSeparator c) eqn:Hsep.
  - destruct h; [apply IH|].
    rewrite dropLeadingHyphens_cons. cbn [Ascii.eqb Bool.eqb]. apply IH.
  - destruct Hc as [Hc|Hc]; [congruence|].
    right. exists c, l. repeat split; try assumption.
    now rewrite dropLeadingHyphens_cons, (isAlnum_not_hyphen c Hc).
Qed.

Lemma generateSlug_shape text :
  generateSlug text = "" \/ slugRegex (generateSlug text) = true.
Proof.
  unfold generateSlug. cbv zeta.
  rewrite <- toLowerCase_trim, toLowerCase_map.
  pose proof (cleaned_chars (list_ascii_of_string (trim text))) as Hl.
  destruct (hyphenate_leading false _ Hl) as [-> | (c & l' & Hl' & Hc & ->)];
    [now left|].
  right. rewrite (dropTrailingHyphens_keeps _ _ (isAlnum_not_hyphen c Hc)).
  cbn [string_of_list_ascii slugRegex]. rewrite Hc.
  destruct (hyphenate_then_drop false _ Hl') as [-> | Hw]; [reflexivity|exact Hw].
Qed.

Lemma wordsTail_chars h s :
  wordsTail h s = true ->
  Forall (fun c => isAlnum c = true \/ c = "-"%char) (list_ascii_of_string s).
Proof.
  revert h. induction s as [|c s IH]; intros h; [constructor|].
  rewrite wordsTail_cons. cbn [list_ascii_of_string].
  destruct (isAlnum c) eqn:Hc.
  - intros H. constructor; [now left|now apply (IH false)].
  - destruct (Ascii.eqb_spec c "-") as [->|]; [|discriminate].
    intros [_ H]%andb_true_iff. constructor; [now right|now apply (IH true)].
Qed.

Lemma slugRegex_chars s :
  slugRegex s = true ->
  Forall (fun c => isAlnum c = true \/ c = "-"%char) (list_ascii_of_string s).
Proof.
  destruct s as [|c s]; [discriminate|].
  intros [Hc Hw]%andb_true_iff.
  constructor; [now left|exact (wordsTail_chars _ _ Hw)].
Qed.

Lemma dropSpaces_id l :
  Forall (fun c => isSpace c = false) l -> dropSpaces l = l.
Proof. destruct 1 as [|c l Hc _]; [reflexivity|]. simpl. now rewrite Hc. Qed.

Lemma hyphenate_id h s :
  wordsTail h s = true ->
  hyphenate h (list_ascii_of_string s) = list_ascii_of_string s.
Proof.
  revert h. induction s as [|c s IH]; intros h; [reflexivity|].
  rewrite wordsTail_cons. cbn [list_ascii_of_string]. rewrite hyphenate_cons.
  destruct (isAlnum c) eqn:Hc.
  - intros H. now rewrite (isAlnum_not_separator c Hc), (IH false H).
  - destruct (Ascii.eqb_spec c "-") as [->|]; [|discriminate].
    destruct h; [discriminate|]. intros H. cbn [negb andb] in H.
    change (isSlugSeparator "-") with true. cbv iota.
    now rewrite (IH true H).
Qed.

Lemma dropTrailingHyphens_id h s :
  wordsTail h s = true ->
  dropTrailingHyphens (list_ascii_of_string s) = list_ascii_of_string s.
Proof.
  revert h. induction s as [|c s IH]; intros h; [reflexivity|].
  rewrite wordsTail_cons. cbn [list_ascii_of_string].
  destruct (isAlnum c) eqn:Hc.
  - intros H.
    now rewrite (dropTrailingHyphens_keeps _ _ (isAlnum_not_hyphen c Hc)), (IH false H).
  - destruct (Ascii.eqb_spec c "-") as [->|]; [|discriminate].
    intros [_ H]%andb_true_iff.
    rewrite dropTrailingHyphens_cons, (IH true H).
    destruct s; [discriminate|reflexivity].
Qed.

Lemma generateSlug_fixes s : slugRegex s = true -> generateSlug s = s.
Proof.
  intros Hs. pose proof (slugRegex_chars s Hs) as Hchars.
  assert (Hlow : toLowerCase s = s).
  { rewrite <- (string_of_list_ascii_of_string' s) at 2.
    rewrite <- (string_of_list_ascii_of_string' (toLowerCase s)), toLowerCase_map.
    f_equal. induction Hchars as [|c l Hc _ IH]; [reflexivity|].
    cbn [map]. rewrite IH. f_equal.
    destruct Hc as [Hc | ->]; [now apply isAlnum_lower|reflexivity]. }
  assert (Hsp : Forall (fun c => isSpace c = false) (list_ascii_of_string s)).
  { eapply List.Forall_impl; [|exact Hchars].
    intros c [Hc | ->]; [now apply isAlnum_not_space|reflexivity]. }
  assert (Htrim : trim s = s).
  { unfold trim. rewrite (dropSpaces_id _ Hsp).
    rewrite (dropSpaces_id (rev _)) by now apply Forall_rev.
    now rewrite rev_involutive, string_of_list_ascii_of_string'. }
  assert (Hfilter : List.filter isSlugSource (list_ascii_of_string s)
                    = list_ascii_of_string s).
  { clear -Hchars. induction Hchars as [|c l Hc _ IH]; [reflexivity|].
    cbn [List.filter]. rewrite IH.
    destruct Hc as [Hc | ->]; [now rewrite (isAlnum_source c Hc)|reflexivity]. }
  unfold generateSlug. cbv zeta. rewrite Hlow, Htrim, Hfilter.
  destruct s as [|c s]; [discriminate|].
  apply andb_true_iff in Hs as [Hc Hw].
  cbn [list_ascii_of_string]. rewrite hyphenate_cons.
  rewrite (isAlnum_not_separator c Hc), (hyphenate_id _ _ Hw).
  rewrite dropLeadingHyphens_cons, (isAlnum_not_hyphen c Hc).
  rewrite (dropTrailingHyphens_keeps _ _ (isAlnum_not_hyphen c Hc)).
  rewrite (dropTrailingHyphens_id _ _ Hw).
  cbn [string_of_list_ascii]. now rewrite string_of_list_ascii_of_string'.
Qed.

(** X23.  [generateSlug] returns the empty string or a string of the form
    [validateSlug] asks for, so that its result is a valid slug exactly
    when it has between 3 and 100 characters; applying it to its own
    result changes nothing. *)
Theorem generateSlug_output (text : string) :
  let slug := generateSlug text in
  (slug = "" \/ slugRegex slug = true)
  /\ validateSlug slug
     = (3 <=? String.length slug)%nat && (String.length slug <=? 100)%nat
  /\ generateSlug slug = slug.
Proof.
  cbv zeta. destruct (generateSlug_shape text) as [H | H].
  - rewrite H. split; [now left|]. split; reflexivity.
  - split; [now right|]. split; [|now apply generateSlug_fixes].
    unfold validateSlug. now rewrite H.
Qed.

(** X24.  [generateSlug] returns a valid slug as it is: every slug that
    [validateSlug] accepts is the slug generated from itself. *)
Theorem generateSlug_keeps_valid_slug (s : string) :
  validateSlug s = true -> generateSlug s = s.
Proof.
  unfold validateSlug. intros [[H _]%andb_true_iff _]%andb_true_iff.
  now apply generateSlug_fixes.
Qed.

Lemma generateSlug_keeps_valid_slug_witness :
  validateSlug "my-site-2" = true /\ generateSlug "my-site-2" = "my-site-2".
Proof.
  split; [reflexivity|].
  apply (generateSlug_keeps_valid_slug "my-site-2"). reflexivity.
Defined.










